(** * The transaction core of [logic/transaction.js]

    A shallow embedding of [Transaction.prototype.*] and of the pieces of
    the JavaScript runtime those functions lean on, followed by the
    properties established about them.

    Conventions of the embedding.
    - A JavaScript Number is represented by the finite decimal it prints
      as (type [number]); arithmetic on numbers is exact.  Rounding to 53
      bits of precision is not represented, nor are NaN and the
      infinities.  The statements about debits and credits therefore
      describe the code as long as the sums stay below [2 ^ 53]; beyond
      that the code rounds, in the big-number helper and in [+], which
      the embedding does not follow.  Which integers are Numbers at all
      is [Double.representable].
    - [null] and [undefined] are [None]; a string is falsy when it is
      absent or empty.
    - An operation that completes through its callback returns
      [Ok err] where [err] is the callback's first argument; an
      exception that escapes is [Throw msg].
    - The account store and the type handlers are external; they are
      threaded through as an explicit [World]. *)

From Stdlib Require Import ZArith Lia Bool List Ascii String.
From Stdlib.Strings Require Import Byte.
From stdpp Require Import gmap strings list.

Local Open Scope Z_scope.

(** ** JavaScript values *)

Module JS.

(** [coef * 10 ^ (- scale)] *)
Record number : Type := Num { coef : Z; scale : nat }.

Definition int (z : Z) : number := Num z 0.

Fixpoint norm_aux (c : Z) (s : nat) : number :=
  match s with
  | O => Num c O
  | S s' => if c mod 10 =? 0 then norm_aux (c / 10) s' else Num c s
  end.

(** The representation with the fewest fractional digits. *)
Definition norm (x : number) : number := norm_aux (coef x) (scale x).


Definition number_compare (x y : number) : comparison :=
  (coef x * 10 ^ Z.of_nat (scale y) ?= coef y * 10 ^ Z.of_nat (scale x)).

(** [x < y], [x > y], [x <= y], [x >= y], [x === y] *)
Definition ltb (x y : number) : bool :=
  match number_compare x y with Lt => true | _ => false end.

Definition gtb (x y : number) : bool := ltb y x.

Definition leb (x y : number) : bool := negb (ltb y x).

Definition geb (x y : number) : bool := negb (ltb x y).

Definition strict_eqb (x y : number) : bool :=
  match number_compare x y with Eq => true | _ => false end.

(** [x + y] and unary minus *)
Definition add (x y : number) : number :=
  norm (Num (coef x * 10 ^ Z.of_nat (scale y) + coef y * 10 ^ Z.of_nat (scale x))
            (scale x + scale y)).

Definition neg (x : number) : number := Num (- coef x) (scale x).

(** Integer part, rounding toward zero (what [x | 0] keeps of [x]). *)
Definition trunc (x : number) : Z := Z.quot (coef x) (10 ^ Z.of_nat (scale x)).

(** ToBoolean on a number: only zero is falsy. *)
Definition truthy (x : number) : bool := negb (coef x =? 0).

(** ToBoolean on a possibly absent string. *)
Definition truthy_str (s : option string) : bool :=
  match s with
  | Some (String _ _) => true
  | _ => false
  end.

(** *** Strings *)

Definition digit_char (d : Z) : ascii := ascii_of_N (Z.to_N (48 + d)).

Fixpoint digits_aux (fuel : nat) (n : Z) (acc : string) : string :=
  match fuel with
  | O => acc
  | S f =>
      let acc' := String (digit_char (n mod 10)) acc in
      if n <? 10 then acc' else digits_aux f (n / 10) acc'
  end.

(** Decimal digits of a non-negative integer. *)
Definition digits (n : Z) : string :=
  digits_aux (S (Z.to_nat (Z.log2 n))) n EmptyString.

Fixpoint zeros (n : nat) : string :=
  match n with
  | O => EmptyString
  | S n' => String "0" (zeros n')
  end.

Fixpoint trailing_zeros (fuel : nat) (m : Z) : nat :=
  match fuel with
  | O => O
  | S f => if (0 <? m) && (m mod 10 =? 0) then S (trailing_zeros f (m / 10)) else O
  end.

Definition strlen (s : string) : Z := Z.of_nat (String.length s).

(** Number::toString of ECMAScript, radix 10.  With [s] the digit string,
    [k] its length and [n] the position of the decimal point, the five
    layouts are: digits and zeros; digits with an inner point; a leading
    "0."; and the two exponent forms. *)
Definition Number_toString (x : number) : string :=
  let y := norm x in
  let c := coef y in
  if c =? 0 then "0"%string
  else
    let sign := if c <? 0 then "-"%string else EmptyString in
    let m := Z.abs c in
    let t := trailing_zeros (S (Z.to_nat (Z.log2 m))) m in
    let s := digits (m / 10 ^ Z.of_nat t) in
    let k := strlen s in
    let n := k + Z.of_nat t - Z.of_nat (scale y) in
    let expo := (if 0 <=? n - 1 then "e+"%string else "e-"%string) +:+ digits (Z.abs (n - 1)) in
    sign +:+
    (if (k <=? n) && (n <=? 21) then s +:+ zeros (Z.to_nat (n - k))
     else if (0 <? n) && (n <=? 21) then
       substring 0 (Z.to_nat n) s +:+ String "." (substring (Z.to_nat n) (Z.to_nat (k - n)) s)
     else if (-6 <? n) && (n <=? 0) then
       "0."%string +:+ zeros (Z.to_nat (- n)) +:+ s
     else if k =? 1 then s +:+ expo
     else substring 0 1 s +:+ String "." (substring 1 (Z.to_nat (k - 1)) s) +:+ expo).

(** [String(z)] for an integer [z]. *)
Definition Z_toString (z : Z) : string := Number_toString (int z).

Fixpoint index_from (i : Z) (s : string) (c : ascii) : Z :=
  match s with
  | EmptyString => -1
  | String a s' => if Ascii.eqb a c then i else index_from (i + 1) s' c
  end.

(** [s.indexOf(c)] for a one-character search string. *)
Definition indexOf (s : string) (c : ascii) : Z := index_from 0 s c.


(** [s.slice(0, -1)]: everything but the last character. *)
Fixpoint slice_0_neg1 (s : string) : string :=
  match s with
  | EmptyString => EmptyString
  | String a s' =>
      match s' with
      | EmptyString => EmptyString
      | String _ _ => String a (slice_0_neg1 s')
      end
  end.

(** [s.slice(1)]: everything but the first character. *)
Definition slice_1 (s : string) : string :=
  match s with
  | EmptyString => EmptyString
  | String _ s' => s'
  end.

Definition upper_char (a : ascii) : ascii :=
  let n := N_of_ascii a in
  if ((97 <=? n) && (n <=? 122))%N then ascii_of_N (n - 32) else a.

Fixpoint toUpperCase (s : string) : string :=
  match s with
  | EmptyString => EmptyString
  | String a s' => String (upper_char a) (toUpperCase s')
  end.

(** [String(v)] for a possibly undefined string value. *)
Definition String_of (s : option string) : string :=
  match s with
  | Some v => v
  | None => "undefined"%string
  end.

(** [a.indexOf(x)] on an array of strings. *)
Fixpoint array_index_from (i : Z) (a : list string) (x : string) : Z :=
  match a with
  | [] => -1
  | y :: a' => if String.eqb y x then i else array_index_from (i + 1) a' x
  end.

Definition array_indexOf (a : list string) (x : option string) : Z :=
  match x with
  | Some v => array_index_from 0 a v
  | None => -1
  end.

(** What an operation hands back: a value, or an escaped exception. *)
Inductive res (A : Type) : Type :=
| Ok (a : A)
| Throw (e : string).

Arguments Ok {A} a.
Arguments Throw {A} e.

(** [e.toString()] of an [Error] carrying message [e]. *)
Definition Error_toString (e : string) : string := ("Error: " +:+ e)%string.

End JS.

(** ** Byte sequences: Node's [Buffer], the [bytebuffer] package and the
    big-number helper *)

Module Bytes.

Definition byte_of_Z (z : Z) : byte :=
  match Byte.of_N (Z.to_N (z mod 256)) with
  | Some b => b
  | None => x00
  end.

Definition Z_of_byte (b : byte) : Z := Z.of_N (Byte.to_N b).

(** The [n] low-order bytes of [z], least significant first. *)
Fixpoint le_bytes (n : nat) (z : Z) : list byte :=
  match n with
  | O => []
  | S n' => byte_of_Z z :: le_bytes n' (z / 256)
  end.

(** The [n] low-order bytes of [z], most significant first. *)
Definition be_bytes (n : nat) (z : Z) : list byte := rev (le_bytes n z).

Fixpoint le_to_Z (l : list byte) : Z :=
  match l with
  | [] => 0
  | b :: l' => Z_of_byte b + 256 * le_to_Z l'
  end.

Definition be_to_Z (l : list byte) : Z :=
  fold_left (fun acc b => acc * 256 + Z_of_byte b) l 0.

Definition hex_val (a : ascii) : option Z :=
  let n := Z.of_N (N_of_ascii a) in
  if (48 <=? n) && (n <=? 57) then Some (n - 48)
  else if (97 <=? n) && (n <=? 102) then Some (n - 87)
  else if (65 <=? n) && (n <=? 70) then Some (n - 55)
  else None.

(** [new Buffer(s, 'hex')].  A string that is not an even number of
    hexadecimal digits is refused ([None]). *)
Fixpoint Buffer_from_hex (s : string) : option (list byte) :=
  match s with
  | EmptyString => Some []
  | String a (String b s') =>
      match hex_val a, hex_val b, Buffer_from_hex s' with
      | Some h, Some l, Some rest => Some (byte_of_Z (16 * h + l) :: rest)
      | _, _, _ => None
      end
  | String _ EmptyString => None
  end.

(** [buf[i]] with [undefined] read as 0, as [buf[i] || 0] and a store
    into a [Buffer] both do. *)
Definition byte_at (buf : list byte) (i : nat) : byte := nth i buf x00.

(** *** The [bytebuffer] package: [new ByteBuffer(capacity, littleEndian)].
    The buffer grows on demand, so only the bytes written so far matter. *)
Record ByteBuffer : Type := { littleEndian : bool; view : list byte }.

Definition ByteBuffer_new (capacity : Z) (le : bool) : ByteBuffer :=
  {| littleEndian := le; view := [] |}.

Definition put (bb : ByteBuffer) (bs : list byte) : ByteBuffer :=
  {| littleEndian := littleEndian bb; view := view bb ++ bs |}.

(** [bb.writeByte(v)]: one byte, [v] taken modulo 256. *)
Definition writeByte (bb : ByteBuffer) (v : Z) : ByteBuffer :=
  put bb [byte_of_Z v].

(** [bb.writeInt(v)]: the 32-bit two's complement of [v] in the buffer's
    byte order. *)
Definition writeInt (bb : ByteBuffer) (v : Z) : ByteBuffer :=
  put bb (if littleEndian bb then le_bytes 4 v else be_bytes 4 v).

(** [Long.fromNumber(x)]: the signed 64-bit integer nearest [x] toward
    zero, clamped at both ends. *)
Definition Long_fromNumber (x : JS.number) : Z :=
  if JS.leb x (JS.int (- 2 ^ 63)) then - 2 ^ 63
  else if JS.geb (JS.add x (JS.int 1)) (JS.int (2 ^ 63)) then 2 ^ 63 - 1
  else JS.trunc x.

(** [bb.writeLong(x)]: the 64-bit two's complement of [Long.fromNumber(x)]
    in the buffer's byte order. *)
Definition writeLong (bb : ByteBuffer) (x : JS.number) : ByteBuffer :=
  put bb (if littleEndian bb then le_bytes 8 (Long_fromNumber x)
          else be_bytes 8 (Long_fromNumber x)).

Fixpoint writeBytes (bb : ByteBuffer) (bs : list byte) : ByteBuffer :=
  match bs with
  | [] => bb
  | b :: bs' => writeBytes (writeByte bb (Z_of_byte b)) bs'
  end.

(** [bb.flip(); bb.toBuffer()] *)
Definition toBuffer (bb : ByteBuffer) : list byte := view bb.

End Bytes.

Module Bignum.

Fixpoint parse_digits (acc : Z) (s : string) : option Z :=
  match s with
  | EmptyString => Some acc
  | String a s' =>
      let n := Z.of_N (N_of_ascii a) in
      if (48 <=? n) && (n <=? 57) then parse_digits (10 * acc + (n - 48)) s' else None
  end.

(** Modelled from the spec: [helpers/bignum.js] is not among the sources.
    [bignum(s)] reads an address prefix "as a decimal integer"; a string
    that is not a non-empty run of decimal digits has no value here. *)
Definition bignum (s : string) : option Z :=
  match s with
  | EmptyString => None
  | _ => parse_digits 0 s
  end.

Definition hex_length (n : Z) : Z := if n =? 0 then 1 else Z.log2 n / 4 + 1.

(** Modelled from the spec: [helpers/bignum.js] is not among the sources.
    [n.toBuffer({size: 8})] serialises "into an 8-byte big-endian field,
    zero-pad on the high end"; a value that needs more than [size] bytes
    takes the next multiple of [size]. *)
Definition toBuffer (size : Z) (n : Z) : list byte :=
  let words := (hex_length n + 2 * size - 1) / (2 * size) in
  Bytes.be_bytes (Z.to_nat (words * size)) n.

(** Modelled from the spec: [helpers/bignum.js] is not among the sources.
    [bignum.fromBuffer(buf)] with no options reads the bytes in the same
    order [toBuffer] writes them, most significant first: the source
    reverses the first eight digest bytes before the call and "the id is
    extracted as little-endian from the digest". *)
Definition fromBuffer (buf : list byte) : Z := Bytes.be_to_Z buf.

(** [n.toString()] of a non-negative integer below [10 ^ 21]. *)
Definition toString (n : Z) : string := JS.Z_toString n.

(** [bignum(x.toString())]: the decimal that [x] prints as, which is what
    a [number] is here. *)
Definition of_number (x : JS.number) : JS.number := x.

(** [a.plus(y.toString())], [a.lessThan(b)] and [a.toNumber()].  The
    sum and the comparison are exact, as arbitrary precision makes them;
    the conversion back is exact below [2 ^ 53] and taken as exact
    beyond. *)
Definition plus (a : JS.number) (y : JS.number) : JS.number := JS.add a (of_number y).

Definition lessThan (a b : JS.number) : bool := JS.ltb a b.

Definition toNumber (a : JS.number) : JS.number := a.

End Bignum.

(** ** Data model *)

Import JS.

Notation "x <- e ;; k" :=
  (match e with
   | Ok x => k
   | Throw err => Throw err
   end) (at level 60, e at next level, right associativity, only parsing).

(** A transaction object.  [asset_keysgroup] is
    [trs.asset.multisignature.keysgroup] when all three levels exist;
    [asset_data] stands for what only the type handler reads. *)
Record Transaction : Type := {
  id : option string;
  type : Z;
  timestamp : Z;
  senderPublicKey : string;
  requesterPublicKey : option string;
  senderId : option string;
  recipientId : option string;
  amount : number;
  fee : number;
  signature : option string;
  signSignature : option string;
  signatures : option (list string);
  asset_keysgroup : option (list string);
  asset_data : string;
  blockId : option string
}.

Record Account : Type := {
  address : string;
  publicKey : option string;
  balance : number;
  u_balance : number;
  secondSignature : bool;
  secondPublicKey : option string;
  multisignatures : option (list string);
  u_multisignatures : option (list string)
}.

Record Block : Type := { b_id : string; b_height : Z }.

(** The object handed to [account.merge]; an absent key is [None]. *)
Record Delta : Type := {
  d_balance : option number;
  d_u_balance : option number;
  d_blockId : option string;
  d_round : option Z
}.

(** The account store together with the answers it is going to give:
    [faults] lists, for the merges to come, whether the store refuses
    ([Some e]) or commits ([None]); past the end it always commits. *)
Record World : Type := {
  accounts : gmap string Account;
  faults : list (option string)
}.

Inductive merged : Type :=
| MergeFailed (e : string)
| Merged (a : Account).

Definition plus_delta (x : number) (d : option number) : number :=
  match d with
  | Some v => add x v
  | None => x
  end.

Definition merge_account (a : Account) (d : Delta) : Account :=
  {| address := address a;
     publicKey := publicKey a;
     balance := plus_delta (balance a) (d_balance d);
     u_balance := plus_delta (u_balance a) (d_u_balance d);
     secondSignature := secondSignature a;
     secondPublicKey := secondPublicKey a;
     multisignatures := multisignatures a;
     u_multisignatures := u_multisignatures a |}.

(** Modelled from the spec: [AccountStore.merge(address, delta, cb(err,
    updated_account))], an "atomic additive update" that can fail with a
    store error.  [blockId] and [round] feed the round bookkeeping outside
    this core and leave the balances alone. *)
Definition merge (w : World) (addr : string) (d : Delta) : merged * World :=
  let w' := {| accounts := accounts w; faults := tail (faults w) |} in
  match faults w with
  | Some e :: _ => (MergeFailed e, w')
  | _ =>
      match accounts w !! addr with
      | None => (MergeFailed "Account not found", w')
      | Some a =>
          let a' := merge_account a d in
          (Merged a', {| accounts := <[addr := a']> (accounts w); faults := tail (faults w) |})
      end
  end.

(** The capability set of a transaction type.  The state-changing
    capabilities act on the accounts and report through their callback
    ([None]: no error). *)
Record Handler : Type := {
  h_getBytes : Transaction -> bool -> bool -> res (option (list byte));
  h_calculateFee : Transaction -> Account -> number;
  h_verify : Transaction -> Account -> option string;
  h_ready : Transaction -> Account -> bool;
  h_apply : Transaction -> Block -> Account -> gmap string Account
            -> option string * gmap string Account;
  h_undo : Transaction -> Block -> Account -> gmap string Account
           -> option string * gmap string Account;
  h_applyUnconfirmed : Transaction -> Account -> gmap string Account
                       -> option string * gmap string Account;
  h_undoUnconfirmed : Transaction -> Account -> gmap string Account
                      -> option string * gmap string Account
}.

(** A handler capability run against the world. *)
Definition run (f : gmap string Account -> option string * gmap string Account)
    (w : World) : option string * World :=
  let '(err, m) := f (accounts w) in
  (err, {| accounts := m; faults := faults w |}).

(** What the module closes over: the registered types, the genesis
    block, the constants and the helpers it requires. *)
Record Scope : Type := {
  types : gmap Z Handler;
  genesisblock_id : string;
  totalAmount : Z;
  delegates : Z;
  exceptions_senderPublicKey : list string;
  getSlotNumber : option Z -> Z;
  sha256 : list byte -> list byte;
  ed_Verify : list byte -> list byte -> list byte -> res bool
}.

(** ** The functions of [Transaction.prototype] *)

Module Transaction.

Import Bytes.

Definition unknown_type (trs : Transaction) : string :=
  ("Unknown transaction type " +:+ Z_toString (type trs))%string.

(** [calc(height)] *)
Definition calc (sc : Scope) (height : Z) : Z :=
  height / delegates sc + (if Z.rem height (delegates sc) >? 0 then 1 else 0).

Definition hex (s : string) : res (list byte) :=
  match Buffer_from_hex s with
  | Some b => Ok b
  | None => Throw "TypeError: Invalid hex string"
  end.

Definition getBytes_body (h : Handler) (trs : Transaction)
    (skipSignature skipSecondSignature : bool) : res ByteBuffer :=
  assetBytes <- h_getBytes h trs skipSignature skipSecondSignature ;;
  let assetSize := match assetBytes with Some b => Z.of_nat (length b) | None => 0 end in
  let bb := ByteBuffer_new (1 + 4 + 32 + 32 + 8 + 8 + 64 + 64 + assetSize) true in
  let bb := writeByte bb (type trs) in
  let bb := writeInt bb (timestamp trs) in
  senderPublicKeyBuffer <- hex (senderPublicKey trs) ;;
  let bb := writeBytes bb senderPublicKeyBuffer in
  bb <- match requesterPublicKey trs with
        | Some (String _ _ as k) => b <- hex k ;; Ok (writeBytes bb b)
        | _ => Ok bb
        end ;;
  bb <- match recipientId trs with
        | Some (String _ _ as r) =>
            match Bignum.bignum (slice_0_neg1 r) with
            | Some n =>
                let recipient := Bignum.toBuffer 8 n in
                Ok (fold_left (fun b i => writeByte b (Z_of_byte (byte_at recipient i)))
                              (seq 0 8) bb)
            | None => Throw "Not a number"
            end
        | _ => Ok (fold_left (fun b _ => writeByte b 0) (seq 0 8) bb)
        end ;;
  let bb := writeLong bb (amount trs) in
  let bb := match assetBytes with
            | Some b => if assetSize >? 0 then writeBytes bb b else bb
            | None => bb
            end in
  bb <- match signature trs with
        | Some (String _ _ as s) =>
            if negb skipSignature then b <- hex s ;; Ok (writeBytes bb b) else Ok bb
        | _ => Ok bb
        end ;;
  bb <- match signSignature trs with
        | Some (String _ _ as s) =>
            if negb skipSecondSignature then b <- hex s ;; Ok (writeBytes bb b) else Ok bb
        | _ => Ok bb
        end ;;
  Ok bb.

Definition getBytes (sc : Scope) (trs : Transaction)
    (skipSignature skipSecondSignature : bool) : res (list byte) :=
  match types sc !! type trs with
  | None => Throw (unknown_type trs)
  | Some h =>
      match getBytes_body h trs skipSignature skipSecondSignature with
      | Ok bb => Ok (toBuffer bb)
      | Throw e => Throw (Error_toString e)
      end
  end.

Definition getHash (sc : Scope) (trs : Transaction) : res (list byte) :=
  bytes <- getBytes sc trs false false ;;
  Ok (sha256 sc bytes).

Definition getId (sc : Scope) (trs : Transaction) : res string :=
  hash <- getHash sc trs ;;
  let temp := map (fun i => byte_at hash (7 - i)) (seq 0 8) in
  Ok (Bignum.toString (Bignum.fromBuffer temp)).

Definition ready (sc : Scope) (trs : Transaction) (sender : option Account) : res bool :=
  match types sc !! type trs with
  | None => Throw (unknown_type trs)
  | Some h =>
      match sender with
      | None => Ok false
      | Some s => Ok (h_ready h trs s)
      end
  end.

Definition verifyBytes (sc : Scope) (bytes : list byte)
    (publicKey : option string) (signature : string) : res bool :=
  let body :=
    let data2 := bytes in
    let hash := sha256 sc data2 in
    signatureBuffer <- hex signature ;;
    publicKeyBuffer <- match publicKey with
                       | Some k => hex k
                       | None => Throw "TypeError: must start with number, buffer, array or string"
                       end ;;
    ed_Verify sc hash signatureBuffer publicKeyBuffer in
  match body with
  | Ok r => Ok r
  | Throw e => Throw (Error_toString e)
  end.

Definition verifySignature (sc : Scope) (trs : Transaction)
    (publicKey : option string) (signature : option string) : res bool :=
  match types sc !! type trs with
  | None => Throw (unknown_type trs)
  | Some _ =>
      match signature with
      | Some (String _ _ as sg) =>
          let body := bytes <- getBytes sc trs true true ;; verifyBytes sc bytes publicKey sg in
          match body with
          | Ok r => Ok r
          | Throw e => Throw (Error_toString e)
          end
      | _ => Ok false
      end
  end.

Definition verifySecondSignature (sc : Scope) (trs : Transaction)
    (publicKey : option string) (signature : option string) : res bool :=
  match types sc !! type trs with
  | None => Throw (unknown_type trs)
  | Some _ =>
      match signature with
      | Some (String _ _ as sg) =>
          let body := bytes <- getBytes sc trs false true ;; verifyBytes sc bytes publicKey sg in
          match body with
          | Ok r => Ok r
          | Throw e => Throw (Error_toString e)
          end
      | _ => Ok false
      end
  end.

(** *** [verify] *)

(** A point inside a function body: either the function has returned, or
    control goes on with a value. *)
Inductive stage (A : Type) : Type :=
| Return (r : res (option string))
| Next (a : A).

Arguments Return {A} r.
Arguments Next {A} a.

Notation "'on' x <~ e ;; k" :=
  (match e with
   | Return r => Return r
   | Next x => k
   end) (at level 60, x pattern, e at next level, right associativity, only parsing).

(** [return setImmediate(cb, e)] *)
Definition cb_err {A : Type} (e : string) : stage A := Return (Ok (Some e)).

Definition opt_str_neq (a : option string) (b : string) : bool :=
  match a with
  | Some v => negb (String.eqb v b)
  | None => true
  end.

Definition requester_secondSignature (requester : option Account) : bool :=
  match requester with
  | Some r => secondSignature r
  | None => false
  end.

Definition requester_secondPublicKey (requester : option Account) : option string :=
  match requester with
  | Some r => secondPublicKey r
  | None => None
  end.

(** [trs.signatures.reduce(...)]: the signatures without repetitions. *)
Definition unique_signatures (sigs : list string) : list string :=
  fold_left (fun p c => if array_index_from 0 p c <? 0 then p ++ [c] else p) sigs [].

(** Lines 277-360: type, sender, sender public key, sender address,
    requester public key, signature, second signature, unique
    signatures. *)
Definition verify_upto_unique_signatures (sc : Scope) (trs : Transaction)
    (sender requester : option Account) : stage (Handler * Account) :=
  match types sc !! type trs with
  | None => cb_err (unknown_type trs)
  | Some h =>
  match sender with
  | None => cb_err "Missing sender"
  | Some sender =>
  if opt_str_neq (publicKey sender) (senderPublicKey trs)
     && negb (-1 <? array_indexOf (exceptions_senderPublicKey sc) (id trs))
  then cb_err "Invalid sender public key"
  else if negb (String.eqb (toUpperCase (String_of (senderId trs)))
                           (toUpperCase (address sender)))
  then cb_err "Invalid sender address"
  else
  on _ <~ (if truthy_str (requesterPublicKey trs) then
             match multisignatures sender with
             | None => Return (Throw "TypeError: Cannot read property 'indexOf' of undefined")
             | Some ms =>
                 if array_indexOf ms (requesterPublicKey trs) <? 0
                 then cb_err "Invalid requester public key" else Next tt
             end
           else Next tt) ;;
  on _ <~ (match (if truthy_str (requesterPublicKey trs)
                  then verifySignature sc trs (requesterPublicKey trs) (signature trs)
                  else verifySignature sc trs (Some (senderPublicKey trs)) (signature trs)) with
           | Throw e => cb_err (Error_toString e)
           | Ok valid => if negb valid then cb_err "Failed to verify signature" else Next tt
           end) ;;
  on _ <~ (if negb (truthy_str (requesterPublicKey trs)) && secondSignature sender then
             match verifySecondSignature sc trs (secondPublicKey sender) (signSignature trs) with
             | Throw e => cb_err (Error_toString e)
             | Ok valid =>
                 if negb valid then cb_err "Failed to verify second signature" else Next tt
             end
           else if truthy_str (requesterPublicKey trs) && requester_secondSignature requester then
             match verifySecondSignature sc trs (requester_secondPublicKey requester)
                     (signSignature trs) with
             | Throw e => cb_err (Error_toString e)
             | Ok valid =>
                 if negb valid then cb_err "Failed to verify second signature" else Next tt
             end
           else Next tt) ;;
  on _ <~ (match signatures trs with
           | Some ((_ :: _) as sigs) =>
               if negb (length (unique_signatures sigs) =? length sigs)%nat
               then cb_err "Encountered duplicate signature in transaction" else Next tt
           | _ => Next tt
           end) ;;
  Next (h, sender)
  end
  end.

(** Which array the local variable [multisignatures] is: one of the two
    arrays held by the sender object, or an array of its own. *)
Inductive array_ref : Type :=
| SenderMultisignatures
| SenderUMultisignatures
| Fresh.

(** A store into the array designated by [r], seen from the sender. *)
Definition set_array (r : array_ref) (a : list string) (sender : Account) : Account :=
  match r with
  | SenderMultisignatures =>
      {| address := address sender; publicKey := publicKey sender;
         balance := balance sender; u_balance := u_balance sender;
         secondSignature := secondSignature sender;
         secondPublicKey := secondPublicKey sender;
         multisignatures := Some a;
         u_multisignatures := u_multisignatures sender |}
  | SenderUMultisignatures =>
      {| address := address sender; publicKey := publicKey sender;
         balance := balance sender; u_balance := u_balance sender;
         secondSignature := secondSignature sender;
         secondPublicKey := secondPublicKey sender;
         multisignatures := multisignatures sender;
         u_multisignatures := Some a |}
  | Fresh => sender
  end.

(** The inner loop over the keys, for one signature. *)
Fixpoint keys_loop (sc : Scope) (trs : Transaction) (keys : list string)
    (sg : string) (verify : bool) : res bool :=
  match keys with
  | [] => Ok verify
  | k :: keys' =>
      if truthy_str (requesterPublicKey trs)
         && negb (opt_str_neq (requesterPublicKey trs) k)
      then keys_loop sc trs keys' sg verify
      else
        v <- verifySignature sc trs (Some k) (Some sg) ;;
        keys_loop sc trs keys' sg (if v then true else verify)
  end.

(** The outer loop over [trs.signatures]. *)
Fixpoint signatures_loop (sc : Scope) (trs : Transaction) (keys : list string)
    (sigs : list string) : stage unit :=
  match sigs with
  | [] => Next tt
  | sg :: sigs' =>
      match keys_loop sc trs keys sg false with
      | Throw e => Return (Throw e)
      | Ok verify =>
          if negb verify then cb_err "Failed to verify multisignature"
          else signatures_loop sc trs keys sigs'
      end
  end.

(** Lines 362-399.  Returns the sender object as the block leaves it. *)
Definition verify_multisignatures (sc : Scope) (trs : Transaction)
    (sender : Account) : stage unit * Account :=
  let '(r, multisignatures) :=
    match multisignatures sender with
    | Some a => (SenderMultisignatures, a)
    | None =>
        match u_multisignatures sender with
        | Some a => (SenderUMultisignatures, a)
        | None => (Fresh, [])
        end
    end in
  let '(r, multisignatures) :=
    if (length multisignatures =? 0)%nat then
      match asset_keysgroup trs with
      | Some keysgroup => (Fresh, map slice_1 keysgroup)
      | None => (r, multisignatures)
      end
    else (r, multisignatures) in
  let '(multisignatures, sender) :=
    if truthy_str (requesterPublicKey trs) then
      let a := multisignatures ++ [senderPublicKey trs] in (a, set_array r a sender)
    else (multisignatures, sender) in
  (match signatures trs with
   | Some sigs => signatures_loop sc trs multisignatures sigs
   | None => Next tt
   end, sender).

(** Line 403 *)
Definition fee_check_fails (h : Handler) (trs : Transaction) (sender : Account) : bool :=
  let fee0 := h_calculateFee h trs sender in
  negb (truthy fee0) || negb (strict_eqb (fee trs) fee0).

(** Line 408 *)
Definition amount_check_fails (sc : Scope) (trs : Transaction) : bool :=
  ltb (amount trs) (int 0)
  || gtb (amount trs) (int (totalAmount sc))
  || (0 <=? indexOf (Number_toString (amount trs)) ".")
  || (0 <=? indexOf (Number_toString (amount trs)) "e").

(** Lines 412-420 *)
Definition verify_timestamp_onward (sc : Scope) (h : Handler) (trs : Transaction)
    (sender : Account) : res (option string) :=
  if getSlotNumber sc (Some (timestamp trs)) >? getSlotNumber sc None
  then Ok (Some "Invalid transaction timestamp"%string)
  else Ok (h_verify h trs sender).

(** Lines 407-420 *)
Definition verify_amount_onward (sc : Scope) (h : Handler) (trs : Transaction)
    (sender : Account) : res (option string) :=
  if amount_check_fails sc trs then Ok (Some "Invalid transaction amount"%string)
  else verify_timestamp_onward sc h trs sender.

(** Lines 401-420 *)
Definition verify_fee_onward (sc : Scope) (h : Handler) (trs : Transaction)
    (sender : Account) : res (option string) :=
  if fee_check_fails h trs sender then Ok (Some "Invalid transaction fee"%string)
  else verify_amount_onward sc h trs sender.

(** [verify(trs, sender, requester, cb)]: what the callback receives (or
    the exception that escapes) and the sender object afterwards. *)
Definition verify (sc : Scope) (trs : Transaction) (sender requester : option Account)
    : res (option string) * option Account :=
  match verify_upto_unique_signatures sc trs sender requester with
  | Return r => (r, sender)
  | Next (h, s) =>
      match verify_multisignatures sc trs s with
      | (Return r, s') => (r, Some s')
      | (Next _, s') => (verify_fee_onward sc h trs s', Some s')
      end
  end.

(** *** [apply], [undo], [applyUnconfirmed], [undoUnconfirmed] *)

Definition confirmed_delta (sc : Scope) (block : Block) (v : number) : Delta :=
  {| d_balance := Some v;
     d_u_balance := None;
     d_blockId := Some (b_id block);
     d_round := Some (calc sc (b_height block)) |}.

Definition unconfirmed_delta (v : number) : Delta :=
  {| d_balance := None; d_u_balance := Some v; d_blockId := None; d_round := None |}.

Definition no_funds (sender : Account) (bal : number) : string :=
  ("Account has no LISK: " +:+ address sender +:+ " balance=" +:+ Number_toString bal)%string.

Definition apply (sc : Scope) (trs : Transaction) (block : Block)
    (sender : option Account) (w : World) : res (option string) * World :=
  match types sc !! type trs with
  | None => (Ok (Some (unknown_type trs)), w)
  | Some h =>
  match ready sc trs sender with
  | Throw e => (Throw e, w)
  | Ok false => (Ok (Some "Transaction is not ready"%string), w)
  | Ok true =>
  match sender with
  | None => (Throw "TypeError: Cannot read property 'balance' of null", w)
  | Some sender =>
  let amount := Bignum.plus (Bignum.of_number (amount trs)) (fee trs) in
  let exceedsBalance := Bignum.lessThan (Bignum.of_number (balance sender)) amount in
  if opt_str_neq (blockId trs) (genesisblock_id sc) && exceedsBalance
  then (Ok (Some (no_funds sender (balance sender))), w)
  else
  let amount := Bignum.toNumber amount in
  match merge w (address sender) (confirmed_delta sc block (neg amount)) with
  | (MergeFailed err, w1) => (Ok (Some err), w1)
  | (Merged sender, w1) =>
      match run (h_apply h trs block sender) w1 with
      | (Some err, w2) =>
          match merge w2 (address sender) (confirmed_delta sc block amount) with
          | (MergeFailed err, w3) => (Ok (Some err), w3)
          | (Merged _, w3) => (Ok None, w3)
          end
      | (None, w2) => (Ok None, w2)
      end
  end
  end
  end
  end.

Definition undo (sc : Scope) (trs : Transaction) (block : Block)
    (sender : Account) (w : World) : res (option string) * World :=
  match types sc !! type trs with
  | None => (Ok (Some (unknown_type trs)), w)
  | Some h =>
  let amount := add (amount trs) (fee trs) in
  match merge w (address sender) (confirmed_delta sc block amount) with
  | (MergeFailed err, w1) => (Ok (Some err), w1)
  | (Merged sender, w1) =>
      match run (h_undo h trs block sender) w1 with
      | (Some err, w2) =>
          match merge w2 (address sender) (confirmed_delta sc block amount) with
          | (MergeFailed err, w3) => (Ok (Some err), w3)
          | (Merged _, w3) => (Ok None, w3)
          end
      | (None, w2) => (Ok None, w2)
      end
  end
  end.

Definition applyUnconfirmed (sc : Scope) (trs : Transaction)
    (sender : Account) (requester : option Account) (w : World)
    : res (option string) * World :=
  match types sc !! type trs with
  | None => (Ok (Some (unknown_type trs)), w)
  | Some h =>
  if negb (truthy_str (requesterPublicKey trs)) && secondSignature sender
     && negb (truthy_str (signSignature trs))
     && opt_str_neq (blockId trs) (genesisblock_id sc)
  then (Ok (Some "Missing sender second signature"%string), w)
  else if negb (truthy_str (requesterPublicKey trs)) && negb (secondSignature sender)
          && (truthy_str (signSignature trs)
              && (strlen (String_of (signSignature trs)) >? 0))
  then (Ok (Some "Sender does not have a second signature"%string), w)
  else if truthy_str (requesterPublicKey trs) && requester_secondSignature requester
          && negb (truthy_str (signSignature trs))
  then (Ok (Some "Missing requester second signature"%string), w)
  else if truthy_str (requesterPublicKey trs) && negb (requester_secondSignature requester)
          && (truthy_str (signSignature trs)
              && (strlen (String_of (signSignature trs)) >? 0))
  then (Ok (Some "Requester does not have a second signature"%string), w)
  else
  let amount := Bignum.plus (Bignum.of_number (amount trs)) (fee trs) in
  let exceedsBalance := Bignum.lessThan (Bignum.of_number (u_balance sender)) amount in
  if opt_str_neq (blockId trs) (genesisblock_id sc) && exceedsBalance
  then (Ok (Some (no_funds sender (u_balance sender))), w)
  else
  let amount := Bignum.toNumber amount in
  match merge w (address sender) (unconfirmed_delta (neg amount)) with
  | (MergeFailed err, w1) => (Ok (Some err), w1)
  | (Merged sender, w1) =>
      match run (h_applyUnconfirmed h trs sender) w1 with
      | (Some err, w2) =>
          match merge w2 (address sender) (unconfirmed_delta amount) with
          | (MergeFailed err2, w3) => (Ok (Some err2), w3)
          | (Merged _, w3) => (Ok (Some err), w3)
          end
      | (None, w2) => (Ok None, w2)
      end
  end
  end.

Definition undoUnconfirmed (sc : Scope) (trs : Transaction)
    (sender : Account) (w : World) : res (option string) * World :=
  match types sc !! type trs with
  | None => (Ok (Some (unknown_type trs)), w)
  | Some h =>
  let amount := add (amount trs) (fee trs) in
  match merge w (address sender) (unconfirmed_delta amount) with
  | (MergeFailed err, w1) => (Ok (Some err), w1)
  | (Merged sender, w1) =>
      match run (h_undoUnconfirmed h trs sender) w1 with
      | (Some err, w2) =>
          match merge w2 (address sender) (unconfirmed_delta (neg amount)) with
          | (MergeFailed err2, w3) => (Ok (Some err2), w3)
          | (Merged _, w3) => (Ok (Some err), w3)
          end
      | (None, w2) => (Ok None, w2)
      end
  end
  end.

(** The balance the store holds for [addr]. *)
Definition balance_at (w : World) (addr : string) : option number :=
  balance <$> accounts w !! addr.

(** The handler contributes no asset bytes. *)
Definition asset_empty (assetBytes : option (list byte)) : Prop :=
  match assetBytes with
  | Some b => b = []
  | None => True
  end.


(** A handler capability that reports [e] and leaves the accounts as
    they were. *)
Definition handler_fails
    (f : Account -> gmap string Account -> option string * gmap string Account)
    (e : string) : Prop :=
  forall (a : Account) (m : gmap string Account), f a m = (Some e, m).

(** The sender object after [n] calls of [verify] on it. *)
Fixpoint verify_repeatedly (sc : Scope) (trs : Transaction) (requester : option Account)
    (n : nat) (sender : option Account) : option Account :=
  match n with
  | O => sender
  | S n' => verify_repeatedly sc trs requester n' (snd (verify sc trs sender requester))
  end.

End Transaction.

(** ** The specification's wording of the two byte-level formulas, kept
    apart from the code for comparison *)

Module Spec.

Import Bytes.

(** Section 4.1 with timestamp and amount most significant byte first. *)
Definition canonical_bytes (ty ts : Z) (pk : list byte) (recipient amt : Z)
    (sg : list byte) : list byte :=
  [byte_of_Z ty] ++ be_bytes 4 ts ++ pk ++ be_bytes 8 recipient ++ be_bytes 8 amt ++ sg.

(** Section 4.1, item 5: the number the recipient field holds. *)
Definition recipient_number (r : option string) : option Z :=
  match r with
  | Some (String _ _ as v) => Bignum.bignum (slice_0_neg1 v)
  | _ => Some 0
  end.

(** Section 4.2 read word for word: the first eight digest bytes,
    reversed, then taken least significant byte first. *)
Definition id_of_digest (digest : list byte) : string :=
  Bignum.toString (le_to_Z (rev (firstn 8 digest))).

End Spec.

(** ** SHA-256 (FIPS 180-4), the digest behind [crypto.createHash('sha256')] *)

Module SHA256.

Import Bytes.

Definition w32 (x : Z) : Z := x mod 2 ^ 32.

Definition rotr (n x : Z) : Z := w32 (Z.lor (Z.shiftr x n) (Z.shiftl x (32 - n))).

Definition Ch (x y z : Z) : Z := Z.lxor (Z.land x y) (Z.land (w32 (Z.lnot x)) z).

Definition Maj (x y z : Z) : Z := Z.lxor (Z.lxor (Z.land x y) (Z.land x z)) (Z.land y z).

Definition Sigma0 (x : Z) : Z := Z.lxor (Z.lxor (rotr 2 x) (rotr 13 x)) (rotr 22 x).

Definition Sigma1 (x : Z) : Z := Z.lxor (Z.lxor (rotr 6 x) (rotr 11 x)) (rotr 25 x).

Definition sigma0 (x : Z) : Z := Z.lxor (Z.lxor (rotr 7 x) (rotr 18 x)) (Z.shiftr x 3).

Definition sigma1 (x : Z) : Z := Z.lxor (Z.lxor (rotr 17 x) (rotr 19 x)) (Z.shiftr x 10).

Definition is_prime (n : nat) : bool :=
  (1 <? n)%nat && forallb (fun d => negb (Nat.eqb (n mod d) 0)) (seq 2 (n - 2)).

(** The first [n] primes; all those needed lie below 312. *)
Definition primes (n : nat) : list Z :=
  map Z.of_nat (firstn n (filter is_prime (seq 2 310))).

(** The largest [r] below [2 ^ bits] with [r ^ 3 <= n]. *)
Fixpoint cube_root (bits : nat) (n r : Z) : Z :=
  match bits with
  | O => r
  | S b =>
      let r' := r + 2 ^ Z.of_nat b in
      cube_root b n (if r' * r' * r' <=? n then r' else r)
  end.

(** The first 32 bits of the fractional parts of the cube roots of the
    first 64 primes. *)
Definition K : list Z := map (fun p => w32 (cube_root 36 (p * 2 ^ 96) 0)) (primes 64).

(** The first 32 bits of the fractional parts of the square roots of the
    first 8 primes. *)
Definition H0 : list Z := map (fun p => w32 (Z.sqrt (p * 2 ^ 64))) (primes 8).

(** The message, a single 1 bit, zeros up to 56 modulo 64, and the bit
    length as eight bytes most significant first. *)
Definition pad (msg : list byte) : list byte :=
  let len := Z.of_nat (length msg) in
  let fill := Z.to_nat ((55 - len) mod 64) in
  msg ++ [x80] ++ repeat x00 fill ++ be_bytes 8 (8 * len).

Fixpoint words (fuel : nat) (bs : list byte) : list Z :=
  match fuel, bs with
  | S f, a :: b :: c :: d :: rest => be_to_Z [a; b; c; d] :: words f rest
  | _, _ => []
  end.

Definition at_ (l : list Z) (i : nat) : Z := nth i l 0.

(** The 64-entry message schedule grown from the 16 words of a block. *)
Fixpoint schedule (n : nat) (w : list Z) : list Z :=
  match n with
  | O => w
  | S n' =>
      let t := length w in
      schedule n' (w ++ [w32 (sigma1 (at_ w (t - 2)) + at_ w (t - 7)
                              + sigma0 (at_ w (t - 15)) + at_ w (t - 16))])
  end.

Definition round (st : list Z) (kw : Z * Z) : list Z :=
  match st with
  | [a; b; c; d; e; f; g; h] =>
      let t1 := h + Sigma1 e + Ch e f g + fst kw + snd kw in
      let t2 := Sigma0 a + Maj a b c in
      [w32 (t1 + t2); a; b; c; w32 (d + t1); e; f; g]
  | _ => st
  end.

Definition compress (hs : list Z) (block : list Z) : list Z :=
  let w := schedule 48 block in
  let st := fold_left round (combine K w) hs in
  map (fun p => w32 (fst p + snd p)) (combine hs st).

Fixpoint blocks (fuel : nat) (ws : list Z) (hs : list Z) : list Z :=
  match fuel with
  | O => hs
  | S f =>
      match ws with
      | [] => hs
      | _ => blocks f (skipn 16 ws) (compress hs (firstn 16 ws))
      end
  end.

Definition sha256 (msg : list byte) : list byte :=
  let p := pad msg in
  let ws := words (length p) p in
  concat (map (be_bytes 4) (blocks (length ws) ws H0)).

End SHA256.

(** ** A small chain to run the functions on *)

Module Fixture.

Import Bytes.

Definition no_change (m : gmap string Account) : option string * gmap string Account :=
  (None, m).

Definition failing (m : gmap string Account) : option string * gmap string Account :=
  (Some "handler failed"%string, m).

(** Type 0: a transfer-like handler with a fixed fee and no asset bytes. *)
Definition transfer : Handler :=
  {| h_getBytes := fun _ _ _ => Ok None;
     h_calculateFee := fun _ _ => int 10000000;
     h_verify := fun _ _ => None;
     h_ready := fun _ _ => true;
     h_apply := fun _ _ _ => no_change;
     h_undo := fun _ _ _ => no_change;
     h_applyUnconfirmed := fun _ _ => no_change;
     h_undoUnconfirmed := fun _ _ => no_change |}.

(** Type 1: a handler whose state changes always report an error. *)
Definition broken : Handler :=
  {| h_getBytes := fun _ _ _ => Ok None;
     h_calculateFee := fun _ _ => int 10000000;
     h_verify := fun _ _ => None;
     h_ready := fun _ _ => true;
     h_apply := fun _ _ _ => failing;
     h_undo := fun _ _ _ => failing;
     h_applyUnconfirmed := fun _ _ => failing;
     h_undoUnconfirmed := fun _ _ => failing |}.

(** Type 2: a handler that charges nothing. *)
Definition free : Handler :=
  {| h_getBytes := fun _ _ _ => Ok None;
     h_calculateFee := fun _ _ => int 0;
     h_verify := fun _ _ => None;
     h_ready := fun _ _ => true;
     h_apply := fun _ _ _ => no_change;
     h_undo := fun _ _ _ => no_change;
     h_applyUnconfirmed := fun _ _ => no_change;
     h_undoUnconfirmed := fun _ _ => no_change |}.

(** Signatures are taken to verify; the digest is the real one. *)
Definition scope : Scope :=
  {| types := <[0 := transfer]> (<[1 := broken]> (<[2 := free]> ∅));
     genesisblock_id := "6524861224470851795";
     totalAmount := 10000000000000000;
     delegates := 101;
     exceptions_senderPublicKey := [];
     getSlotNumber := fun t => match t with Some v => v / 10 | None => 100000 end;
     sha256 := SHA256.sha256;
     ed_Verify := fun _ _ _ => Ok true |}.

Definition key_a : string :=
  "5d036a858ce89f844491762eb89e2bfbd50a4a0a0da658e4b2628b25b117ae09".

Definition key_b : string :=
  "0401c8ac9f29ded9e1e4d5b6b43051cb25b22f27c7b7b35092161e851946f82f".

Definition sig_a : string :=
  "618a54975212ead93df8c881655c625544bce8ed7ccdfe6f08a42eecfb1adebd" +:+
  "051307be5014bb051617baf7815d50f62129e70918190361e5d4dd4796541b0a".

Definition unhex (s : string) : list byte :=
  match Buffer_from_hex s with
  | Some b => b
  | None => []
  end.

Definition alice : Account :=
  {| address := "18160565574430594874L";
     publicKey := Some key_a;
     balance := int 100000000000;
     u_balance := int 100000000000;
     secondSignature := false;
     secondPublicKey := None;
     multisignatures := None;
     u_multisignatures := None |}.

(** The same account with a second signature registered. *)
Definition alice_second : Account :=
  {| address := address alice;
     publicKey := publicKey alice;
     balance := balance alice;
     u_balance := u_balance alice;
     secondSignature := true;
     secondPublicKey := Some key_b;
     multisignatures := None;
     u_multisignatures := None |}.

(** The same account with one co-signer. *)
Definition alice_group : Account :=
  {| address := address alice;
     publicKey := publicKey alice;
     balance := balance alice;
     u_balance := u_balance alice;
     secondSignature := false;
     secondPublicKey := None;
     multisignatures := Some [key_b];
     u_multisignatures := None |}.

(** The transfer of the first end-to-end scenario. *)
Definition payment : Transaction :=
  {| id := None;
     type := 0;
     timestamp := 141738;
     senderPublicKey := key_a;
     requesterPublicKey := None;
     senderId := Some (address alice);
     recipientId := Some "58191285901858109L"%string;
     amount := int 1000;
     fee := int 10000000;
     signature := Some sig_a;
     signSignature := None;
     signatures := None;
     asset_keysgroup := None;
     asset_data := "";
     blockId := Some "4366553906931540162"%string |}.

Definition with_type (t : Z) (trs : Transaction) : Transaction :=
  {| id := id trs; type := t; timestamp := timestamp trs;
     senderPublicKey := senderPublicKey trs;
     requesterPublicKey := requesterPublicKey trs;
     senderId := senderId trs; recipientId := recipientId trs;
     amount := amount trs; fee := fee trs;
     signature := signature trs; signSignature := signSignature trs;
     signatures := signatures trs; asset_keysgroup := asset_keysgroup trs;
     asset_data := asset_data trs; blockId := blockId trs |}.

Definition with_fee (f : number) (trs : Transaction) : Transaction :=
  {| id := id trs; type := type trs; timestamp := timestamp trs;
     senderPublicKey := senderPublicKey trs;
     requesterPublicKey := requesterPublicKey trs;
     senderId := senderId trs; recipientId := recipientId trs;
     amount := amount trs; fee := f;
     signature := signature trs; signSignature := signSignature trs;
     signatures := signatures trs; asset_keysgroup := asset_keysgroup trs;
     asset_data := asset_data trs; blockId := blockId trs |}.

Definition with_signSignature (s : option string) (trs : Transaction) : Transaction :=
  {| id := id trs; type := type trs; timestamp := timestamp trs;
     senderPublicKey := senderPublicKey trs;
     requesterPublicKey := requesterPublicKey trs;
     senderId := senderId trs; recipientId := recipientId trs;
     amount := amount trs; fee := fee trs;
     signature := signature trs; signSignature := s;
     signatures := signatures trs; asset_keysgroup := asset_keysgroup trs;
     asset_data := asset_data trs; blockId := blockId trs |}.

Definition with_requester (k : option string) (trs : Transaction) : Transaction :=
  {| id := id trs; type := type trs; timestamp := timestamp trs;
     senderPublicKey := senderPublicKey trs;
     requesterPublicKey := k;
     senderId := senderId trs; recipientId := recipientId trs;
     amount := amount trs; fee := fee trs;
     signature := signature trs; signSignature := signSignature trs;
     signatures := signatures trs; asset_keysgroup := asset_keysgroup trs;
     asset_data := asset_data trs; blockId := blockId trs |}.


Definition block : Block := {| b_id := "4366553906931540162"; b_height := 250 |}.

Definition world : World :=
  {| accounts := <[address alice := alice]> ∅; faults := [] |}.

End Fixture.


(** ** Integers as Numbers *)

Module Double.

(** A Number is an IEEE 754 double, with 53 significant bits.  [excess z]
    is how many low-order bits of the integer [z] lie beyond them. *)
Definition excess (z : Z) : Z := Z.log2 (Z.abs z) - 52.

(** The integers that are Numbers (the exponent range, which ends beyond
    [2 ^ 1023], aside). *)
Definition representable (z : Z) : bool :=
  (excess z <=? 0) || (Z.abs z mod 2 ^ excess z =? 0).

(** The Number value of an integer: the nearest double, and of two
    equally near the one with the even significand.  It is what an
    integer literal denotes and what [x + y] gives for the exact sum of
    two integral Numbers. *)
Definition nearest (z : Z) : Z :=
  let e := excess z in
  if e <=? 0 then z
  else
    let q := Z.abs z / 2 ^ e in
    let r := Z.abs z mod 2 ^ e in
    let half := 2 ^ (e - 1) in
    let q' := if (r <? half) || ((r =? half) && Z.even q) then q else q + 1 in
    Z.sgn z * (q' * 2 ^ e).

End Double.
(** ** The canonical bytes as one concatenation *)

Module Codec.

Import Bytes Transaction.

(** The bytes of an optional hexadecimal field: none when the field is
    falsy. *)
Definition optional_hex (o : option string) : res (list byte) :=
  match o with
  | Some (String _ _ as s) => hex s
  | _ => Ok []
  end.

(** The eight bytes of the recipient field. *)
Definition recipient_field (r : option string) : res (list byte) :=
  match r with
  | Some (String _ _ as v) =>
      match Bignum.bignum (slice_0_neg1 v) with
      | Some n => Ok (map (byte_at (Bignum.toBuffer 8 n)) (seq 0 8))
      | None => Throw "Not a number"
      end
  | _ => Ok (repeat x00 8)
  end.

Definition asset_part (assetBytes : option (list byte)) : list byte :=
  match assetBytes with
  | Some b => b
  | None => []
  end.

(** The parts of the byte sequence in the order [getBytes] writes them,
    each evaluated in the order [getBytes] reaches it. *)
Definition encode (h : Handler) (trs : Transaction)
    (skipSignature skipSecondSignature : bool) : res (list byte) :=
  assetBytes <- h_getBytes h trs skipSignature skipSecondSignature ;;
  pk <- hex (senderPublicKey trs) ;;
  rq <- optional_hex (requesterPublicKey trs) ;;
  rc <- recipient_field (recipientId trs) ;;
  sg <- (if skipSignature then Ok [] else optional_hex (signature trs)) ;;
  sg2 <- (if skipSecondSignature then Ok [] else optional_hex (signSignature trs)) ;;
  Ok ([byte_of_Z (type trs)] ++ le_bytes 4 (timestamp trs) ++ pk ++ rq ++ rc
      ++ le_bytes 8 (Long_fromNumber (amount trs)) ++ asset_part assetBytes ++ sg ++ sg2).

(** Two transactions that differ at most in the fields [getBytes] never
    reads: [id], [senderId], [fee], [signatures], [blockId]. *)
Definition same_signed_fields (t1 t2 : Transaction) : Prop :=
  type t1 = type t2
  /\ timestamp t1 = timestamp t2
  /\ senderPublicKey t1 = senderPublicKey t2
  /\ requesterPublicKey t1 = requesterPublicKey t2
  /\ recipientId t1 = recipientId t2
  /\ amount t1 = amount t2
  /\ signature t1 = signature t2
  /\ signSignature t1 = signSignature t2.

End Codec.

(** ** What a successful verification establishes *)

Module Checks.

Import Transaction.

(** The keys [verify] checks the multisignatures against: the sender's
    confirmed list, else the pending one, else the keys of a
    multisignature registration without their sign; plus the sender's own
    key when a requester submits. *)
Definition cosigners (trs : Transaction) (sender : Account) : list string :=
  let own := match multisignatures sender with
             | Some a => a
             | None =>
                 match u_multisignatures sender with
                 | Some a => a
                 | None => []
                 end
             end in
  let keys := if (length own =? 0)%nat then
                match asset_keysgroup trs with
                | Some keysgroup => map slice_1 keysgroup
                | None => own
                end
              else own in
  if truthy_str (requesterPublicKey trs) then keys ++ [senderPublicKey trs] else keys.

(** The key is the requester's, which the multisignature loop skips. *)
Definition is_requester (trs : Transaction) (k : string) : bool :=
  truthy_str (requesterPublicKey trs) && negb (opt_str_neq (requesterPublicKey trs) k).

(** The key the primary signature is checked against. *)
Definition signer (trs : Transaction) : option string :=
  if truthy_str (requesterPublicKey trs) then requesterPublicKey trs
  else Some (senderPublicKey trs).

Record Verified (sc : Scope) (trs : Transaction) (h : Handler)
    (sender sender' : Account) (requester : option Account) : Prop := {
  v_type : types sc !! type trs = Some h;
  v_publicKey :
    publicKey sender = Some (senderPublicKey trs)
    \/ exists i, id trs = Some i /\ In i (exceptions_senderPublicKey sc);
  v_address :
    toUpperCase (String_of (senderId trs)) = toUpperCase (address sender);
  v_requester :
    truthy_str (requesterPublicKey trs) = true ->
    exists k ms, requesterPublicKey trs = Some k
                 /\ multisignatures sender = Some ms /\ In k ms;
  v_signature : verifySignature sc trs (signer trs) (signature trs) = Ok true;
  v_secondSignature :
    truthy_str (requesterPublicKey trs) = false -> secondSignature sender = true ->
    verifySecondSignature sc trs (secondPublicKey sender) (signSignature trs) = Ok true;
  v_requesterSecondSignature :
    truthy_str (requesterPublicKey trs) = true ->
    requester_secondSignature requester = true ->
    verifySecondSignature sc trs (requester_secondPublicKey requester) (signSignature trs)
    = Ok true;
  v_unique : forall sigs, signatures trs = Some sigs -> NoDup sigs;
  v_multisignatures :
    forall sigs sg, signatures trs = Some sigs -> In sg sigs ->
    exists k, In k (cosigners trs sender) /\ is_requester trs k = false
              /\ verifySignature sc trs (Some k) (Some sg) = Ok true;
  v_fee :
    truthy (h_calculateFee h trs sender') = true
    /\ strict_eqb (fee trs) (h_calculateFee h trs sender') = true;
  v_amount :
    ltb (amount trs) (int 0) = false
    /\ gtb (amount trs) (int (totalAmount sc)) = false
    /\ indexOf (Number_toString (amount trs)) "." < 0
    /\ indexOf (Number_toString (amount trs)) "e" < 0;
  v_timestamp : getSlotNumber sc (Some (timestamp trs)) <= getSlotNumber sc None;
  v_handler : h_verify h trs sender' = None
}.

End Checks.

(** ** Vocabulary for the balance properties *)

Module Ledger.

Import Transaction.


(** The transaction carries a second signature exactly when the account
    that must provide it has one registered: the requester if a requester
    key is present, else the sender. *)
Definition second_signature_consistent (trs : Transaction) (sender : Account)
    (requester : option Account) : Prop :=
  if truthy_str (requesterPublicKey trs)
  then requester_secondSignature requester = truthy_str (signSignature trs)
  else secondSignature sender = truthy_str (signSignature trs).

(** The store as it is after answering one merge without a change. *)
Definition after_refusal (w : World) : World :=
  {| accounts := accounts w; faults := tail (faults w) |}.

End Ledger.


(** ** Signing *)

Module Signing.

Import Bytes Transaction.

(** The key pair object [ed.MakeKeypair] gives: two buffers. *)
Record Keypair : Type := { kp_publicKey : list byte; kp_privateKey : list byte }.

Definition hex_char (d : Z) : ascii :=
  ascii_of_N (Z.to_N (if d <? 10 then 48 + d else 87 + d)).

(** [buf.toString('hex')]: two lower-case digits per byte. *)
Fixpoint Buffer_toString_hex (b : list byte) : string :=
  match b with
  | [] => EmptyString
  | x :: b' =>
      String (hex_char (Z_of_byte x / 16))
        (String (hex_char (Z_of_byte x mod 16)) (Buffer_toString_hex b'))
  end.

(** [sign(keypair, trs)], with [ed.Sign] of the [ed25519] package as
    [ed_Sign]. *)
Definition sign (sc : Scope) (ed_Sign : list byte -> Keypair -> res (list byte))
    (keypair : Keypair) (trs : Transaction) : res string :=
  hash <- getHash sc trs ;;
  s <- ed_Sign hash keypair ;;
  Ok (Buffer_toString_hex s).

(** [multisign(keypair, trs)] *)
Definition multisign (sc : Scope) (ed_Sign : list byte -> Keypair -> res (list byte))
    (keypair : Keypair) (trs : Transaction) : res string :=
  bytes <- getBytes sc trs true true ;;
  let hash := sha256 sc bytes in
  s <- ed_Sign hash keypair ;;
  Ok (Buffer_toString_hex s).

(** [trs.signature = s] and [trs.signSignature = s] *)
Definition set_signature (s : string) (trs : Transaction) : Transaction :=
  {| id := id trs; type := type trs; timestamp := timestamp trs;
     senderPublicKey := senderPublicKey trs;
     requesterPublicKey := requesterPublicKey trs;
     senderId := senderId trs; recipientId := recipientId trs;
     amount := amount trs; fee := fee trs;
     signature := Some s; signSignature := signSignature trs;
     signatures := signatures trs; asset_keysgroup := asset_keysgroup trs;
     asset_data := asset_data trs; blockId := blockId trs |}.

Definition set_signSignature (s : string) (trs : Transaction) : Transaction :=
  {| id := id trs; type := type trs; timestamp := timestamp trs;
     senderPublicKey := senderPublicKey trs;
     requesterPublicKey := requesterPublicKey trs;
     senderId := senderId trs; recipientId := recipientId trs;
     amount := amount trs; fee := fee trs;
     signature := signature trs; signSignature := Some s;
     signatures := signatures trs; asset_keysgroup := asset_keysgroup trs;
     asset_data := asset_data trs; blockId := blockId trs |}.

End Signing.

(** ** [process] *)

Module Processing.

Import Bytes Transaction Checks.

(** How a call of [process] ends: the callback is given an error, the
    callback is given the transaction, an exception leaves [process]
    before any callback, or the callback is never called. *)
Inductive outcome : Type :=
| Reported (e : string)
| Accepted (trs : Transaction)
| Escaped (e : string)
| NoCallback.

(** What the [process] of a type does with the callback it is given:
    it calls it with an error or with a transaction, it raises before
    calling it, or it never calls it. *)
Inductive handled : Type :=
| Called (err : option string) (trs : Transaction)
| Raised (e : string)
| Unanswered.

(** How the promise of the query ends: resolved with a row holding a
    [count], rejected, or never settled. *)
Inductive queried : Type :=
| Resolved (count : Z)
| Rejected (e : string)
| Pending.

(** What [process] reaches besides the scope: the [process] capability
    of a registered type and the query [sql.countById] on the database. *)
Record Services : Type := {
  type_process : Z -> Transaction -> Account -> handled;
  countById : option string -> queried
}.

(** [trs.id = i] and [trs.senderId = a] *)
Definition set_id (i : string) (trs : Transaction) : Transaction :=
  {| id := Some i; type := type trs; timestamp := timestamp trs;
     senderPublicKey := senderPublicKey trs;
     requesterPublicKey := requesterPublicKey trs;
     senderId := senderId trs; recipientId := recipientId trs;
     amount := amount trs; fee := fee trs;
     signature := signature trs; signSignature := signSignature trs;
     signatures := signatures trs; asset_keysgroup := asset_keysgroup trs;
     asset_data := asset_data trs; blockId := blockId trs |}.

Definition set_senderId (a : string) (trs : Transaction) : Transaction :=
  {| id := id trs; type := type trs; timestamp := timestamp trs;
     senderPublicKey := senderPublicKey trs;
     requesterPublicKey := requesterPublicKey trs;
     senderId := Some a; recipientId := recipientId trs;
     amount := amount trs; fee := fee trs;
     signature := signature trs; signSignature := signSignature trs;
     signatures := signatures trs; asset_keysgroup := asset_keysgroup trs;
     asset_data := asset_data trs; blockId := blockId trs |}.

(** Lines 232-237: the requester key must be one of the sender's
    multisignature keys. *)
Definition requester_check (trs : Transaction) (sender : Account) : res bool :=
  if truthy_str (requesterPublicKey trs) then
    match multisignatures sender with
    | None => Throw "TypeError: Cannot read property 'indexOf' of undefined"
    | Some ms => Ok (negb (array_indexOf ms (requesterPublicKey trs) <? 0))
    end
  else Ok true.

(** Lines 251-267: the type's [process], called outside any [try], and
    in its callback the query.  The function given to [.catch] is not
    bound and the file is in strict mode, so its [this] is undefined:
    reading [this.scope] raises inside the promise chain and [cb] is not
    reached. *)
Definition process_type_onward (sv : Services) (trs : Transaction) (sender : Account)
    : outcome :=
  match type_process sv (type trs) trs sender with
  | Raised e => Escaped e
  | Unanswered => NoCallback
  | Called (Some (String _ _ as e)) _ => Reported e
  | Called _ trs' =>
      match countById sv (id trs') with
      | Resolved count =>
          if count >? 0 then Reported "Ignoring already confirmed transaction"
          else Accepted trs'
      | Rejected _ => NoCallback
      | Pending => NoCallback
      end
  end.

(** [process(trs, sender, cb)].  The second component is the caller's
    transaction object as the body of [process] leaves it. *)
Definition process (sc : Scope) (sv : Services) (trs : Transaction)
    (sender : option Account) : outcome * Transaction :=
  match types sc !! type trs with
  | None => (Reported (unknown_type trs), trs)
  | Some _ =>
  match getId sc trs with
  | Throw _ => (Reported "Failed to get transaction id", trs)
  | Ok txId =>
  if truthy_str (id trs) && opt_str_neq (id trs) txId
  then (Reported "Invalid transaction id", trs)
  else
  let trs := set_id txId trs in
  match sender with
  | None => (Reported "Missing sender", trs)
  | Some sender =>
  let trs := set_senderId (address sender) trs in
  match requester_check trs sender with
  | Throw e => (Escaped e, trs)
  | Ok false => (Reported "Invalid requester public key", trs)
  | Ok true =>
  match verifySignature sc trs (signer trs) (signature trs) with
  | Throw e => (Escaped e, trs)
  | Ok false => (Reported "Failed to verify signature", trs)
  | Ok true => (process_type_onward sv trs sender, trs)
  end
  end
  end
  end
  end.

End Processing.

(** ** [dbSave] *)

Module Storage.

Import Bytes Transaction.

Definition dbTable : string := "trs".

Definition dbFields : list string :=
  ["id"; "blockId"; "type"; "timestamp"; "senderPublicKey"; "requesterPublicKey";
   "senderId"; "recipientId"; "amount"; "fee"; "signature"; "signSignature";
   "signatures"]%string.

(** The [values] of the row; [None] is [null] or an absent value. *)
Record Values : Type := {
  col_id : option string;
  col_blockId : option string;
  col_type : Z;
  col_timestamp : Z;
  col_senderPublicKey : list byte;
  col_requesterPublicKey : option (list byte);
  col_senderId : option string;
  col_recipientId : option string;
  col_amount : number;
  col_fee : number;
  col_signature : list byte;
  col_signSignature : option (list byte);
  col_signatures : option string
}.

Record Insert : Type := { table : string; fields : list string; values : Values }.

(** [a.join(sep)] *)
Fixpoint join (sep : string) (a : list string) : string :=
  match a with
  | [] => EmptyString
  | [x] => x
  | x :: a' => x +:+ sep +:+ join sep a'
  end.

(** [new Buffer(v, 'hex')] for a possibly undefined [v]. *)
Definition Buffer_hex (v : option string) : res (list byte) :=
  match v with
  | Some s => hex s
  | None => Throw "TypeError: must start with number, buffer, array or string"
  end.

(** [v ? new Buffer(v, 'hex') : null] *)
Definition Buffer_hex_or_null (v : option string) : res (option (list byte)) :=
  match v with
  | Some (String _ _ as s) => b <- hex s ;; Ok (Some b)
  | _ => Ok None
  end.

(** [dbSave(trs)]; the four buffers carry a [B] after the name they have
    in the source.  [type_dbSave t] is the [dbSave] member of the
    registered type [t], which registration does not require; what it
    returns is an insert of its own ([Some]) or a falsy value. *)
Definition dbSave {P : Type} (sc : Scope)
    (type_dbSave : Z -> option (Transaction -> option P))
    (trs : Transaction) : res (list (Insert + P)) :=
  match types sc !! type trs with
  | None => Throw (unknown_type trs)
  | Some _ =>
      let buffers :=
        senderPublicKeyB <- hex (senderPublicKey trs) ;;
        signatureB <- Buffer_hex (signature trs) ;;
        signSignatureB <- Buffer_hex_or_null (signSignature trs) ;;
        requesterPublicKeyB <- Buffer_hex_or_null (requesterPublicKey trs) ;;
        Ok (senderPublicKeyB, signatureB, signSignatureB, requesterPublicKeyB) in
      match buffers with
      | Throw e => Throw (Error_toString e)
      | Ok (senderPublicKeyB, signatureB, signSignatureB, requesterPublicKeyB) =>
          let promises :=
            [inl {| table := dbTable;
                    fields := dbFields;
                    values :=
                      {| col_id := id trs;
                         col_blockId := blockId trs;
                         col_type := type trs;
                         col_timestamp := timestamp trs;
                         col_senderPublicKey := senderPublicKeyB;
                         col_requesterPublicKey := requesterPublicKeyB;
                         col_senderId := senderId trs;
                         col_recipientId :=
                           if truthy_str (recipientId trs) then recipientId trs else None;
                         col_amount := amount trs;
                         col_fee := fee trs;
                         col_signature := signatureB;
                         col_signSignature := signSignatureB;
                         col_signatures :=
                           match signatures trs with
                           | Some a => Some (join "," a)
                           | None => None
                           end |} |}] in
          match type_dbSave (type trs) with
          | None => Throw "TypeError: __private.types[trs.type].dbSave is not a function"
          | Some save =>
              match save trs with
              | Some promise => Ok (promises ++ [inr promise])
              | None => Ok promises
              end
          end
      end
  end.

End Storage.

(** ** Further scenarios *)

Module Scenario.

Import Bytes Transaction Signing Processing Storage Fixture.

Fixpoint bytes_eqb (a b : list byte) : bool :=
  match a, b with
  | [], [] => true
  | x :: a', y :: b' => Byte.eqb x y && bytes_eqb a' b'
  | _, _ => false
  end.

(** A stand-in for the signature scheme with the one property the
    round trips rest on: [toy_Verify] accepts under a public key what
    [toy_Sign] makes with a pair holding that key, and nothing else. *)
Definition toy_Sign (hash : list byte) (kp : Keypair) : res (list byte) :=
  Ok (hash ++ kp_publicKey kp).

Definition toy_Verify (hash sg pk : list byte) : res bool :=
  Ok (bytes_eqb sg (hash ++ pk)).

(** The scope of the scenarios with signatures checked by [toy_Verify]. *)
Definition signing_scope : Scope :=
  {| types := types scope;
     genesisblock_id := genesisblock_id scope;
     totalAmount := totalAmount scope;
     delegates := delegates scope;
     exceptions_senderPublicKey := exceptions_senderPublicKey scope;
     getSlotNumber := getSlotNumber scope;
     sha256 := sha256 scope;
     ed_Verify := toy_Verify |}.


Definition pair_a : Keypair :=
  {| kp_publicKey := unhex key_a; kp_privateKey := unhex (key_a +:+ key_a) |}.

Definition pair_b : Keypair :=
  {| kp_publicKey := unhex key_b; kp_privateKey := unhex (key_b +:+ key_b) |}.

Definition with_signature (s : option string) (trs : Transaction) : Transaction :=
  {| id := id trs; type := type trs; timestamp := timestamp trs;
     senderPublicKey := senderPublicKey trs;
     requesterPublicKey := requesterPublicKey trs;
     senderId := senderId trs; recipientId := recipientId trs;
     amount := amount trs; fee := fee trs;
     signature := s; signSignature := signSignature trs;
     signatures := signatures trs; asset_keysgroup := asset_keysgroup trs;
     asset_data := asset_data trs; blockId := blockId trs |}.


Definition with_signatures (l : option (list string)) (trs : Transaction) : Transaction :=
  {| id := id trs; type := type trs; timestamp := timestamp trs;
     senderPublicKey := senderPublicKey trs;
     requesterPublicKey := requesterPublicKey trs;
     senderId := senderId trs; recipientId := recipientId trs;
     amount := amount trs; fee := fee trs;
     signature := signature trs; signSignature := signSignature trs;
     signatures := l; asset_keysgroup := asset_keysgroup trs;
     asset_data := asset_data trs; blockId := blockId trs |}.

(** The transfer before it is signed. *)
Definition draft : Transaction := with_signature None payment.


(** What [sign] and [multisign] return in the scenarios. *)
Definition signed (r : res string) : string :=
  match r with
  | Ok s => s
  | Throw _ => EmptyString
  end.

Definition draft_signature : string := signed (sign signing_scope toy_Sign pair_a draft).

Definition signed_draft : Transaction := set_signature draft_signature draft.

Definition draft_second_signature : string :=
  signed (sign signing_scope toy_Sign pair_b signed_draft).

Definition cosignature : string := signed (multisign signing_scope toy_Sign pair_b payment).

(** An account that cannot afford the transfer. *)
Definition pauper : Account :=
  {| address := address alice;
     publicKey := publicKey alice;
     balance := int 500;
     u_balance := int 500;
     secondSignature := false;
     secondPublicKey := None;
     multisignatures := None;
     u_multisignatures := None |}.

Definition poor_world : World :=
  {| accounts := <[address pauper := pauper]> ∅; faults := [] |}.

(** The store refuses the next merge; the store commits one merge and
    refuses the one after. *)
Definition refusing : World :=
  {| accounts := accounts world; faults := [Some "store is down"%string] |}.


(** Types whose [process] passes the transaction on, with a database
    that knows no transaction, and with one that cannot be reached; and
    types whose [process] raises. *)
Definition services : Services :=
  {| type_process := fun _ trs _ => Called None trs;
     countById := fun _ => Resolved 0 |}.

Definition offline : Services :=
  {| type_process := fun _ trs _ => Called None trs;
     countById := fun _ => Rejected "connection lost" |}.

Definition raising : Services :=
  {| type_process := fun _ _ _ => Raised "asset is malformed";
     countById := fun _ => Resolved 0 |}.

(** Type 3: a handler whose asset bytes are the characters of
    [trs.asset_data]. *)
Definition memo : Handler :=
  {| h_getBytes := fun trs _ _ =>
       Ok (Some (map (fun c => byte_of_Z (Z.of_N (N_of_ascii c)))
                     (list_ascii_of_string (asset_data trs))));
     h_calculateFee := fun _ _ => int 10000000;
     h_verify := fun _ _ => None;
     h_ready := fun _ _ => true;
     h_apply := fun _ _ _ => no_change;
     h_undo := fun _ _ _ => no_change;
     h_applyUnconfirmed := fun _ _ => no_change;
     h_undoUnconfirmed := fun _ _ => no_change |}.

Definition memo_scope : Scope :=
  {| types := <[3 := memo]> (types scope);
     genesisblock_id := genesisblock_id scope;
     totalAmount := totalAmount scope;
     delegates := delegates scope;
     exceptions_senderPublicKey := exceptions_senderPublicKey scope;
     getSlotNumber := getSlotNumber scope;
     sha256 := sha256 scope;
     ed_Verify := ed_Verify scope |}.

(** The transfer as a transaction of type 3 with a note. *)
Definition noted_payment : Transaction :=
  {| id := None; type := 3; timestamp := timestamp payment;
     senderPublicKey := senderPublicKey payment;
     requesterPublicKey := None;
     senderId := senderId payment; recipientId := recipientId payment;
     amount := amount payment; fee := fee payment;
     signature := signature payment; signSignature := None;
     signatures := None; asset_keysgroup := None;
     asset_data := "lunch"; blockId := blockId payment |}.

Definition noted_id : string := signed (getId memo_scope noted_payment).

(** Types whose [dbSave] adds no insert of their own. *)
Definition type_dbSave : Z -> option (Transaction -> option Insert) :=
  fun _ => Some (fun _ => None).

Definition stored (r : res (list (Insert + Insert))) : list (Insert + Insert) :=
  match r with
  | Ok l => l
  | Throw _ => []
  end.

Definition payment_rows : list (Insert + Insert) := stored (dbSave scope type_dbSave payment).

(** The transfer as [process] leaves it. *)
Definition processed_payment : Transaction :=
  set_senderId (address alice) (set_id "13987348420913138422" payment).

End Scenario.
(** * Properties *)

(** ** Numbers and their printed form *)

Section NumberFacts.

Import JS.

(** The printed forms follow ECMAScript: positional up to 21 digits,
    exponent notation beyond and below [1e-6]. *)
Example toString_samples :
  map Number_toString
      [int 0; int 1000; int (- 12300); Num 15 1; Num (- 5) 1; Num 1 6; Num 1 7;
       Num 15 9; int (10 ^ 21 - 1); int (10 ^ 21); int (123 * 10 ^ 20)]
  = ["0"; "1000"; "-12300"; "1.5"; "-0.5"; "0.000001"; "1e-7";
     "1.5e-8"; "999999999999999999999"; "1e+21"; "1.23e+22"]%string.
Proof. vm_compute. reflexivity. Qed.

Lemma add_int (a b : Z) : add (int a) (int b) = int (a + b).
Proof. unfold add, int, norm; simpl. f_equal. lia. Qed.

Lemma neg_int (a : Z) : neg (int a) = int (- a).
Proof. reflexivity. Qed.

Lemma ltb_int (a b : Z) : ltb (int a) (int b) = (a <? b).
Proof.
  unfold ltb, number_compare, int; simpl.
  rewrite !Z.mul_1_r. unfold Z.ltb. reflexivity.
Qed.

Lemma strict_eqb_int (a b : Z) : strict_eqb (int a) (int b) = (a =? b).
Proof.
  unfold strict_eqb, number_compare, int; simpl.
  rewrite !Z.mul_1_r.
  destruct (Z.compare_spec a b); destruct (Z.eqb_spec a b); try reflexivity; lia.
Qed.

Lemma strict_eqb_refl (x : number) : strict_eqb x x = true.
Proof. unfold strict_eqb, number_compare. now rewrite Z.compare_refl. Qed.









End NumberFacts.

Section PrintedForm.

Import JS.




End PrintedForm.

Section PrintedIntegers.

Import JS.

Lemma trailing_zeros_spec (fuel : nat) (m : Z) :
  0 < m ->
  m = m / 10 ^ Z.of_nat (trailing_zeros fuel m) * 10 ^ Z.of_nat (trailing_zeros fuel m)
  /\ 0 < m / 10 ^ Z.of_nat (trailing_zeros fuel m).
Proof.
  revert m. induction fuel as [|f IH]; intros m Hm; cbn [trailing_zeros].
  - cbn [Z.of_nat]. rewrite Z.pow_0_r, Z.div_1_r. lia.
  - destruct (Z.ltb_spec 0 m) as [_|?]; [|lia].
    destruct (Z.eqb_spec (m mod 10) 0) as [E|E]; cbn [andb].
    + assert (Hdiv : m = 10 * (m / 10)).
      { pose proof (Z.div_mod m 10 ltac:(lia)). lia. }
      assert (Hq : 0 < m / 10) by lia.
      destruct (IH (m / 10) Hq) as [H1 H2].
      set (t := trailing_zeros f (m / 10)) in *.
      rewrite Nat2Z.inj_succ, Z.pow_succ_r by lia.
      rewrite <- Z.div_div by lia.
      split; [|exact H2].
      rewrite Z.mul_assoc, (Z.mul_comm _ 10), <- Z.mul_assoc, <- H1. exact Hdiv.
    + cbn [Z.of_nat]. rewrite Z.pow_0_r, Z.div_1_r. lia.
Qed.

Lemma digits_aux_length (fuel : nat) (v : Z) (acc : string) (j : Z) :
  0 <= v < 10 ^ j -> 1 <= j ->
  strlen (digits_aux fuel v acc) <= strlen acc + j.
Proof.
  revert v acc j. induction fuel as [|f IH]; intros v acc j Hv Hj; cbn [digits_aux].
  - lia.
  - assert (Hacc : strlen (String (digit_char (v mod 10)) acc) = strlen acc + 1).
    { unfold strlen. cbn [String.length]. lia. }
    destruct (Z.ltb_spec v 10) as [Hlt|Hge].
    + lia.
    + assert (Hj2 : 2 <= j).
      { destruct (Z.eq_dec j 1) as [->|]; [|lia]. rewrite Z.pow_1_r in Hv. lia. }
      assert (Hpow : 10 ^ j = 10 * 10 ^ (j - 1)).
      { rewrite <- Z.pow_succ_r by lia. f_equal. lia. }
      specialize (IH (v / 10) (String (digit_char (v mod 10)) acc) (j - 1)).
      rewrite Hacc in IH.
      assert (0 <= v / 10 < 10 ^ (j - 1)).
      { split; [apply Z.div_pos; lia|]. apply Z.div_lt_upper_bound; lia. }
      lia.
Qed.


End PrintedIntegers.

(** ** Byte sequences *)

Section ByteFacts.

Import Bytes.

(** The digest of the three bytes "abc" (FIPS 180-4, appendix B.1). *)
Example sha256_abc :
  map Z_of_byte (SHA256.sha256 [x61; x62; x63])
  = [186; 120; 22; 191; 143; 1; 207; 234; 65; 65; 64; 222; 93; 174; 34; 35;
     176; 3; 97; 163; 150; 23; 122; 156; 180; 16; 255; 97; 242; 0; 21; 173].
Proof. vm_compute. reflexivity. Qed.

Lemma byte_of_Z_of_byte (b : byte) : byte_of_Z (Z_of_byte b) = b.
Proof.
  unfold byte_of_Z, Z_of_byte.
  pose proof (Byte.to_N_bounded b) as Hb.
  rewrite Z.mod_small by lia.
  rewrite N2Z.id, Byte.of_to_N. reflexivity.
Qed.

Lemma put_put (bb : ByteBuffer) (a b : list byte) : put (put bb a) b = put bb (a ++ b).
Proof. unfold put; cbn. now rewrite app_assoc. Qed.

Lemma writeBytes_put (bs : list byte) (bb : ByteBuffer) : writeBytes bb bs = put bb bs.
Proof.
  revert bb. induction bs as [|b bs IH]; intros bb; cbn [writeBytes].
  - unfold put. rewrite app_nil_r. now destruct bb.
  - rewrite IH. unfold writeByte. rewrite byte_of_Z_of_byte, put_put. reflexivity.
Qed.

Lemma le_bytes_length (n : nat) (z : Z) : length (le_bytes n z) = n.
Proof. revert z. induction n as [|n IH]; intros z; cbn; [reflexivity|now rewrite IH]. Qed.

Lemma be_bytes_length (n : nat) (z : Z) : length (be_bytes n z) = n.
Proof. unfold be_bytes. now rewrite length_rev, le_bytes_length. Qed.

Lemma be_to_Z_rev (l : list byte) : be_to_Z (rev l) = le_to_Z l.
Proof.
  unfold be_to_Z. rewrite <- fold_left_rev_right, rev_involutive.
  induction l as [|b l IH]; cbn [fold_right le_to_Z]; [reflexivity|].
  rewrite IH. lia.
Qed.

(** The eight bytes [hash[7 - i]] are the first eight in reverse. *)
Lemma reversed_prefix (hash : list byte) :
  (8 <= length hash)%nat ->
  map (fun i => byte_at hash (7 - i)) (seq 0 8) = rev (firstn 8 hash).
Proof.
  intros H.
  do 8 (destruct hash as [|? hash]; [cbn in H; lia|]).
  reflexivity.
Qed.

Lemma hex_length_64 (n : Z) : 0 <= n < 2 ^ 64 -> (Bignum.hex_length n + 2 * 8 - 1) / (2 * 8) = 1.
Proof.
  intros Hn. unfold Bignum.hex_length.
  destruct (Z.eqb_spec n 0) as [->|Hnz]; [reflexivity|].
  assert (Hl : 0 <= Z.log2 n < 64).
  { split; [apply Z.log2_nonneg|]. apply Z.log2_lt_pow2; lia. }
  assert (0 <= Z.log2 n / 4 < 16).
  { split; [apply Z.div_pos; lia|]. apply Z.div_lt_upper_bound; lia. }
  symmetry. apply Z.div_unique with (r := Z.log2 n / 4); lia.
Qed.

Lemma toBuffer_64 (n : Z) : 0 <= n < 2 ^ 64 -> Bignum.toBuffer 8 n = be_bytes 8 n.
Proof.
  intros Hn. unfold Bignum.toBuffer. rewrite hex_length_64 by exact Hn. reflexivity.
Qed.

(** Copying the first eight bytes of an eight-byte field one by one. *)
Lemma copy_recipient (bb : ByteBuffer) (n : Z) :
  fold_left (fun b i => writeByte b (Z_of_byte (byte_at (be_bytes 8 n) i))) (seq 0 8) bb
  = put bb (be_bytes 8 n).
Proof.
  unfold be_bytes. cbn [le_bytes rev app seq fold_left byte_at nth].
  unfold writeByte. rewrite !byte_of_Z_of_byte, !put_put. reflexivity.
Qed.

Lemma zero_recipient (bb : ByteBuffer) :
  fold_left (fun b _ => writeByte b 0) (seq 0 8) bb = put bb (be_bytes 8 0).
Proof.
  cbn [seq fold_left]. unfold writeByte. rewrite !put_put. reflexivity.
Qed.

Lemma Long_fromNumber_int (a : Z) : 0 <= a < 2 ^ 63 - 1 -> Long_fromNumber (JS.int a) = a.
Proof.
  intros Ha. unfold Long_fromNumber, JS.leb, JS.geb.
  rewrite add_int, !ltb_int.
  destruct (Z.ltb_spec (- 2 ^ 63) a) as [_|?]; [|lia].
  destruct (Z.ltb_spec (a + 1) (2 ^ 63)) as [_|?]; [|lia].
  cbn [negb]. unfold JS.trunc, JS.int. cbn [JS.coef JS.scale Z.of_nat].
  rewrite Z.pow_0_r. apply Z.quot_1_r.
Qed.

End ByteFacts.

(** ** Canonical bytes and identifier *)

Section Codec.

Import Bytes Transaction.

Lemma hex_nonempty (s : string) (b : list byte) :
  Buffer_from_hex s = Some b -> (0 < length b)%nat -> exists c s', s = String c s'.
Proof.
  destruct s as [|c s']; intros H Hl.
  - cbn in H. injection H as <-. cbn in Hl. lia.
  - eauto.
Qed.

(** C5 (as the code has it).  For a transaction of a registered type
    with no requester public key, no asset bytes, a 32-byte sender public
    key, a 64-byte signature, no second signature, a recipient whose
    number fits 64 bits and an integral amount below 2^63 - 1, [getBytes]
    with no flag set returns 117 bytes: the type byte, the timestamp as
    four bytes least significant first, the sender public key, the
    recipient number as eight bytes most significant first (all zero when
    there is no recipient), the amount as eight bytes least significant
    first, and the signature. *)
Theorem getBytes_layout (sc : Scope) (trs : Transaction) (h : Handler)
    (assetBytes : option (list byte)) (pk sg : list byte) (sgs : string) (n a : Z) :
  types sc !! type trs = Some h ->
  truthy_str (requesterPublicKey trs) = false ->
  h_getBytes h trs false false = Ok assetBytes ->
  asset_empty assetBytes ->
  Buffer_from_hex (senderPublicKey trs) = Some pk -> length pk = 32%nat ->
  signature trs = Some sgs ->
  Buffer_from_hex sgs = Some sg -> length sg = 64%nat ->
  truthy_str (signSignature trs) = false ->
  Spec.recipient_number (recipientId trs) = Some n -> 0 <= n < 2 ^ 64 ->
  amount trs = int a -> 0 <= a < 2 ^ 63 - 1 ->
  let bytes := [byte_of_Z (type trs)] ++ le_bytes 4 (timestamp trs) ++ pk
               ++ be_bytes 8 n ++ le_bytes 8 a ++ sg in
  getBytes sc trs false false = Ok bytes /\ length bytes = 117%nat.
Proof.
  intros Hty Hreq Hasset Hempty Hpk Hpkl Hsig Hsg Hsgl Hsec Hrec Hn Hamt Ha bytes.
  split.
  - unfold getBytes, getBytes_body. rewrite Hty, Hasset.
    unfold hex. rewrite Hpk.
    destruct (hex_nonempty sgs sg Hsg ltac:(lia)) as (c & s' & ->).
    rewrite Hsig. cbn [negb]. rewrite Hsg, Hamt.
    assert (Hbb : forall (bb : ByteBuffer) (cap : Z),
               toBuffer
                 (writeBytes
                    (writeLong
                       (put (writeBytes (writeInt (writeByte (ByteBuffer_new cap true)
                                                     (type trs)) (timestamp trs)) pk)
                            (be_bytes 8 n))
                       (int a)) sg) = bytes).
    { intros bb cap. unfold writeLong, toBuffer, writeInt, writeByte, ByteBuffer_new.
      rewrite !writeBytes_put, Long_fromNumber_int by exact Ha.
      cbn [put view littleEndian app]. unfold bytes.
      rewrite <- !app_assoc. reflexivity. }
    assert (Hrecip : forall bb : ByteBuffer,
      match recipientId trs with
      | Some (String _ _ as r) =>
          match Bignum.bignum (slice_0_neg1 r) with
          | Some n0 =>
              Ok (fold_left (fun b i =>
                    writeByte b (Z_of_byte (byte_at (Bignum.toBuffer 8 n0) i)))
                    (seq 0 8) bb)
          | None => Throw "Not a number"
          end
      | _ => Ok (fold_left (fun b _ => writeByte b 0) (seq 0 8) bb)
      end = Ok (put bb (be_bytes 8 n))).
    { intros bb. unfold Spec.recipient_number in Hrec.
      destruct (recipientId trs) as [[|c0 r]|].
      - injection Hrec as <-. now rewrite zero_recipient.
      - rewrite Hrec, toBuffer_64 by exact Hn. now rewrite copy_recipient.
      - injection Hrec as <-. now rewrite zero_recipient. }
    destruct (requesterPublicKey trs) as [[|]|]; cbn in Hreq; try discriminate;
      rewrite Hrecip;
      (destruct assetBytes as [ab|]; [cbn in Hempty; subst ab; cbn [length Z.of_nat]|]);
      (destruct (signSignature trs) as [[|]|]; cbn in Hsec; try discriminate);
      replace (Z.of_nat 0 >? 0) with false by reflexivity;
      rewrite (Hbb (ByteBuffer_new 0 true)); reflexivity.
  - unfold bytes. rewrite !length_app, le_bytes_length, be_bytes_length, le_bytes_length.
    cbn [length]. lia.
Qed.

End Codec.

Section Identifier.

Import Bytes Transaction.

Lemma Z_of_byte_range (b : byte) : 0 <= Z_of_byte b < 256.
Proof. unfold Z_of_byte. pose proof (Byte.to_N_bounded b). lia. Qed.

Lemma le_to_Z_bound (l : list byte) : 0 <= le_to_Z l < 256 ^ Z.of_nat (length l).
Proof.
  induction l as [|b l IH]; cbn [le_to_Z length].
  - cbn. lia.
  - rewrite Nat2Z.inj_succ, Z.pow_succ_r by lia.
    pose proof (Z_of_byte_range b). lia.
Qed.

(** C6 (as the code has it).  When the canonical bytes can be built,
    [getId] returns the decimal string of the number read, most
    significant byte first, from the first eight digest bytes in reverse
    order; that number is the first eight digest bytes read least
    significant byte first, and is below 2^64. *)
Theorem getId_value (sc : Scope) (trs : Transaction) (bytes : list byte) :
  getBytes sc trs false false = Ok bytes ->
  (8 <= length (sha256 sc bytes))%nat ->
  let digest := sha256 sc bytes in
  getId sc trs = Ok (Bignum.toString (be_to_Z (rev (firstn 8 digest))))
  /\ be_to_Z (rev (firstn 8 digest)) = le_to_Z (firstn 8 digest)
  /\ 0 <= le_to_Z (firstn 8 digest) < 2 ^ 64.
Proof.
  intros Hb Hl digest. split; [|split].
  - unfold getId, getHash. rewrite Hb. fold digest.
    rewrite reversed_prefix by exact Hl. reflexivity.
  - apply be_to_Z_rev.
  - pose proof (le_to_Z_bound (firstn 8 digest)) as Hbound.
    rewrite length_firstn, Nat.min_l in Hbound by exact Hl.
    exact Hbound.
Qed.

End Identifier.

(** ** Signature checks *)

Section Signatures.

Import Transaction.

(** C9.  For a transaction of a registered type, [verifySignature] and
    [verifySecondSignature] return [false], without raising, when the
    signature argument is missing or empty. *)
Theorem verify_missing_signature (sc : Scope) (trs : Transaction) (h : Handler)
    (publicKey sg : option string) :
  types sc !! type trs = Some h ->
  truthy_str sg = false ->
  verifySignature sc trs publicKey sg = Ok false
  /\ verifySecondSignature sc trs publicKey sg = Ok false.
Proof.
  intros Hty Hsg. unfold verifySignature, verifySecondSignature. rewrite Hty.
  destruct sg as [[|c s]|]; cbn in Hsg; try discriminate; split; reflexivity.
Qed.

(** C8.  With a registered type and no requester public key,
    [applyUnconfirmed] reports 'Missing sender second signature' when the
    sender has a second signature, the transaction carries none and its
    block is not the genesis block; and reports 'Sender does not have a
    second signature' when the sender has none and the transaction carries
    a non-empty one.  In both cases the world, hence [u_balance], is left
    as it was. *)
Theorem applyUnconfirmed_second_signature (sc : Scope) (trs : Transaction) (h : Handler)
    (sender : Account) (requester : option Account) (w : World) :
  types sc !! type trs = Some h ->
  truthy_str (requesterPublicKey trs) = false ->
  (secondSignature sender = true ->
   truthy_str (signSignature trs) = false ->
   opt_str_neq (blockId trs) (genesisblock_id sc) = true ->
   applyUnconfirmed sc trs sender requester w
   = (Ok (Some "Missing sender second signature"%string), w))
  /\
  (secondSignature sender = false ->
   truthy_str (signSignature trs) = true ->
   applyUnconfirmed sc trs sender requester w
   = (Ok (Some "Sender does not have a second signature"%string), w)).
Proof.
  intros Hty Hreq. unfold applyUnconfirmed. rewrite Hty, Hreq. split.
  - intros -> -> ->. reflexivity.
  - intros -> Hs. rewrite Hs. cbn [negb andb].
    destruct (signSignature trs) as [[|c s]|]; cbn in Hs; try discriminate.
    cbn [String_of]. unfold strlen. cbn [String.length].
    destruct (Z.gtb_spec (Z.of_nat (S (String.length s))) 0) as [_|?]; [reflexivity|lia].
Qed.

End Signatures.

(** ** Balance mutation *)

Section Balances.

Import Transaction.

Lemma merge_commits (w : World) (addr : string) (d : Delta) (a : Account) :
  faults w = [] ->
  accounts w !! addr = Some a ->
  merge w addr d
  = (Merged (merge_account a d),
     {| accounts := <[addr := merge_account a d]> (accounts w); faults := [] |}).
Proof. intros Hf Ha. unfold merge. rewrite Hf, Ha. reflexivity. Qed.

Lemma funds_checked (sc : Scope) (trs : Transaction) (a f b : Z) :
  opt_str_neq (blockId trs) (genesisblock_id sc) = false \/ a + f <= b ->
  opt_str_neq (blockId trs) (genesisblock_id sc) && ltb (int b) (int (a + f)) = false.
Proof.
  intros [->|Hle]; [reflexivity|].
  rewrite ltb_int. destruct (Z.ltb_spec b (a + f)); [lia|]. apply andb_false_r.
Qed.

Lemma balance_lookup (m : gmap string Account) (addr : string) (x : number) :
  balance <$> m !! addr = Some x -> exists acct, m !! addr = Some acct /\ balance acct = x.
Proof.
  destruct (m !! addr) as [acct|]; cbn; intros H; [|discriminate].
  injection H as <-. eauto.
Qed.

(** C1 (what the code does).  When the debit has been merged and the
    handler's [apply] reports an error, the balance is credited back, but
    the callback of [apply] receives the outcome of that second merge,
    not the handler's error: with a store that commits it receives no
    error at all. *)
Theorem apply_drops_handler_error (sc : Scope) (trs : Transaction) (block : Block)
    (h : Handler) (sender : Account) (w : World) (a f b : Z) (e : string) :
  types sc !! type trs = Some h ->
  accounts w !! address sender = Some sender ->
  faults w = [] ->
  amount trs = int a -> fee trs = int f -> balance sender = int b ->
  h_ready h trs sender = true ->
  opt_str_neq (blockId trs) (genesisblock_id sc) = false \/ a + f <= b ->
  handler_fails (h_apply h trs block) e ->
  exists w', apply sc trs block (Some sender) w = (Ok None, w')
             /\ balance_at w' (address sender) = Some (int b).
Proof.
  intros Hty Hacc Hf Hamt Hfee Hbal Hready Hfunds Hfail.
  unfold apply, ready. rewrite Hty, Hready.
  unfold Bignum.plus, Bignum.lessThan, Bignum.of_number, Bignum.toNumber.
  rewrite Hamt, Hfee, Hbal, add_int, (funds_checked sc trs a f b Hfunds).
  rewrite (merge_commits w _ _ sender Hf Hacc).
  unfold run. cbn [accounts faults]. rewrite Hfail.
  erewrite merge_commits; [|reflexivity|cbn [accounts address merge_account]; apply lookup_insert_eq].
  eexists. split; [reflexivity|].
  unfold balance_at. cbn [accounts address merge_account].
  rewrite lookup_insert_eq.
  cbn [fmap option_fmap option_map merge_account balance plus_delta confirmed_delta d_balance].
  rewrite Hbal, neg_int, !add_int. do 2 f_equal; lia.
Qed.

(** C2 (what the code does).  When the credit has been merged and the
    handler's [undo] reports an error, [undo] merges the same positive
    amount a second time, so the balance ends [2 * (amount + fee)] above
    its value before the call, and the callback receives no error. *)
Theorem undo_credits_twice (sc : Scope) (trs : Transaction) (block : Block)
    (h : Handler) (sender : Account) (w : World) (a f b : Z) (e : string) :
  types sc !! type trs = Some h ->
  accounts w !! address sender = Some sender ->
  faults w = [] ->
  amount trs = int a -> fee trs = int f -> balance sender = int b ->
  handler_fails (h_undo h trs block) e ->
  exists w', undo sc trs block sender w = (Ok None, w')
             /\ balance_at w' (address sender) = Some (int (b + 2 * (a + f))).
Proof.
  intros Hty Hacc Hf Hamt Hfee Hbal Hfail.
  unfold undo. rewrite Hty, Hamt, Hfee, add_int.
  rewrite (merge_commits w _ _ sender Hf Hacc).
  unfold run. cbn [accounts faults]. rewrite Hfail.
  erewrite merge_commits; [|reflexivity|cbn [accounts address merge_account]; apply lookup_insert_eq].
  eexists. split; [reflexivity|].
  unfold balance_at. cbn [accounts address merge_account].
  rewrite lookup_insert_eq.
  cbn [fmap option_fmap option_map merge_account balance plus_delta confirmed_delta d_balance].
  rewrite Hbal, !add_int. do 2 f_equal; lia.
Qed.


End Balances.

(** ** The verification pipeline *)

Section Verification.

Import Transaction.

(** C4 (as the code has it).  Once the checks before it have passed,
    [verify] stops at the fee check with 'Invalid transaction fee' when
    the fee computed by the handler is zero or differs from [trs.fee];
    when the computed fee is not zero and [trs.fee] equals it, the fee
    check passes and verification goes on with the amount check. *)
Theorem verify_fee_check (sc : Scope) (trs : Transaction)
    (sender requester : option Account) (h : Handler) (s s' : Account) :
  verify_upto_unique_signatures sc trs sender requester = Next (h, s) ->
  verify_multisignatures sc trs s = (Next tt, s') ->
  let fee0 := h_calculateFee h trs s' in
  (truthy fee0 = false \/ strict_eqb (fee trs) fee0 = false ->
   fst (verify sc trs sender requester) = Ok (Some "Invalid transaction fee"%string))
  /\
  (truthy fee0 = true -> strict_eqb (fee trs) fee0 = true ->
   fee_check_fails h trs s' = false
   /\ fst (verify sc trs sender requester) = verify_amount_onward sc h trs s').
Proof.
  intros Hhead Hmulti fee0.
  unfold verify. rewrite Hhead, Hmulti. cbn [fst].
  unfold verify_fee_onward, fee_check_fails. fold fee0. split.
  - intros [-> | ->]; [reflexivity|]. now rewrite orb_true_r.
  - intros -> ->. split; reflexivity.
Qed.




Example nearest_samples :
  Double.nearest (2 ^ 53 + 1) = 2 ^ 53
  /\ Double.nearest (2 ^ 53 + 3) = 2 ^ 53 + 4
  /\ Double.nearest 18014398509481995 = 18014398509481996
  /\ Double.nearest (- (2 ^ 53 + 3)) = - (2 ^ 53 + 4)
  /\ Double.representable (10 ^ 16 + 2) = true
  /\ Double.representable (10 ^ 16 + 1) = false.
Proof. repeat split; vm_compute; reflexivity. Qed.


End Verification.

(** ** The sender's co-signer list *)

Section Cosigners.

Import Transaction.

Lemma array_index_from_app (a extra : list string) (x : string) (i : Z) :
  0 <= i ->
  (array_index_from i a x <? 0) = false ->
  (array_index_from i (a ++ extra) x <? 0) = false.
Proof.
  revert i. induction a as [|y a IH]; intros i Hi H; cbn [array_index_from app] in *.
  - discriminate H.
  - destruct (String.eqb y x).
    + exact H.
    + apply IH; [lia|exact H].
Qed.

Ltac step_in H :=
  match type of H with
  | context [match ?e with _ => _ end] => destruct e eqn:?; try discriminate H
  end.

(** The checks before the multisignature step do not depend on keys
    appended to the sender's co-signer list. *)
Lemma head_checks_stable (sc : Scope) (trs : Transaction) (sender : Account)
    (requester : option Account) (h : Handler) (ms extra : list string) :
  multisignatures sender = Some ms ->
  verify_upto_unique_signatures sc trs (Some sender) requester = Next (h, sender) ->
  verify_upto_unique_signatures sc trs
    (Some (set_array SenderMultisignatures (ms ++ extra) sender)) requester
  = Next (h, set_array SenderMultisignatures (ms ++ extra) sender).
Proof.
  intros Hms H. unfold verify_upto_unique_signatures in *.
  cbn [set_array publicKey address multisignatures secondSignature secondPublicKey].
  rewrite Hms in H.
  destruct (types sc !! type trs) as [h0|]; [|discriminate H].
  do 2 step_in H.
  destruct (truthy_str (requesterPublicKey trs)) eqn:Hreq.
  - destruct (array_indexOf ms (requesterPublicKey trs) <? 0) eqn:Hidx; [discriminate H|].
    assert (Hidx' : (array_indexOf (ms ++ extra) (requesterPublicKey trs) <? 0) = false).
    { unfold array_indexOf in *. destruct (requesterPublicKey trs); [|discriminate Hidx].
      apply array_index_from_app; [lia|exact Hidx]. }
    rewrite Hidx'.
    repeat step_in H. all: injection H as <-; reflexivity.
  - repeat step_in H. all: injection H as <-; reflexivity.
Qed.

Lemma multisignatures_pushed (sc : Scope) (trs : Transaction) (sender : Account)
    (ms : list string) :
  truthy_str (requesterPublicKey trs) = true ->
  multisignatures sender = Some ms -> ms <> [] ->
  snd (verify_multisignatures sc trs sender)
  = set_array SenderMultisignatures (ms ++ [senderPublicKey trs]) sender.
Proof.
  intros Hreq Hms Hne. unfold verify_multisignatures. rewrite Hms, Hreq.
  destruct ms as [|k ms']; [contradiction|]. reflexivity.
Qed.

Lemma verify_sender_after (sc : Scope) (trs : Transaction) (sender : Account)
    (requester : option Account) (h : Handler) (ms : list string) :
  truthy_str (requesterPublicKey trs) = true ->
  multisignatures sender = Some ms -> ms <> [] ->
  verify_upto_unique_signatures sc trs (Some sender) requester = Next (h, sender) ->
  snd (verify sc trs (Some sender) requester)
  = Some (set_array SenderMultisignatures (ms ++ [senderPublicKey trs]) sender).
Proof.
  intros Hreq Hms Hne Hhead. unfold verify. rewrite Hhead.
  rewrite <- (multisignatures_pushed sc trs sender ms Hreq Hms Hne).
  destruct (verify_multisignatures sc trs sender) as [[r|u] s']; reflexivity.
Qed.

Lemma verify_repeatedly_grows (sc : Scope) (trs : Transaction)
    (requester : option Account) (h : Handler) (n : nat) :
  truthy_str (requesterPublicKey trs) = true ->
  forall (sender : Account) (ms : list string),
    multisignatures sender = Some ms -> ms <> [] ->
    verify_upto_unique_signatures sc trs (Some sender) requester = Next (h, sender) ->
    verify_repeatedly sc trs requester n (Some sender)
    = Some (set_array SenderMultisignatures
              (ms ++ repeat (senderPublicKey trs) n) sender).
Proof.
  intros Hreq. induction n as [|n IH]; intros sender ms Hms Hne Hhead.
  - cbn [verify_repeatedly repeat]. rewrite app_nil_r.
    destruct sender; cbn in *. now rewrite Hms.
  - cbn [verify_repeatedly repeat].
    rewrite (verify_sender_after sc trs sender requester h ms Hreq Hms Hne Hhead).
    rewrite (IH _ (ms ++ [senderPublicKey trs])).
    + cbn [set_array address publicKey balance u_balance secondSignature secondPublicKey
             multisignatures u_multisignatures].
      now rewrite <- app_assoc.
    + reflexivity.
    + now destruct ms.
    + now apply head_checks_stable.
Qed.

(** C10 (as the code has it).  When [trs.requesterPublicKey] is
    present, the sender's [multisignatures] is a non-empty list and the
    checks before the multisignature step pass, [verify] leaves the
    sender object with [trs.senderPublicKey] appended to that list, and
    [n] such calls in a row append it [n] times. *)
Theorem verify_appends_sender_key (sc : Scope) (trs : Transaction) (sender : Account)
    (requester : option Account) (h : Handler) (ms : list string) (n : nat) :
  truthy_str (requesterPublicKey trs) = true ->
  multisignatures sender = Some ms -> ms <> [] ->
  verify_upto_unique_signatures sc trs (Some sender) requester = Next (h, sender) ->
  multisignatures <$> snd (verify sc trs (Some sender) requester)
  = Some (Some (ms ++ [senderPublicKey trs]))
  /\ multisignatures <$> verify_repeatedly sc trs requester n (Some sender)
     = Some (Some (ms ++ repeat (senderPublicKey trs) n)).
Proof.
  intros Hreq Hms Hne Hhead. split.
  - now rewrite (verify_sender_after sc trs sender requester h ms).
  - now rewrite (verify_repeatedly_grows sc trs requester h n Hreq sender ms).
Qed.

End Cosigners.

(** ** The properties on the fixture *)

Section OnTheFixture.

Import Bytes Transaction Fixture.

Lemma apply_drops_handler_error_witness :
  exists w', apply scope (with_type 1 payment) block (Some alice) world = (Ok None, w')
             /\ balance_at w' (address alice) = Some (int 100000000000).
Proof.
  apply (apply_drops_handler_error scope (with_type 1 payment) block broken alice world
           1000 10000000 100000000000 "handler failed").
  - vm_compute; reflexivity.
  - vm_compute; reflexivity.
  - reflexivity.
  - reflexivity.
  - reflexivity.
  - reflexivity.
  - reflexivity.
  - right. lia.
  - intros a m. reflexivity.
Defined.

Lemma undo_credits_twice_witness :
  exists w', undo scope (with_type 1 payment) block alice world = (Ok None, w')
             /\ balance_at w' (address alice) = Some (int (100000000000 + 2 * (1000 + 10000000))).
Proof.
  apply (undo_credits_twice scope (with_type 1 payment) block broken alice world
           1000 10000000 100000000000 "handler failed").
  - vm_compute; reflexivity.
  - vm_compute; reflexivity.
  - reflexivity.
  - reflexivity.
  - reflexivity.
  - reflexivity.
  - intros a m. reflexivity.
Defined.

(** C4 as stated fails: a fee of 0 that equals the computed fee of 0 is
    still turned down at the fee check. *)
Lemma verify_rejects_equal_zero_fee :
  fee (with_type 2 (with_fee (int 0) payment))
  = h_calculateFee free (with_type 2 (with_fee (int 0) payment)) alice
  /\ fst (verify scope (with_type 2 (with_fee (int 0) payment)) (Some alice) None)
     = Ok (Some "Invalid transaction fee"%string).
Proof. split; vm_compute; reflexivity. Qed.

Lemma verify_fee_check_witness :
  fee_check_fails transfer payment alice = false
  /\ fst (verify scope payment (Some alice) None)
     = verify_amount_onward scope transfer payment alice.
Proof.
  apply (verify_fee_check scope payment (Some alice) None transfer alice alice).
  - vm_compute; reflexivity.
  - vm_compute; reflexivity.
  - reflexivity.
  - reflexivity.
Defined.

(** C5 as stated fails: the bytes of the scenario's transfer are not the
    concatenation with timestamp and amount most significant byte
    first. *)
Lemma getBytes_not_as_specified :
  getBytes scope payment false false
  <> Ok (Spec.canonical_bytes 0 141738 (unhex key_a) 58191285901858109 1000 (unhex sig_a)).
Proof. vm_compute. intros H. discriminate H. Qed.

Lemma getBytes_layout_witness :
  getBytes scope payment false false
  = Ok ([byte_of_Z 0] ++ le_bytes 4 141738 ++ unhex key_a
        ++ be_bytes 8 58191285901858109 ++ le_bytes 8 1000 ++ unhex sig_a)
  /\ length ([byte_of_Z 0] ++ le_bytes 4 141738 ++ unhex key_a
             ++ be_bytes 8 58191285901858109 ++ le_bytes 8 1000 ++ unhex sig_a) = 117%nat.
Proof.
  apply (getBytes_layout scope payment transfer None (unhex key_a) (unhex sig_a) sig_a
           58191285901858109 1000).
  - vm_compute; reflexivity.
  - reflexivity.
  - reflexivity.
  - exact I.
  - vm_compute; reflexivity.
  - vm_compute; reflexivity.
  - reflexivity.
  - vm_compute; reflexivity.
  - vm_compute; reflexivity.
  - reflexivity.
  - vm_compute; reflexivity.
  - lia.
  - reflexivity.
  - lia.
Defined.

(** C6 as stated fails: the identifier of the scenario's transfer is the
    first eight digest bytes read least significant first; reading their
    reversal least significant first gives another number. *)
Lemma getId_not_as_specified :
  getId scope payment = Ok "13987348420913138422"%string
  /\ (digest <- getHash scope payment ;; Ok (Spec.id_of_digest digest))
     = Ok "17729025602034015682"%string.
Proof. split; vm_compute; reflexivity. Qed.

Lemma getId_value_witness :
  getId scope payment = Ok "13987348420913138422"%string
  /\ be_to_Z (rev (firstn 8 (SHA256.sha256
        ([byte_of_Z 0] ++ le_bytes 4 141738 ++ unhex key_a
         ++ be_bytes 8 58191285901858109 ++ le_bytes 8 1000 ++ unhex sig_a))))
     = 13987348420913138422.
Proof.
  destruct (getId_value scope payment
              ([byte_of_Z 0] ++ le_bytes 4 141738 ++ unhex key_a
               ++ be_bytes 8 58191285901858109 ++ le_bytes 8 1000 ++ unhex sig_a))
    as (Hid & Hle & _).
  - vm_compute; reflexivity.
  - vm_compute. lia.
  - split.
    + rewrite Hid. vm_compute; reflexivity.
    + vm_compute; reflexivity.
Defined.



Lemma applyUnconfirmed_second_signature_witness :
  applyUnconfirmed scope payment alice_second None world
  = (Ok (Some "Missing sender second signature"%string), world)
  /\ applyUnconfirmed scope (with_signSignature (Some sig_a) payment) alice None world
     = (Ok (Some "Sender does not have a second signature"%string), world).
Proof.
  split.
  - apply (applyUnconfirmed_second_signature scope payment transfer alice_second None world).
    + vm_compute; reflexivity.
    + reflexivity.
    + reflexivity.
    + reflexivity.
    + vm_compute; reflexivity.
  - apply (applyUnconfirmed_second_signature scope
             (with_signSignature (Some sig_a) payment) transfer alice None world).
    + vm_compute; reflexivity.
    + reflexivity.
    + reflexivity.
    + reflexivity.
Defined.

Lemma verify_missing_signature_witness :
  verifySignature scope payment (Some key_a) None = Ok false
  /\ verifySecondSignature scope payment (Some key_a) (Some ""%string) = Ok false.
Proof.
  split.
  - apply (verify_missing_signature scope payment transfer (Some key_a) None).
    + vm_compute; reflexivity.
    + reflexivity.
  - apply (verify_missing_signature scope payment transfer (Some key_a) (Some ""%string)).
    + vm_compute; reflexivity.
    + reflexivity.
Defined.

(** C10 as stated fails: with a requester key and a non-empty
    [multisignatures] list, [verify] can return before the multisignature
    step, and the list is then as it was. *)
Lemma verify_returns_before_appending :
  truthy_str (requesterPublicKey (with_requester (Some key_a) payment)) = true
  /\ multisignatures alice_group = Some [key_b]
  /\ verify scope (with_requester (Some key_a) payment) (Some alice_group) None
     = (Ok (Some "Invalid requester public key"%string), Some alice_group).
Proof. repeat split; vm_compute; reflexivity. Qed.

Lemma verify_appends_sender_key_witness :
  multisignatures <$> snd (verify scope (with_requester (Some key_b) payment)
                             (Some alice_group) None)
  = Some (Some [key_b; key_a])
  /\ multisignatures <$> verify_repeatedly scope (with_requester (Some key_b) payment)
                           None 3 (Some alice_group)
     = Some (Some [key_b; key_a; key_a; key_a]).
Proof.
  apply (verify_appends_sender_key scope (with_requester (Some key_b) payment)
           alice_group None transfer [key_b] 3).
  - reflexivity.
  - reflexivity.
  - discriminate.
  - vm_compute; reflexivity.
Defined.

End OnTheFixture.

(** * Further properties of the code *)

(** ** Rounds *)

Section Rounds.

Import Transaction.

(** X1.  For a positive number of delegates and a non-negative height,
    [calc] is the height divided by the number of delegates, rounded up:
    the round of a block is the least [r] with [height <= r * delegates]. *)
Theorem calc_ceiling (sc : Scope) (height : Z) :
  0 < delegates sc -> 0 <= height ->
  height <= calc sc height * delegates sc < height + delegates sc.
Proof.
  intros Hd Hh. unfold calc.
  rewrite Z.rem_mod_nonneg by lia.
  pose proof (Z.div_mod height (delegates sc) ltac:(lia)) as Hdm.
  pose proof (Z.mod_pos_bound height (delegates sc) Hd) as Hm.
  destruct (Z.gtb_spec (height mod delegates sc) 0); nia.
Qed.

End Rounds.

(** ** The byte sequence in general *)

Section Encoding.

Import Bytes Transaction Codec.

Lemma copy_eight (bb : ByteBuffer) (buf : list byte) :
  fold_left (fun b i => writeByte b (Z_of_byte (byte_at buf i))) (seq 0 8) bb
  = put bb (map (byte_at buf) (seq 0 8)).
Proof.
  cbn [seq fold_left map]. unfold writeByte.
  rewrite !byte_of_Z_of_byte, !put_put. reflexivity.
Qed.

Lemma zero_eight (bb : ByteBuffer) :
  fold_left (fun b _ => writeByte b 0) (seq 0 8) bb = put bb (repeat x00 8).
Proof. cbn [seq fold_left]. unfold writeByte. rewrite !put_put. reflexivity. Qed.

Lemma put_view (bb : ByteBuffer) (bs : list byte) : view (put bb bs) = view bb ++ bs.
Proof. reflexivity. Qed.

Lemma put_littleEndian (bb : ByteBuffer) (bs : list byte) :
  littleEndian (put bb bs) = littleEndian bb.
Proof. reflexivity. Qed.

Lemma getBytes_body_encode (h : Handler) (trs : Transaction) (s1 s2 : bool) :
  match getBytes_body h trs s1 s2 with
  | Ok bb => Ok (toBuffer bb)
  | Throw e => Throw e
  end = encode h trs s1 s2.
Proof.
  unfold getBytes_body, encode.
  destruct (h_getBytes h trs s1 s2) as [assetBytes|e]; [|reflexivity].
  destruct (hex (senderPublicKey trs)) as [pk|e]; [|reflexivity].
  unfold optional_hex, recipient_field.
  destruct (requesterPublicKey trs) as [[|c0 k]|];
    [|destruct (hex (String c0 k)) as [rq|e]; [|reflexivity]|].
  all: destruct (recipientId trs) as [[|c1 r]|];
    [|destruct (Bignum.bignum (slice_0_neg1 (String c1 r))) as [n|]; [|reflexivity]|].
  all: destruct (signature trs) as [[|c2 sg]|]; destruct s1; cbn [negb];
    try (destruct (hex (String c2 sg)) as [sgb|e]; [|reflexivity]).
  all: destruct (signSignature trs) as [[|c3 sg2]|]; destruct s2; cbn [negb];
    try (destruct (hex (String c3 sg2)) as [sg2b|e]; [|reflexivity]).
  all: rewrite ?copy_eight, ?zero_eight.
  all: destruct assetBytes as [ab|]; [destruct ab as [|a0 ab]|].
  all: cbn [length asset_part]; rewrite ?Nat2Z.inj_succ.
  all: try match goal with
           | |- context [Z.succ ?x >? 0] =>
               replace (Z.succ x >? 0) with true
                 by (symmetry; apply Z.gtb_lt; lia)
           end.
  all: try change (Z.of_nat 0 >? 0) with false.
  all: cbv iota.
  all: unfold writeLong, writeInt, writeByte, toBuffer, ByteBuffer_new.
  all: rewrite ?writeBytes_put; cbn [put view littleEndian app Z.of_nat].
  all: rewrite ?writeBytes_put; cbn [put view littleEndian app Z.of_nat].
  all: rewrite ?app_nil_r, <- ?app_assoc; cbn [app]; reflexivity.
Qed.

Lemma getBytes_encode (sc : Scope) (trs : Transaction) (s1 s2 : bool) :
  getBytes sc trs s1 s2
  = match types sc !! type trs with
    | None => Throw (unknown_type trs)
    | Some h =>
        match encode h trs s1 s2 with
        | Ok bytes => Ok bytes
        | Throw e => Throw (Error_toString e)
        end
    end.
Proof.
  unfold getBytes. destruct (types sc !! type trs) as [h|]; [|reflexivity].
  rewrite <- getBytes_body_encode.
  destruct (getBytes_body h trs s1 s2); reflexivity.
Qed.

(** X2.  For every transaction and every choice of flags, [getBytes]
    raises 'Unknown transaction type' for an unregistered type and
    otherwise returns the concatenation of: the type byte, the timestamp
    (4 bytes, least significant first), the sender public key, the
    requester public key if any, the 8-byte recipient field, the amount
    (8 bytes, least significant first), the handler's asset bytes, the
    signature unless skipped or absent, the second signature unless
    skipped or absent; it raises exactly when one of these parts cannot be
    produced. *)
Theorem getBytes_concatenation (sc : Scope) (trs : Transaction) (s1 s2 : bool) :
  getBytes sc trs s1 s2
  = match types sc !! type trs with
    | None => Throw (unknown_type trs)
    | Some h =>
        match encode h trs s1 s2 with
        | Ok bytes => Ok bytes
        | Throw e => Throw (Error_toString e)
        end
    end.
Proof.
  unfold getBytes. destruct (types sc !! type trs) as [h|]; [|reflexivity].
  rewrite <- getBytes_body_encode.
  destruct (getBytes_body h trs s1 s2); reflexivity.
Qed.

End Encoding.

Section EncodingFacts.

Import Bytes Transaction Codec.

(** X3.  When the handler's asset bytes do not depend on the flags, the
    bytes whose hash the primary signature covers ([getBytes] with both
    flags) are a prefix of the bytes the second signature covers (second
    flag only), which are a prefix of the full bytes: the three differ by
    the signature, then the second signature. *)
Theorem getBytes_preimages (sc : Scope) (trs : Transaction) (h : Handler)
    (full : list byte) :
  types sc !! type trs = Some h ->
  (forall a b, h_getBytes h trs a b = h_getBytes h trs false false) ->
  getBytes sc trs false false = Ok full ->
  exists base sg sg2,
    optional_hex (signature trs) = Ok sg
    /\ optional_hex (signSignature trs) = Ok sg2
    /\ getBytes sc trs true true = Ok base
    /\ getBytes sc trs false true = Ok (base ++ sg)
    /\ full = base ++ sg ++ sg2.
Proof.
  intros Hty Hflags. rewrite !getBytes_encode, Hty. unfold encode.
  rewrite (Hflags true true), (Hflags false true).
  destruct (h_getBytes h trs false false) as [ab|]; [|discriminate].
  destruct (hex (senderPublicKey trs)) as [pk|]; [|discriminate].
  destruct (optional_hex (requesterPublicKey trs)) as [rq|]; [|discriminate].
  destruct (recipient_field (recipientId trs)) as [rc|]; [|discriminate].
  destruct (optional_hex (signature trs)) as [sg|]; [|discriminate].
  destruct (optional_hex (signSignature trs)) as [sg2|]; [|discriminate].
  intros Hfull. injection Hfull as <-.
  exists ([byte_of_Z (type trs)] ++ le_bytes 4 (timestamp trs) ++ pk ++ rq ++ rc
          ++ le_bytes 8 (Long_fromNumber (amount trs)) ++ asset_part ab), sg, sg2.
  repeat split; try reflexivity.
  - now rewrite !app_nil_r.
  - rewrite app_nil_r, <- !app_assoc. reflexivity.
  - rewrite <- !app_assoc. reflexivity.
Qed.

Lemma same_fields_same_bytes (sc : Scope) (t1 t2 : Transaction) (a b : bool) :
  same_signed_fields t1 t2 ->
  (forall h a b, types sc !! type t1 = Some h -> h_getBytes h t1 a b = h_getBytes h t2 a b) ->
  getBytes sc t1 a b = getBytes sc t2 a b.
Proof.
  intros (Hty & Hts & Hpk & Hrq & Hrc & Ham & Hsg & Hsg2) Hasset.
  rewrite !getBytes_encode. unfold unknown_type. rewrite <- Hty.
  destruct (types sc !! type t1) as [h|] eqn:Eh; [|reflexivity].
  unfold encode.
  rewrite <- (Hasset h a b eq_refl), <- Hty, <- Hts, <- Hpk, <- Hrq, <- Hrc, <- Ham,
    <- Hsg, <- Hsg2.
  reflexivity.
Qed.

(** X4.  [getBytes] reads neither [id], [senderId], [fee], [signatures]
    nor [blockId]: two transactions that agree on the other fields, and
    on the handler's asset bytes, have the same bytes, the same hash, the
    same identifier, and every signature check answers the same on
    both. *)
Theorem unsigned_fields (sc : Scope) (t1 t2 : Transaction) :
  same_signed_fields t1 t2 ->
  (forall h a b, types sc !! type t1 = Some h -> h_getBytes h t1 a b = h_getBytes h t2 a b) ->
  (forall a b, getBytes sc t1 a b = getBytes sc t2 a b)
  /\ getHash sc t1 = getHash sc t2
  /\ getId sc t1 = getId sc t2
  /\ (forall k sg, verifySignature sc t1 k sg = verifySignature sc t2 k sg)
  /\ (forall k sg, verifySecondSignature sc t1 k sg = verifySecondSignature sc t2 k sg).
Proof.
  intros Hsame Hasset.
  assert (Hbytes : forall a b, getBytes sc t1 a b = getBytes sc t2 a b)
    by (intros a b; now apply same_fields_same_bytes).
  destruct Hsame as (Hty & _).
  split; [exact Hbytes|].
  assert (Hhash : getHash sc t1 = getHash sc t2).
  { unfold getHash. now rewrite Hbytes. }
  split; [exact Hhash|]. split.
  { unfold getId. now rewrite Hhash. }
  split; intros k sg.
  - unfold verifySignature. rewrite <- Hty, Hbytes. unfold unknown_type. now rewrite Hty.
  - unfold verifySecondSignature. rewrite <- Hty, Hbytes. unfold unknown_type. now rewrite Hty.
Qed.

Lemma Z_of_byte_of_Z (z : Z) : Z_of_byte (byte_of_Z z) = z mod 256.
Proof.
  unfold Z_of_byte, byte_of_Z.
  pose proof (Z.mod_pos_bound z 256 ltac:(lia)) as Hz.
  destruct (Byte.of_N (Z.to_N (z mod 256))) as [b|] eqn:E.
  - apply Byte.to_of_N in E. rewrite E. lia.
  - apply Byte.of_N_None_iff in E. lia.
Qed.

Lemma le_to_Z_le_bytes (n : nat) (z : Z) : le_to_Z (le_bytes n z) = z mod 256 ^ Z.of_nat n.
Proof.
  revert z. induction n as [|n IH]; intros z; cbn [le_bytes le_to_Z].
  - cbn. now rewrite Z.mod_1_r.
  - rewrite IH, Z_of_byte_of_Z, Nat2Z.inj_succ, Z.pow_succ_r by lia.
    rewrite Z.rem_mul_r by (try apply Z.pow_nonzero; lia). reflexivity.
Qed.

Lemma app_inv_length {A : Type} (a1 a2 b1 b2 : list A) :
  length a1 = length a2 -> a1 ++ b1 = a2 ++ b2 -> a1 = a2 /\ b1 = b2.
Proof.
  revert a2. induction a1 as [|x a1 IH]; intros [|y a2] Hl H; cbn in *; try discriminate.
  - now split.
  - injection H as -> H. destruct (IH a2 ltac:(lia) H) as [-> ->]. now split.
Qed.

(** X5.  The bytes determine the fields they carry: two transactions
    without requester key whose sender keys have the same length, whose
    type fits a byte, whose timestamp fits 32 bits and whose amount is an
    integer in [0, 2^63 - 1), and which have the same bytes, have the same
    type, timestamp, sender key bytes, recipient field and amount. *)
Theorem getBytes_determines_fields (sc : Scope) (t1 t2 : Transaction)
    (s1 s2 : bool) (bytes pk1 pk2 : list byte) (a1 a2 : Z) :
  getBytes sc t1 s1 s2 = Ok bytes ->
  getBytes sc t2 s1 s2 = Ok bytes ->
  truthy_str (requesterPublicKey t1) = false ->
  truthy_str (requesterPublicKey t2) = false ->
  hex (senderPublicKey t1) = Ok pk1 -> hex (senderPublicKey t2) = Ok pk2 ->
  length pk1 = length pk2 ->
  0 <= type t1 < 256 -> 0 <= type t2 < 256 ->
  - 2 ^ 31 <= timestamp t1 < 2 ^ 31 -> - 2 ^ 31 <= timestamp t2 < 2 ^ 31 ->
  amount t1 = int a1 -> amount t2 = int a2 ->
  0 <= a1 < 2 ^ 63 - 1 -> 0 <= a2 < 2 ^ 63 - 1 ->
  type t1 = type t2 /\ timestamp t1 = timestamp t2 /\ pk1 = pk2
  /\ recipient_field (recipientId t1) = recipient_field (recipientId t2)
  /\ a1 = a2.
Proof.
  intros H1 H2 Hr1 Hr2 Hpk1 Hpk2 Hlen Hty1 Hty2 Hts1 Hts2 Ha1 Ha2 Hb1 Hb2.
  rewrite getBytes_encode in H1, H2.
  destruct (types sc !! type t1) as [h1|]; [|discriminate].
  destruct (types sc !! type t2) as [h2|]; [|discriminate].
  unfold encode in H1, H2. rewrite Hpk1, Ha1 in H1. rewrite Hpk2, Ha2 in H2.
  rewrite Long_fromNumber_int in H1, H2 by assumption.
  assert (Hq1 : optional_hex (requesterPublicKey t1) = Ok []).
  { destruct (requesterPublicKey t1) as [[|]|]; cbn in Hr1; try discriminate; reflexivity. }
  assert (Hq2 : optional_hex (requesterPublicKey t2) = Ok []).
  { destruct (requesterPublicKey t2) as [[|]|]; cbn in Hr2; try discriminate; reflexivity. }
  rewrite Hq1 in H1. rewrite Hq2 in H2.
  destruct (h_getBytes h1 t1 s1 s2) as [ab1|]; [|discriminate].
  destruct (h_getBytes h2 t2 s1 s2) as [ab2|]; [|discriminate].
  assert (Hrl : forall r rc, recipient_field r = Ok rc -> length rc = 8%nat).
  { intros r rc. unfold recipient_field.
    destruct r as [[|c v]|]; [intros [= <-]; reflexivity| |intros [= <-]; reflexivity].
    destruct (Bignum.bignum _); [|discriminate]. intros [= <-]. reflexivity. }
  destruct (recipient_field (recipientId t1)) as [rc1|] eqn:Erc1; [|discriminate].
  destruct (recipient_field (recipientId t2)) as [rc2|] eqn:Erc2; [|discriminate].
  pose proof (Hrl _ _ Erc1) as Hl1. pose proof (Hrl _ _ Erc2) as Hl2.
  destruct (if s1 then Ok [] else optional_hex (signature t1)) as [sg1|]; [|discriminate].
  destruct (if s1 then Ok [] else optional_hex (signature t2)) as [sg2|]; [|discriminate].
  destruct (if s2 then Ok [] else optional_hex (signSignature t1)) as [ss1|]; [|discriminate].
  destruct (if s2 then Ok [] else optional_hex (signSignature t2)) as [ss2|]; [|discriminate].
  assert (Hinj : forall x y : list byte, @Ok (list byte) x = Ok y -> x = y)
    by (intros x y [= ->]; reflexivity).
  rewrite <- H2 in H1. clear H2. apply Hinj in H1.
  apply app_inv_length in H1; [|reflexivity]. destruct H1 as [Hty H1].
  injection Hty as Hty.
  apply app_inv_length in H1; [|now rewrite !le_bytes_length]. destruct H1 as [Hts H1].
  apply app_inv_length in H1; [|exact Hlen]. destruct H1 as [Hpk H1].
  change ([] ++ rc1 ++ ?x) with (rc1 ++ x) in H1.
  change ([] ++ rc2 ++ ?x) with (rc2 ++ x) in H1.
  apply app_inv_length in H1; [|now rewrite Hl1, Hl2]. destruct H1 as [Hrc H1].
  apply app_inv_length in H1; [|now rewrite !le_bytes_length]. destruct H1 as [Ham _].
  apply (f_equal Z_of_byte) in Hty. rewrite !Z_of_byte_of_Z, !Z.mod_small in Hty by lia.
  apply (f_equal le_to_Z) in Hts, Ham. rewrite !le_to_Z_le_bytes in Hts, Ham.
  rewrite !Z.mod_small in Ham by (cbn; lia).
  assert (Hts' : timestamp t1 = timestamp t2).
  { change (256 ^ Z.of_nat 4) with (2 ^ 32) in Hts.
    assert (E1 : (timestamp t1 + 2 ^ 31) mod 2 ^ 32 = (timestamp t2 + 2 ^ 31) mod 2 ^ 32).
    { rewrite <- (Zplus_mod_idemp_l (timestamp t1)), <- (Zplus_mod_idemp_l (timestamp t2)).
      now rewrite Hts. }
    rewrite !Z.mod_small in E1 by lia. lia. }
  repeat split; try assumption. now rewrite Hrc.
Qed.

End EncodingFacts.

(** ** What [verify] establishes *)

Section VerifySound.

Import Transaction Checks.

Lemma array_index_from_In (a : list string) (x : string) (i : Z) :
  0 <= i -> (array_index_from i a x <? 0) = false <-> In x a.
Proof.
  revert i. induction a as [|y a IH]; intros i Hi; cbn [array_index_from In].
  - split; [discriminate|tauto].
  - destruct (String.eqb_spec y x) as [->|Hne].
    + split; [now left|]. intros _. apply Z.ltb_ge. lia.
    + rewrite IH by lia. split; [now right|]. intros [?|?]; [contradiction|assumption].
Qed.

Lemma unique_signatures_length_aux (sigs p : list string) :
  NoDup p ->
  (length (fold_left (fun p c => if (array_index_from 0 p c <? 0)%Z then p ++ [c] else p)
             sigs p)
   <= length p + length sigs)%nat
  /\ (length (fold_left (fun p c => if array_index_from 0 p c <? 0 then p ++ [c] else p) sigs p)
      = (length p + length sigs)%nat <-> NoDup (p ++ sigs)).
Proof.
  revert p. induction sigs as [|c sigs IH]; intros p Hp; cbn [fold_left length].
  - rewrite app_nil_r, Nat.add_0_r. split; [lia|]. split; [now intros _|reflexivity].
  - destruct (array_index_from 0 p c <? 0) eqn:E.
    + assert (Hc : ~ In c p).
      { intros Hin. apply (array_index_from_In p c 0 ltac:(lia)) in Hin. congruence. }
      assert (Hp' : NoDup (p ++ [c])).
      { apply NoDup_app. split; [exact Hp|]. split; [|apply NoDup_singleton].
        intros x Hx Hx'. apply list_elem_of_singleton in Hx'. subst x.
        apply Hc. now apply list_elem_of_In. }
      destruct (IH (p ++ [c]) Hp') as [Hle Hiff].
      rewrite length_app in Hle, Hiff. cbn [length] in Hle, Hiff.
      split; [lia|]. rewrite <- app_assoc in Hiff. cbn [app] in Hiff.
      rewrite <- Hiff. lia.
    + assert (Hc : In c p) by (apply (array_index_from_In p c 0); [lia|exact E]).
      destruct (IH p Hp) as [Hle _]. split; [lia|]. split; [lia|].
      intros Hnd. apply NoDup_app in Hnd. destruct Hnd as (_ & Hdis & _).
      exfalso. apply (Hdis c); [now apply list_elem_of_In|]. left.
Qed.

(** The list without repetitions is as long as the list exactly when
    the list has no repetition. *)
Lemma unique_signatures_length (sigs : list string) :
  length (unique_signatures sigs) = length sigs <-> NoDup sigs.
Proof.
  unfold unique_signatures.
  destruct (unique_signatures_length_aux sigs [] (NoDup_nil_2)) as [_ H]. exact H.
Qed.

Lemma keys_loop_true (sc : Scope) (trs : Transaction) (keys : list string) (sg : string)
    (acc : bool) :
  keys_loop sc trs keys sg acc = Ok true ->
  acc = true
  \/ exists k, In k keys /\ is_requester trs k = false
               /\ verifySignature sc trs (Some k) (Some sg) = Ok true.
Proof.
  revert acc. induction keys as [|k keys IH]; intros acc; cbn [keys_loop].
  - intros [= ->]. now left.
  - fold (is_requester trs k). destruct (is_requester trs k) eqn:Er.
    + intros H. destruct (IH _ H) as [?|(k' & Hin & Hk')]; [now left|].
      right. exists k'. split; [now right|exact Hk'].
    + destruct (verifySignature sc trs (Some k) (Some sg)) as [v|] eqn:Ev; [|discriminate].
      intros H. destruct (IH _ H) as [Hacc|(k' & Hin & Hk')].
      * destruct v; [|now left]. right. exists k. split; [now left|]. now split.
      * right. exists k'. split; [now right|exact Hk'].
Qed.

Lemma signatures_loop_next (sc : Scope) (trs : Transaction) (keys sigs : list string) :
  signatures_loop sc trs keys sigs = Next tt ->
  forall sg, In sg sigs ->
  exists k, In k keys /\ is_requester trs k = false
            /\ verifySignature sc trs (Some k) (Some sg) = Ok true.
Proof.
  induction sigs as [|s sigs IH]; cbn [signatures_loop In]; [intros _ sg []|].
  destruct (keys_loop sc trs keys s false) as [v|] eqn:Ek; [|discriminate].
  destruct v; cbn [negb]; [|discriminate].
  intros H sg [<-|Hin]; [|now apply IH].
  destruct (keys_loop_true _ _ _ _ _ Ek) as [?|?]; [discriminate|assumption].
Qed.

Lemma signatures_loop_never_ok (sc : Scope) (trs : Transaction) (keys sigs : list string)
    (r : res (option string)) :
  signatures_loop sc trs keys sigs = Return r -> r <> Ok None.
Proof.
  induction sigs as [|s sigs IH]; cbn [signatures_loop]; [discriminate|].
  destruct (keys_loop sc trs keys s false) as [v|]; [|intros [= <-]; discriminate].
  destruct v; cbn [negb]; [exact IH|]. intros [= <-]. discriminate.
Qed.

Lemma verify_multisignatures_cosigners (sc : Scope) (trs : Transaction) (sender : Account) :
  fst (verify_multisignatures sc trs sender)
  = match signatures trs with
    | Some sigs => signatures_loop sc trs (cosigners trs sender) sigs
    | None => Next tt
    end.
Proof.
  unfold verify_multisignatures, cosigners.
  destruct (multisignatures sender) as [a|]; [|destruct (u_multisignatures sender) as [a|]].
  all: match goal with
       | |- context [(length ?l =? 0)%nat] => destruct (length l =? 0)%nat
       end.
  all: destruct (asset_keysgroup trs); destruct (truthy_str (requesterPublicKey trs));
    reflexivity.
Qed.

Ltac walk :=
  repeat match goal with
         | H : context [match ?e with _ => _ end] |- _ => destruct e eqn:?; try discriminate
         end.

Lemma head_never_ok (sc : Scope) (trs : Transaction) (sender requester : option Account)
    (r : res (option string)) :
  verify_upto_unique_signatures sc trs sender requester = Return r -> r <> Ok None.
Proof.
  unfold verify_upto_unique_signatures, cb_err. intros H.
  walk. all: congruence.
Qed.

Lemma head_passed (sc : Scope) (trs : Transaction) (sender requester : option Account)
    (h : Handler) (s : Account) :
  verify_upto_unique_signatures sc trs sender requester = Next (h, s) ->
  sender = Some s
  /\ types sc !! type trs = Some h
  /\ (publicKey s = Some (senderPublicKey trs)
      \/ exists i, id trs = Some i /\ In i (exceptions_senderPublicKey sc))
  /\ toUpperCase (String_of (senderId trs)) = toUpperCase (address s)
  /\ (truthy_str (requesterPublicKey trs) = true ->
      exists k ms, requesterPublicKey trs = Some k
                   /\ multisignatures s = Some ms /\ In k ms)
  /\ verifySignature sc trs (signer trs) (signature trs) = Ok true
  /\ (truthy_str (requesterPublicKey trs) = false -> secondSignature s = true ->
      verifySecondSignature sc trs (secondPublicKey s) (signSignature trs) = Ok true)
  /\ (truthy_str (requesterPublicKey trs) = true ->
      requester_secondSignature requester = true ->
      verifySecondSignature sc trs (requester_secondPublicKey requester) (signSignature trs)
      = Ok true)
  /\ (forall sigs, signatures trs = Some sigs -> NoDup sigs).
Proof.
  unfold verify_upto_unique_signatures, cb_err, signer. intros H.
  destruct (types sc !! type trs) as [h0|]; [|discriminate H].
  destruct sender as [s0|]; [|discriminate H].
  destruct (opt_str_neq (publicKey s0) (senderPublicKey trs)
            && negb (-1 <? array_indexOf (exceptions_senderPublicKey sc) (id trs))) eqn:Epk;
    [discriminate H|].
  destruct (negb (toUpperCase (String_of (senderId trs)) =? toUpperCase (address s0))%string)
    eqn:Eaddr; [discriminate H|].
  assert (Hreq : truthy_str (requesterPublicKey trs) = true ->
                 exists k ms, requesterPublicKey trs = Some k
                              /\ multisignatures s0 = Some ms /\ In k ms).
  { intros Ht. rewrite Ht in H.
    destruct (multisignatures s0) as [ms|]; [|discriminate H].
    destruct (array_indexOf ms (requesterPublicKey trs) <? 0) eqn:Eidx; [discriminate H|].
    destruct (requesterPublicKey trs) as [k|]; [|discriminate Ht].
    exists k, ms. repeat split. apply (array_index_from_In ms k 0); [lia|exact Eidx]. }
  assert (Hsig : verifySignature sc trs
                   (if truthy_str (requesterPublicKey trs) then requesterPublicKey trs
                    else Some (senderPublicKey trs)) (signature trs) = Ok true
                 /\ (truthy_str (requesterPublicKey trs) = false -> secondSignature s0 = true ->
                     verifySecondSignature sc trs (secondPublicKey s0) (signSignature trs)
                     = Ok true)
                 /\ (truthy_str (requesterPublicKey trs) = true ->
                     requester_secondSignature requester = true ->
                     verifySecondSignature sc trs (requester_secondPublicKey requester)
                       (signSignature trs) = Ok true)
                 /\ (forall sigs, signatures trs = Some sigs -> NoDup sigs)
                 /\ h0 = h /\ s0 = s).
  { destruct (truthy_str (requesterPublicKey trs)) eqn:Ht.
    - destruct (multisignatures s0) as [ms|]; [|discriminate H].
      destruct (array_indexOf ms (requesterPublicKey trs) <? 0); [discriminate H|].
      destruct (verifySignature sc trs (requesterPublicKey trs) (signature trs)) as [v|];
        [|discriminate H].
      destruct v; cbn [negb] in H; [|discriminate H].
      cbn [negb andb] in H.
      destruct (requester_secondSignature requester) eqn:Ers.
      + destruct (verifySecondSignature sc trs (requester_secondPublicKey requester)
                    (signSignature trs)) as [v2|]; [|discriminate H].
        destruct v2; cbn [negb] in H; [|discriminate H].
        destruct (signatures trs) as [[|sg0 sigs0]|] eqn:Es.
        * injection H as <- <-. repeat split; try discriminate.
          intros sigs [= <-]. apply NoDup_nil_2.
        * destruct (length (unique_signatures (sg0 :: sigs0)) =? length (sg0 :: sigs0))%nat
            eqn:El; cbn [negb] in H; [|discriminate H].
          injection H as <- <-. repeat split; try discriminate.
          intros sigs [= <-]. apply unique_signatures_length. now apply Nat.eqb_eq.
        * injection H as <- <-. repeat split; discriminate.
      + destruct (signatures trs) as [[|sg0 sigs0]|] eqn:Es.
        * injection H as <- <-. repeat split; try discriminate.
          intros sigs [= <-]. apply NoDup_nil_2.
        * destruct (length (unique_signatures (sg0 :: sigs0)) =? length (sg0 :: sigs0))%nat
            eqn:El; cbn [negb] in H; [|discriminate H].
          injection H as <- <-. repeat split; try discriminate.
          intros sigs [= <-]. apply unique_signatures_length. now apply Nat.eqb_eq.
        * injection H as <- <-. repeat split; discriminate.
    - destruct (verifySignature sc trs (Some (senderPublicKey trs)) (signature trs)) as [v|];
        [|discriminate H].
      destruct v; cbn [negb] in H; [|discriminate H].
      cbn [negb andb] in H.
      destruct (secondSignature s0) eqn:Ess.
      + destruct (verifySecondSignature sc trs (secondPublicKey s0) (signSignature trs))
          as [v2|]; [|discriminate H].
        destruct v2; cbn [negb] in H; [|discriminate H].
        destruct (signatures trs) as [[|sg0 sigs0]|] eqn:Es.
        * injection H as <- <-. repeat split; try discriminate.
          intros sigs [= <-]. apply NoDup_nil_2.
        * destruct (length (unique_signatures (sg0 :: sigs0)) =? length (sg0 :: sigs0))%nat
            eqn:El; cbn [negb] in H; [|discriminate H].
          injection H as <- <-. repeat split; try discriminate.
          intros sigs [= <-]. apply unique_signatures_length. now apply Nat.eqb_eq.
        * injection H as <- <-. repeat split; discriminate.
      + destruct (signatures trs) as [[|sg0 sigs0]|] eqn:Es.
        * injection H as <- <-. repeat split; try discriminate.
          intros sigs [= <-]. apply NoDup_nil_2.
        * destruct (length (unique_signatures (sg0 :: sigs0)) =? length (sg0 :: sigs0))%nat
            eqn:El; cbn [negb] in H; [|discriminate H].
          injection H as <- <-. repeat split; try discriminate.
          intros sigs [= <-]. apply unique_signatures_length. now apply Nat.eqb_eq.
        * injection H as <- <-. repeat split; discriminate. }
  destruct Hsig as (Hs1 & Hs2 & Hs3 & Hs4 & -> & ->).
  split; [reflexivity|]. split; [reflexivity|]. split.
  { apply andb_false_iff in Epk. destruct Epk as [Epk|Epk].
    - left. unfold opt_str_neq in Epk. destruct (publicKey s) as [v|]; [|discriminate].
      apply negb_false_iff, String.eqb_eq in Epk. now subst v.
    - right. apply negb_false_iff in Epk. unfold array_indexOf in Epk.
      destruct (id trs) as [i|]; [|discriminate Epk]. exists i. split; [reflexivity|].
      apply (array_index_from_In _ i 0); [lia|].
      apply Z.ltb_lt in Epk. apply Z.ltb_ge. lia. }
  split.
  { apply negb_false_iff in Eaddr. now apply String.eqb_eq in Eaddr. }
  repeat split; assumption.
Qed.

End VerifySound.

Section VerifyGuarantees.

Import Transaction Checks.

Lemma amount_check_passed (sc : Scope) (trs : Transaction) :
  amount_check_fails sc trs = false ->
  ltb (amount trs) (int 0) = false
  /\ gtb (amount trs) (int (totalAmount sc)) = false
  /\ indexOf (Number_toString (amount trs)) "." < 0
  /\ indexOf (Number_toString (amount trs)) "e" < 0.
Proof.
  unfold amount_check_fails. rewrite !orb_false_iff, !Z.leb_gt. tauto.
Qed.

(** X6.  Whenever [verify] completes without error, the type is
    registered and a sender was given; the sender's public key is the
    transaction's (or the transaction id is a listed exception); the
    sender address matches up to case; a requester key, if present, is in
    the sender's multisignature list; the primary signature verifies
    against the requester's key if present, else the sender's; a
    registered second signature (of the sender, or of the requester when
    one submits) verifies; [signatures] has no repetition and each of
    them verifies against some co-signer key other than the requester's;
    the fee equals the non-zero fee computed by the handler; the amount
    is not below 0, not above [totalAmount], and prints without '.' and
    without 'e'; the timestamp's slot is not after the current slot; and
    the handler's own verification passed. *)
Theorem verify_sound (sc : Scope) (trs : Transaction) (sender requester : option Account) :
  fst (verify sc trs sender requester) = Ok None ->
  exists h s,
    sender = Some s
    /\ Verified sc trs h s (snd (verify_multisignatures sc trs s)) requester.
Proof.
  unfold verify.
  destruct (verify_upto_unique_signatures sc trs sender requester) as [r|[h s]] eqn:Eh.
  { cbn [fst]. intros ->. now apply head_never_ok in Eh. }
  pose proof (verify_multisignatures_cosigners sc trs s) as Hloop.
  destruct (verify_multisignatures sc trs s) as [[r|u] s'] eqn:Em; cbn [fst snd] in *.
  { intros ->. destruct (signatures trs) as [sigs|]; [|discriminate].
    symmetry in Hloop. now apply signatures_loop_never_ok in Hloop. }
  unfold verify_fee_onward, verify_amount_onward, verify_timestamp_onward.
  destruct (fee_check_fails h trs s') eqn:Efee; [discriminate|].
  destruct (amount_check_fails sc trs) eqn:Eam; [discriminate|].
  destruct (Z.gtb_spec (getSlotNumber sc (Some (timestamp trs))) (getSlotNumber sc None))
    as [?|Hslot]; [discriminate|].
  intros [= Hv].
  destruct (head_passed _ _ _ _ _ _ Eh) as (Hs & Hty & Hpk & Haddr & Hreq & Hsig & H2 & H2r & Hnd).
  exists h, s. split; [exact Hs|]. rewrite Em. cbn [snd].
  unfold fee_check_fails in Efee. apply orb_false_iff in Efee.
  destruct Efee as [Ef1 Ef2]. apply negb_false_iff in Ef1, Ef2.
  constructor; try assumption.
  - intros sigs sg Hsigs Hin. rewrite Hsigs in Hloop. symmetry in Hloop.
    destruct u. now apply (signatures_loop_next _ _ _ _ Hloop).
  - now split.
  - now apply amount_check_passed.
Qed.

(** X7.  [verify] leaves the sender object as it was whenever the
    transaction carries no requester public key, and whenever one of the
    checks before the multisignature step returns. *)
Theorem verify_keeps_sender (sc : Scope) (trs : Transaction)
    (sender requester : option Account) :
  (truthy_str (requesterPublicKey trs) = false ->
   snd (verify sc trs sender requester) = sender)
  /\ (forall r, verify_upto_unique_signatures sc trs sender requester = Return r ->
      verify sc trs sender requester = (r, sender)).
Proof.
  split.
  - intros Hreq. unfold verify.
    destruct (verify_upto_unique_signatures sc trs sender requester) as [r|[h s]] eqn:Eh;
      [reflexivity|].
    destruct (head_passed _ _ _ _ _ _ Eh) as (-> & _).
    assert (Hs : snd (verify_multisignatures sc trs s) = s).
    { unfold verify_multisignatures. rewrite Hreq.
      destruct (multisignatures s) as [a|]; [|destruct (u_multisignatures s) as [a|]].
      all: match goal with
           | |- context [(length ?l =? 0)%nat] => destruct (length l =? 0)%nat
           end.
      all: destruct (asset_keysgroup trs); reflexivity. }
    destruct (verify_multisignatures sc trs s) as [[r|u] s']; cbn [snd] in *; now subst.
  - intros r Hr. unfold verify. now rewrite Hr.
Qed.

Lemma keys_loop_total (sc : Scope) (trs : Transaction) (keys : list string) (sg : string) :
  (forall k, In k keys -> is_requester trs k = false ->
             exists b, verifySignature sc trs (Some k) (Some sg) = Ok b) ->
  forall acc,
  exists v, keys_loop sc trs keys sg acc = Ok v
            /\ (v = true <->
                acc = true
                \/ exists k, In k keys /\ is_requester trs k = false
                             /\ verifySignature sc trs (Some k) (Some sg) = Ok true).
Proof.
  induction keys as [|k keys IH]; intros Hok acc; cbn [keys_loop].
  - exists acc. split; [reflexivity|]. split; [now left|]. now intros [?|(k & [] & _)].
  - assert (Hok' : forall k', In k' keys -> is_requester trs k' = false ->
                     exists b, verifySignature sc trs (Some k') (Some sg) = Ok b).
    { intros k' Hin. apply Hok. now right. }
    fold (is_requester trs k). destruct (is_requester trs k) eqn:Er.
    + destruct (IH Hok' acc) as (v & Hv & Hiff). exists v. split; [exact Hv|].
      rewrite Hiff. split.
      * intros [?|(k' & Hin & Hk')]; [now left|]. right. exists k'. split; [now right|exact Hk'].
      * intros [?|(k' & [<-|Hin] & Hr & Hk')]; [now left|congruence|].
        right. exists k'. now split.
    + destruct (Hok k (or_introl eq_refl) Er) as (b & Hb). rewrite Hb.
      destruct (IH Hok' (if b then true else acc)) as (v & Hv & Hiff).
      exists v. split; [exact Hv|]. rewrite Hiff. split.
      * intros [Hacc|(k' & Hin & Hk')].
        -- destruct b; [|now left]. right. exists k. split; [now left|]. now split.
        -- right. exists k'. split; [now right|exact Hk'].
      * intros [->|(k' & [<-|Hin] & Hr & Hk')].
        -- left. now destruct b.
        -- left. rewrite Hb in Hk'. now injection Hk' as ->.
        -- right. exists k'. now split.
Qed.

(** X8.  When checking a signature against a co-signer key never
    raises, the multisignature loop lets the transaction through exactly
    when every entry of [signatures] verifies against at least one
    co-signer key other than the requester's, and otherwise ends with
    'Failed to verify multisignature'. *)
Theorem multisignature_loop (sc : Scope) (trs : Transaction) (keys sigs : list string) :
  (forall k sg, In k keys -> In sg sigs -> is_requester trs k = false ->
                exists b, verifySignature sc trs (Some k) (Some sg) = Ok b) ->
  (signatures_loop sc trs keys sigs = Next tt
   \/ signatures_loop sc trs keys sigs = cb_err "Failed to verify multisignature")
  /\ (signatures_loop sc trs keys sigs = Next tt <->
      forall sg, In sg sigs ->
      exists k, In k keys /\ is_requester trs k = false
                /\ verifySignature sc trs (Some k) (Some sg) = Ok true).
Proof.
  induction sigs as [|s sigs IH]; intros Hok; cbn [signatures_loop].
  - split; [now left|]. split; [intros _ sg []|reflexivity].
  - destruct (keys_loop_total sc trs keys s
                (fun k Hin Hr => Hok k s Hin (or_introl eq_refl) Hr) false)
      as (v & Hv & Hiff).
    rewrite Hv.
    assert (Hok' : forall k sg, In k keys -> In sg sigs -> is_requester trs k = false ->
                     exists b, verifySignature sc trs (Some k) (Some sg) = Ok b).
    { intros k sg Hk Hsg. apply Hok; [exact Hk|now right]. }
    destruct (IH Hok') as [Hcases IH']. destruct v; cbn [negb].
    + split; [exact Hcases|]. rewrite IH'. split.
      * intros H sg [<-|Hin]; [|now apply H].
        destruct (proj1 Hiff eq_refl) as [?|?]; [discriminate|assumption].
      * intros H sg Hin. apply H. now right.
    + split; [now right|]. split; [discriminate|].
      intros H. destruct (H s (or_introl eq_refl)) as (k & Hk).
      assert (false = true) by (apply Hiff; right; now exists k). discriminate.
Qed.

(** X9.  The multisignature loop calls [verifySignature] outside any
    [try]: if checking some entry of [signatures] against some co-signer
    key other than the requester's raises, while the entries before it
    are accepted, the exception escapes the loop, so [verify] raises
    instead of completing through its callback. *)
Theorem multisignature_loop_raises (sc : Scope) (trs : Transaction)
    (keys before after : list string) (sg k e : string) :
  signatures_loop sc trs keys before = Next tt ->
  In k keys -> is_requester trs k = false ->
  verifySignature sc trs (Some k) (Some sg) = Throw e ->
  exists e', signatures_loop sc trs keys (before ++ sg :: after) = Return (Throw e').
Proof.
  intros Hbefore Hk Hr Hthrow.
  assert (Hkeys : forall acc, exists e', keys_loop sc trs keys sg acc = Throw e').
  { clear Hbefore. induction keys as [|k0 keys IH]; [destruct Hk|].
    intros acc. cbn [keys_loop]. fold (is_requester trs k0).
    destruct Hk as [<-|Hin].
    - rewrite Hr, Hthrow. now exists e.
    - destruct (is_requester trs k0); [now apply IH|].
      destruct (verifySignature sc trs (Some k0) (Some sg)) as [v|e0]; [now apply IH|].
      now exists e0. }
  induction before as [|s before IH]; cbn [app signatures_loop] in *.
  - destruct (Hkeys false) as (e' & ->). now exists e'.
  - destruct (keys_loop sc trs keys s false) as [v|]; [|discriminate].
    destruct v; cbn [negb] in *; [now apply IH|discriminate].
Qed.

End VerifyGuarantees.

(** ** Balance mutation, continued *)

Section Unconfirmed.

Import Transaction Ledger.


Lemma merge_refuses (w : World) (addr : string) (d : Delta) (e : string)
    (rest : list (option string)) :
  faults w = Some e :: rest ->
  merge w addr d = (MergeFailed e, after_refusal w).
Proof. intros Hf. unfold merge, after_refusal. rewrite Hf. reflexivity. Qed.

Lemma guards_pass (sc : Scope) (trs : Transaction) (sender : Account)
    (requester : option Account) :
  second_signature_consistent trs sender requester ->
  (negb (truthy_str (requesterPublicKey trs)) && secondSignature sender
   && negb (truthy_str (signSignature trs))
   && opt_str_neq (blockId trs) (genesisblock_id sc) = false)
  /\ (negb (truthy_str (requesterPublicKey trs)) && negb (secondSignature sender)
      && (truthy_str (signSignature trs)
          && (strlen (String_of (signSignature trs)) >? 0)) = false)
  /\ (truthy_str (requesterPublicKey trs) && requester_secondSignature requester
      && negb (truthy_str (signSignature trs)) = false)
  /\ (truthy_str (requesterPublicKey trs) && negb (requester_secondSignature requester)
      && (truthy_str (signSignature trs)
          && (strlen (String_of (signSignature trs)) >? 0)) = false).
Proof.
  unfold second_signature_consistent.
  destruct (truthy_str (requesterPublicKey trs)); intros ->;
    destruct (truthy_str (signSignature trs)); cbn;
    repeat split; try reflexivity;
    destruct (secondSignature sender); reflexivity.
Qed.

Lemma u_funds_checked (sc : Scope) (trs : Transaction) (a f u : Z) :
  opt_str_neq (blockId trs) (genesisblock_id sc) = false \/ a + f <= u ->
  opt_str_neq (blockId trs) (genesisblock_id sc) && ltb (int u) (int (a + f)) = false.
Proof. apply funds_checked. Qed.





End Unconfirmed.

Section Mutations.

Import Transaction Ledger.

(** X13.  Outside the genesis block, [apply] turns down a transaction
    whose amount plus fee exceeds the sender's balance, and
    [applyUnconfirmed] one whose amount plus fee exceeds the unconfirmed
    balance; both report 'Account has no LISK: <address> balance=<balance>'
    and leave the world as it was, the handler not being called. *)
Theorem insufficient_funds (sc : Scope) (trs : Transaction) (block : Block) (h : Handler)
    (sender : Account) (requester : option Account) (w : World) (a f : Z) :
  types sc !! type trs = Some h ->
  amount trs = int a -> fee trs = int f ->
  opt_str_neq (blockId trs) (genesisblock_id sc) = true ->
  (forall b, balance sender = int b -> b < a + f ->
   h_ready h trs sender = true ->
   apply sc trs block (Some sender) w
   = (Ok (Some ("Account has no LISK: " +:+ address sender +:+ " balance="
                +:+ Number_toString (int b))%string), w))
  /\ (forall u, u_balance sender = int u -> u < a + f ->
      second_signature_consistent trs sender requester ->
      applyUnconfirmed sc trs sender requester w
      = (Ok (Some ("Account has no LISK: " +:+ address sender +:+ " balance="
                   +:+ Number_toString (int u))%string), w)).
Proof.
  intros Hty Hamt Hfee Hgen. split.
  - intros b Hb Hlt Hready. unfold apply, ready. rewrite Hty, Hready.
    unfold Bignum.plus, Bignum.lessThan, Bignum.of_number.
    rewrite Hamt, Hfee, Hb, add_int, Hgen, ltb_int.
    destruct (Z.ltb_spec b (a + f)); [|lia]. reflexivity.
  - intros u Hu Hlt Hcons.
    destruct (guards_pass sc trs sender requester Hcons) as (G1 & G2 & G3 & G4).
    unfold applyUnconfirmed. rewrite Hty, G1, G2, G3, G4.
    unfold Bignum.plus, Bignum.lessThan, Bignum.of_number.
    rewrite Hamt, Hfee, Hu, add_int, Hgen, ltb_int.
    destruct (Z.ltb_spec u (a + f)); [|lia]. reflexivity.
Qed.


(** X15.  When the store refuses the first merge with error [e], each of
    [apply], [undo], [applyUnconfirmed] and [undoUnconfirmed] hands [e] to
    its callback; the handler is not called and the accounts are
    untouched. *)
Theorem store_refusal (sc : Scope) (trs : Transaction) (block : Block) (h : Handler)
    (sender : Account) (requester : option Account) (w : World) (a f : Z)
    (e : string) (rest : list (option string)) :
  types sc !! type trs = Some h ->
  faults w = Some e :: rest ->
  amount trs = int a -> fee trs = int f ->
  (forall b, balance sender = int b -> h_ready h trs sender = true ->
   opt_str_neq (blockId trs) (genesisblock_id sc) = false \/ a + f <= b ->
   apply sc trs block (Some sender) w = (Ok (Some e), after_refusal w))
  /\ undo sc trs block sender w = (Ok (Some e), after_refusal w)
  /\ (forall u, u_balance sender = int u ->
      second_signature_consistent trs sender requester ->
      opt_str_neq (blockId trs) (genesisblock_id sc) = false \/ a + f <= u ->
      applyUnconfirmed sc trs sender requester w = (Ok (Some e), after_refusal w))
  /\ undoUnconfirmed sc trs sender w = (Ok (Some e), after_refusal w).
Proof.
  intros Hty Hf Hamt Hfee. repeat split.
  - intros b Hb Hready Hfunds. unfold apply, ready. rewrite Hty, Hready.
    unfold Bignum.plus, Bignum.lessThan, Bignum.of_number, Bignum.toNumber.
    rewrite Hamt, Hfee, Hb, add_int, (funds_checked sc trs a f b Hfunds).
    now rewrite (merge_refuses w _ _ e rest Hf).
  - unfold undo. rewrite Hty. now rewrite (merge_refuses w _ _ e rest Hf).
  - intros u Hu Hcons Hfunds.
    destruct (guards_pass sc trs sender requester Hcons) as (G1 & G2 & G3 & G4).
    unfold applyUnconfirmed. rewrite Hty, G1, G2, G3, G4.
    unfold Bignum.plus, Bignum.lessThan, Bignum.of_number, Bignum.toNumber.
    rewrite Hamt, Hfee, Hu, add_int, (u_funds_checked sc trs a f u Hfunds).
    now rewrite (merge_refuses w _ _ e rest Hf).
  - unfold undoUnconfirmed. rewrite Hty. now rewrite (merge_refuses w _ _ e rest Hf).
Qed.


(** X17.  For a transaction of an unregistered type, [getBytes],
    [getHash], [getId], [ready], [verifySignature] and
    [verifySecondSignature] raise 'Unknown transaction type <type>',
    whereas [verify], [apply], [undo], [applyUnconfirmed] and
    [undoUnconfirmed] hand that message to their callback and leave the
    sender object and the world as they were. *)
Theorem unknown_type_reported (sc : Scope) (trs : Transaction) (block : Block)
    (sender requester : option Account) (s : Account) (w : World)
    (k sg : option string) (f1 f2 : bool) :
  types sc !! type trs = None ->
  let msg := ("Unknown transaction type " +:+ Z_toString (type trs))%string in
  getBytes sc trs f1 f2 = Throw msg
  /\ getHash sc trs = Throw msg
  /\ getId sc trs = Throw msg
  /\ ready sc trs sender = Throw msg
  /\ verifySignature sc trs k sg = Throw msg
  /\ verifySecondSignature sc trs k sg = Throw msg
  /\ verify sc trs sender requester = (Ok (Some msg), sender)
  /\ apply sc trs block sender w = (Ok (Some msg), w)
  /\ undo sc trs block s w = (Ok (Some msg), w)
  /\ applyUnconfirmed sc trs s requester w = (Ok (Some msg), w)
  /\ undoUnconfirmed sc trs s w = (Ok (Some msg), w).
Proof.
  intros Hty msg.
  unfold getId, getHash, getBytes, ready, verifySignature, verifySecondSignature, verify,
    verify_upto_unique_signatures, apply, undo, applyUnconfirmed, undoUnconfirmed.
  rewrite Hty. repeat split.
Qed.

End Mutations.

(** ** Decimal numerals *)

Section Numerals.

Import Bytes Transaction Codec.

Lemma parse_digit (a d : Z) (rest : string) :
  0 <= d < 10 ->
  Bignum.parse_digits a (String (digit_char d) rest) = Bignum.parse_digits (10 * a + d) rest.
Proof.
  intros Hd. cbn [Bignum.parse_digits]. unfold digit_char.
  rewrite N_ascii_embedding by lia. rewrite Z2N.id by lia.
  destruct (Z.leb_spec 48 (48 + d)); [|lia].
  destruct (Z.leb_spec (48 + d) 57); [|lia].
  cbn [andb]. f_equal. lia.
Qed.

Lemma parse_digits_aux (fuel : nat) (n : Z) (acc : string) :
  0 <= n < 2 ^ Z.of_nat fuel ->
  Bignum.parse_digits 0 (digits_aux fuel n acc) = Bignum.parse_digits n acc.
Proof.
  revert n acc. induction fuel as [|f IH]; intros n acc Hn; cbn [digits_aux].
  - cbn in Hn. now replace n with 0 by lia.
  - rewrite Nat2Z.inj_succ, Z.pow_succ_r in Hn by lia.
    pose proof (Z.mod_pos_bound n 10 ltac:(lia)) as Hm.
    pose proof (Z.div_mod n 10 ltac:(lia)) as Hdm.
    destruct (Z.ltb_spec n 10) as [Hlt|Hge].
    + rewrite parse_digit by lia. f_equal. rewrite Z.mod_small by lia. lia.
    + rewrite IH.
      * rewrite parse_digit by lia. f_equal. lia.
      * split; [apply Z.div_pos; lia|]. apply Z.div_lt_upper_bound; lia.
Qed.

Lemma digits_aux_nonempty (fuel : nat) (n : Z) (a : ascii) (acc : string) :
  exists c s, digits_aux fuel n (String a acc) = String c s.
Proof.
  revert n a acc. induction fuel as [|f IH]; intros n a acc; cbn [digits_aux]; [eauto|].
  destruct (n <? 10); [eauto|]. apply IH.
Qed.

Lemma digits_nonempty (n : Z) : exists c s, digits n = String c s.
Proof.
  unfold digits. cbn [digits_aux]. destruct (n <? 10); [eauto|].
  apply digits_aux_nonempty.
Qed.

Lemma log2_fuel (n : Z) : 0 <= n -> n < 2 ^ Z.of_nat (S (Z.to_nat (Z.log2 n))).
Proof.
  intros Hn. rewrite Nat2Z.inj_succ, Z2Nat.id by apply Z.log2_nonneg.
  destruct (Z.eq_dec n 0) as [->|]; [reflexivity|].
  apply Z.log2_spec. lia.
Qed.

(** Reading back the digits of a number gives the number. *)
Lemma bignum_digits (n : Z) : 0 <= n -> Bignum.bignum (digits n) = Some n.
Proof.
  intros Hn. unfold Bignum.bignum.
  destruct (digits_nonempty n) as (c & s & E). rewrite E, <- E.
  unfold digits. rewrite parse_digits_aux by (split; [lia|now apply log2_fuel]).
  reflexivity.
Qed.

Lemma slice_last (s : string) (c : ascii) : slice_0_neg1 (s +:+ String c "") = s.
Proof.
  induction s as [|a s IH]; [reflexivity|].
  change (String a s +:+ String c "") with (String a (s +:+ String c "")).
  cbn [slice_0_neg1]. rewrite IH.
  destruct s; reflexivity.
Qed.

Lemma be_to_Z_be_bytes (n : nat) (z : Z) : be_to_Z (be_bytes n z) = z mod 256 ^ Z.of_nat n.
Proof. unfold be_bytes. now rewrite be_to_Z_rev, le_to_Z_le_bytes. Qed.

Lemma first_eight (n : Z) : map (byte_at (be_bytes 8 n)) (seq 0 8) = be_bytes 8 n.
Proof. reflexivity. Qed.

(** X18.  An address made of the decimal digits of a number below 2^64
    followed by one suffix character round-trips through the recipient
    field: the field is the number as eight bytes most significant first,
    and reading those bytes back gives the number.  The big-number helper
    is the one of [Bignum]. *)
Theorem recipient_roundtrip (n : Z) (suffix : ascii) :
  0 <= n < 2 ^ 64 ->
  recipient_field (Some (digits n +:+ String suffix "")) = Ok (be_bytes 8 n)
  /\ be_to_Z (be_bytes 8 n) = n.
Proof.
  intros Hn. split.
  - assert (Hv : forall v, (exists c s, v = String c s) ->
                recipient_field (Some v)
                = match Bignum.bignum (slice_0_neg1 v) with
                  | Some m => Ok (map (byte_at (Bignum.toBuffer 8 m)) (seq 0 8))
                  | None => Throw "Not a number"
                  end)
      by (intros v (c & s & ->); reflexivity).
    rewrite Hv.
    + rewrite slice_last, bignum_digits by lia.
      rewrite toBuffer_64 by exact Hn. now rewrite first_eight.
    + destruct (digits_nonempty n) as (c & s & ->). now exists c, (s +:+ String suffix "").
  - rewrite be_to_Z_be_bytes. apply Z.mod_small. exact Hn.
Qed.

Lemma append_assoc (a b c : string) : (a +:+ b) +:+ c = a +:+ (b +:+ c).
Proof.
  induction a as [|x a IH]; [reflexivity|].
  change (String x ((a +:+ b) +:+ c) = String x (a +:+ (b +:+ c))). now rewrite IH.
Qed.

Lemma digits_aux_app (fuel : nat) (n : Z) (acc : string) :
  digits_aux fuel n acc = digits_aux fuel n "" +:+ acc.
Proof.
  revert n acc. induction fuel as [|f IH]; intros n acc; cbn [digits_aux]; [reflexivity|].
  destruct (n <? 10); [reflexivity|].
  rewrite (IH _ (String _ acc)), (IH _ (String _ "")).
  now rewrite append_assoc.
Qed.

Lemma digits_aux_fuel (f1 f2 : nat) (n : Z) (acc : string) :
  0 <= n < 2 ^ Z.of_nat (S f1) -> n < 2 ^ Z.of_nat (S f2) ->
  digits_aux (S f1) n acc = digits_aux (S f2) n acc.
Proof.
  revert f2 n acc. induction f1 as [|f1 IH]; intros f2 n acc H1 H2.
  - change (2 ^ Z.of_nat 1) with 2 in H1. cbn [digits_aux].
    destruct (Z.ltb_spec n 10); [reflexivity|lia].
  - rewrite Nat2Z.inj_succ, Z.pow_succ_r in H1, H2 by lia.
    assert (Hp1 : 0 < 2 ^ Z.of_nat (S f1)) by (apply Z.pow_pos_nonneg; lia).
    assert (Hp2 : 0 < 2 ^ Z.of_nat f2) by (apply Z.pow_pos_nonneg; lia).
    rewrite (Nat2Z.inj_succ f1), Z.pow_succ_r in H1 by lia.
    cbn [digits_aux]. destruct (Z.ltb_spec n 10) as [|Hge]; [reflexivity|].
    destruct f2 as [|f2]; [change (2 ^ Z.of_nat 0) with 1 in H2; lia|].
    rewrite Nat2Z.inj_succ, Z.pow_succ_r in H2 by lia.
    assert (Hp3 : 0 < 2 ^ Z.of_nat f1) by (apply Z.pow_pos_nonneg; lia).
    assert (Hp4 : 0 < 2 ^ Z.of_nat f2) by (apply Z.pow_pos_nonneg; lia).
    apply (IH f2 (n / 10)).
    + rewrite Nat2Z.inj_succ, Z.pow_succ_r by lia.
      split; [apply Z.div_pos; lia|]. apply Z.div_lt_upper_bound; lia.
    + rewrite Nat2Z.inj_succ, Z.pow_succ_r by lia.
      apply Z.div_lt_upper_bound; lia.
Qed.

Lemma digits_times_ten (v : Z) : 0 < v -> digits (10 * v) = digits v +:+ "0".
Proof.
  intros Hv. unfold digits at 1. cbn [digits_aux].
  destruct (Z.ltb_spec (10 * v) 10); [lia|].
  replace (10 * v mod 10) with 0 by (rewrite Z.mul_comm, Z.mod_mul; lia).
  replace (10 * v / 10) with v by (rewrite Z.mul_comm, Z.div_mul; lia).
  rewrite digits_aux_app.
  change (String (digit_char 0) "") with "0"%string. f_equal.
  assert (Hl : 3 <= Z.log2 (10 * v)) by (apply Z.log2_le_pow2; lia).
  destruct (Z.to_nat (Z.log2 (10 * v))) as [|f] eqn:Ef; [lia|].
  unfold digits. apply digits_aux_fuel.
  - split; [lia|]. rewrite <- Ef, Z2Nat.id by lia.
    pose proof (Z.log2_spec (10 * v) ltac:(lia)) as Hs.
    rewrite Z.pow_succ_r in Hs by lia. lia.
  - now apply log2_fuel; lia.
Qed.

Lemma zeros_snoc (t : nat) : zeros t +:+ "0" = zeros (S t).
Proof.
  induction t as [|t IH]; [reflexivity|].
  cbn [zeros]. change (String "0" (zeros t) +:+ "0") with (String "0" (zeros t +:+ "0")).
  now rewrite IH.
Qed.

Lemma digits_times_power (v : Z) (t : nat) :
  0 < v -> digits (v * 10 ^ Z.of_nat t) = digits v +:+ zeros t.
Proof.
  intros Hv. induction t as [|t IH].
  - cbn [Z.of_nat zeros]. rewrite Z.pow_0_r, Z.mul_1_r.
    clear. induction (digits v) as [|a s IHs]; [reflexivity|].
    change (String a s +:+ "") with (String a (s +:+ "")). now rewrite <- IHs.
  - rewrite Nat2Z.inj_succ, Z.pow_succ_r by lia.
    replace (v * (10 * 10 ^ Z.of_nat t)) with (10 * (v * 10 ^ Z.of_nat t)) by lia.
    rewrite digits_times_ten.
    + rewrite IH, append_assoc. now rewrite zeros_snoc.
    + assert (0 < 10 ^ Z.of_nat t) by (apply Z.pow_pos_nonneg; lia). nia.
Qed.

(** An integer in [0, 10^21) prints as its digits. *)
Lemma toString_digits (z : Z) : 0 <= z < 10 ^ 21 -> Number_toString (int z) = digits z.
Proof.
  intros Hz. unfold Number_toString, norm, int. cbn [coef scale norm_aux].
  destruct (Z.eqb_spec z 0) as [->|Hnz]; [reflexivity|].
  destruct (Z.ltb_spec z 0) as [?|_]; [lia|].
  rewrite Z.abs_eq by lia.
  destruct (trailing_zeros_spec (S (Z.to_nat (Z.log2 z))) z ltac:(lia)) as [Hsplit Hpos].
  set (t := trailing_zeros (S (Z.to_nat (Z.log2 z))) z) in *.
  set (v := z / 10 ^ Z.of_nat t) in *.
  set (k := strlen (digits v)).
  assert (Ht : Z.of_nat t < 21).
  { apply (Z.pow_lt_mono_r_iff 10); [lia|lia|]. nia. }
  assert (Hv : v < 10 ^ (21 - Z.of_nat t)).
  { assert (Hp : 10 ^ 21 = 10 ^ (21 - Z.of_nat t) * 10 ^ Z.of_nat t).
    { rewrite <- Z.pow_add_r by lia. f_equal. lia. }
    assert (0 < 10 ^ Z.of_nat t) by (apply Z.pow_pos_nonneg; lia).
    nia. }
  assert (Hk : k <= 21 - Z.of_nat t).
  { unfold k, digits.
    pose proof (digits_aux_length (S (Z.to_nat (Z.log2 v))) v EmptyString
                  (21 - Z.of_nat t) ltac:(lia) ltac:(lia)) as Hl.
    unfold strlen in *. cbn [String.length] in Hl. lia. }
  cbn [Z.of_nat]. rewrite Z.sub_0_r.
  destruct (Z.leb_spec k (k + Z.of_nat t)) as [_|?]; [|lia].
  destruct (Z.leb_spec (k + Z.of_nat t) 21) as [_|?]; [|lia].
  cbn [andb]. change (EmptyString +:+ ?x) with x.
  replace (Z.to_nat (k + Z.of_nat t - k)) with t by lia.
  rewrite <- digits_times_power by exact Hpos. now rewrite <- Hsplit.
Qed.

Lemma be_to_Z_bound (l : list byte) : 0 <= be_to_Z l < 256 ^ Z.of_nat (length l).
Proof.
  rewrite <- (rev_involutive l) at 1 2. rewrite be_to_Z_rev.
  pose proof (le_to_Z_bound (rev l)) as H. now rewrite length_rev in H.
Qed.

(** X19.  Whatever the digest, the identifier [getId] returns is the plain
    decimal numeral of a number below 2^64, and reading it back the way
    [getBytes] reads an address gives that number.  The big-number helper
    is the one of [Bignum]. *)
Theorem getId_numeral (sc : Scope) (trs : Transaction) (i : string) :
  getId sc trs = Ok i ->
  exists v, 0 <= v < 2 ^ 64 /\ i = digits v /\ Bignum.bignum i = Some v.
Proof.
  unfold getId. destruct (getHash sc trs) as [hash|]; [|discriminate].
  set (temp := map (fun i => byte_at hash (7 - i)) (seq 0 8)).
  intros E. assert (Hi : i = Bignum.toString (Bignum.fromBuffer temp)) by congruence.
  subst i. clear E.
  pose proof (be_to_Z_bound temp) as Hb.
  change (Z.of_nat (length temp)) with 8 in Hb. change (256 ^ 8) with (2 ^ 64) in Hb.
  exists (be_to_Z temp). split; [exact Hb|].
  unfold Bignum.toString, Bignum.fromBuffer, Z_toString.
  assert (Hbig : 2 ^ 64 < 10 ^ 21) by reflexivity.
  rewrite toString_digits by lia. split; [reflexivity|].
  apply bignum_digits. lia.
Qed.

End Numerals.

(** ** Signing and verifying *)

Section SignVerify.

Import Bytes Transaction Codec Signing.

Lemma hex_val_hex_char (d : Z) : 0 <= d < 16 -> hex_val (hex_char d) = Some d.
Proof.
  intros Hd. unfold hex_val, hex_char.
  rewrite N_ascii_embedding by (destruct (d <? 10); lia).
  rewrite Z2N.id by (destruct (d <? 10); lia).
  destruct (Z.ltb_spec d 10).
  - destruct (Z.leb_spec 48 (48 + d)); [|lia].
    destruct (Z.leb_spec (48 + d) 57); [|lia]. cbn [andb]. f_equal. lia.
  - destruct (Z.leb_spec 48 (87 + d)); [|lia].
    destruct (Z.leb_spec (87 + d) 57); [lia|]. cbn [andb].
    destruct (Z.leb_spec 97 (87 + d)); [|lia].
    destruct (Z.leb_spec (87 + d) 102); [|lia]. cbn [andb]. f_equal. lia.
Qed.

(** Reading back the hexadecimal form of a buffer gives the buffer. *)
Lemma from_hex_toString (b : list byte) : Buffer_from_hex (Buffer_toString_hex b) = Some b.
Proof.
  induction b as [|x b IH]; [reflexivity|].
  cbn [Buffer_toString_hex Buffer_from_hex].
  pose proof (Z_of_byte_range x) as Hx.
  rewrite !hex_val_hex_char, IH.
  - f_equal. f_equal. rewrite <- Z.div_mod by lia. apply byte_of_Z_of_byte.
  - apply Z.mod_pos_bound. lia.
  - split; [apply Z.div_pos; lia|]. apply Z.div_lt_upper_bound; lia.
Qed.

Lemma hex_toString (b : list byte) : hex (Buffer_toString_hex b) = Ok b.
Proof. unfold hex. now rewrite from_hex_toString. Qed.

Lemma toString_truthy (b : list byte) :
  b <> [] -> exists c s, Buffer_toString_hex b = String c s.
Proof. destruct b as [|x b]; [congruence|]. cbn [Buffer_toString_hex]. eauto. Qed.

Lemma optional_hex_falsy (o : option string) : truthy_str o = false -> optional_hex o = Ok [].
Proof. destruct o as [[|c s]|]; [reflexivity|discriminate|reflexivity]. Qed.

Lemma verifySignature_truthy (sc : Scope) (trs : Transaction) (h : Handler)
    (k : option string) (sg : string) :
  types sc !! type trs = Some h ->
  (exists c s, sg = String c s) ->
  verifySignature sc trs k (Some sg)
  = match (bytes <- getBytes sc trs true true ;; verifyBytes sc bytes k sg) with
    | Ok r => Ok r
    | Throw e => Throw (Error_toString e)
    end.
Proof. intros Hh (c & s & ->). unfold verifySignature. now rewrite Hh. Qed.

Lemma verifySecondSignature_truthy (sc : Scope) (trs : Transaction) (h : Handler)
    (k : option string) (sg : string) :
  types sc !! type trs = Some h ->
  (exists c s, sg = String c s) ->
  verifySecondSignature sc trs k (Some sg)
  = match (bytes <- getBytes sc trs false true ;; verifyBytes sc bytes k sg) with
    | Ok r => Ok r
    | Throw e => Throw (Error_toString e)
    end.
Proof. intros Hh (c & s & ->). unfold verifySecondSignature. now rewrite Hh. Qed.

(** A signature made by [ed_Sign] over the digest of [bytes] and written
    in hexadecimal passes [verifyBytes] under the key of the pair. *)
Lemma verifyBytes_signed (sc : Scope) (ed_Sign : list byte -> Keypair -> res (list byte))
    (kp : Keypair) (bytes s : list byte) (k : string) :
  (forall h sg, ed_Sign h kp = Ok sg ->
                sg <> [] /\ ed_Verify sc h sg (kp_publicKey kp) = Ok true) ->
  hex k = Ok (kp_publicKey kp) ->
  ed_Sign (sha256 sc bytes) kp = Ok s ->
  verifyBytes sc bytes (Some k) (Buffer_toString_hex s) = Ok true.
Proof.
  intros Hed Hk Hs. unfold verifyBytes.
  rewrite hex_toString, Hk. destruct (Hed _ _ Hs) as [_ ->]. reflexivity.
Qed.

Lemma getBytes_registered (sc : Scope) (trs : Transaction) (s1 s2 : bool)
    (bytes : list byte) :
  getBytes sc trs s1 s2 = Ok bytes -> exists h, types sc !! type trs = Some h.
Proof.
  unfold getBytes. destruct (types sc !! type trs) as [h|]; [eauto|discriminate].
Qed.

(** X20.  Signing and verifying agree.  For a transaction that carries no
    signature yet, whose sender key is the public key of the pair, and
    whose type writes the same asset bytes whether or not the signature is
    there: if [ed.Verify] accepts what [ed.Sign] makes with this pair,
    then once the result of [sign] is stored in [trs.signature] the call
    [verifySignature(trs, trs.senderPublicKey, trs.signature)] returns
    true. *)
Theorem sign_verifySignature (sc : Scope)
    (ed_Sign : list byte -> Keypair -> res (list byte))
    (kp : Keypair) (trs : Transaction) (sg : string) :
  (forall h s, ed_Sign h kp = Ok s ->
               s <> [] /\ ed_Verify sc h s (kp_publicKey kp) = Ok true) ->
  truthy_str (signature trs) = false ->
  truthy_str (signSignature trs) = false ->
  hex (senderPublicKey trs) = Ok (kp_publicKey kp) ->
  (forall h, types sc !! type trs = Some h ->
             h_getBytes h (set_signature sg trs) true true = h_getBytes h trs false false) ->
  sign sc ed_Sign kp trs = Ok sg ->
  verifySignature sc (set_signature sg trs)
    (Some (senderPublicKey (set_signature sg trs)))
    (signature (set_signature sg trs)) = Ok true.
Proof.
  intros Hed Hs1 Hs2 Hk Hasset Hsign. unfold sign, getHash in Hsign.
  destruct (getBytes sc trs false false) as [bytes|] eqn:Eb; [|discriminate].
  destruct (ed_Sign (sha256 sc bytes) kp) as [s|] eqn:Es; [|discriminate].
  injection Hsign as <-.
  destruct (getBytes_registered _ _ _ _ _ Eb) as [h Hh].
  pose proof (toString_truthy s (proj1 (Hed _ _ Es))) as Hne.
  set (sg := Buffer_toString_hex s) in *.
  assert (Esame : getBytes sc (set_signature sg trs) true true = Ok bytes).
  { rewrite <- Eb, !getBytes_encode. cbn [set_signature type]. rewrite Hh.
    unfold encode. rewrite (Hasset h Hh). cbn [set_signature senderPublicKey
      requesterPublicKey recipientId amount timestamp type signature signSignature].
    now rewrite (optional_hex_falsy _ Hs1), (optional_hex_falsy _ Hs2). }
  change (signature (set_signature sg trs)) with (Some sg).
  rewrite (verifySignature_truthy _ _ h) by assumption.
  rewrite Esame. change (senderPublicKey (set_signature sg trs)) with (senderPublicKey trs).
  unfold sg. now rewrite (verifyBytes_signed sc ed_Sign kp bytes s).
Qed.

(** X21.  The same for the second signature.  For a transaction that
    carries no second signature yet and whose type writes the same asset
    bytes either way: once the result of [sign] under a second pair is
    stored in [trs.signSignature], [verifySecondSignature] under the
    public key of that pair returns true. *)
Theorem sign_verifySecondSignature (sc : Scope)
    (ed_Sign : list byte -> Keypair -> res (list byte))
    (kp : Keypair) (trs : Transaction) (k sg : string) :
  (forall h s, ed_Sign h kp = Ok s ->
               s <> [] /\ ed_Verify sc h s (kp_publicKey kp) = Ok true) ->
  truthy_str (signSignature trs) = false ->
  hex k = Ok (kp_publicKey kp) ->
  (forall h, types sc !! type trs = Some h ->
             h_getBytes h (set_signSignature sg trs) false true
             = h_getBytes h trs false false) ->
  sign sc ed_Sign kp trs = Ok sg ->
  verifySecondSignature sc (set_signSignature sg trs) (Some k)
    (signSignature (set_signSignature sg trs)) = Ok true.
Proof.
  intros Hed Hs2 Hk Hasset Hsign. unfold sign, getHash in Hsign.
  destruct (getBytes sc trs false false) as [bytes|] eqn:Eb; [|discriminate].
  destruct (ed_Sign (sha256 sc bytes) kp) as [s|] eqn:Es; [|discriminate].
  injection Hsign as <-.
  destruct (getBytes_registered _ _ _ _ _ Eb) as [h Hh].
  pose proof (toString_truthy s (proj1 (Hed _ _ Es))) as Hne.
  set (sg := Buffer_toString_hex s) in *.
  assert (Esame : getBytes sc (set_signSignature sg trs) false true = Ok bytes).
  { rewrite <- Eb, !getBytes_encode. cbn [set_signSignature type]. rewrite Hh.
    unfold encode. rewrite (Hasset h Hh). cbn [set_signSignature senderPublicKey
      requesterPublicKey recipientId amount timestamp type signature signSignature].
    now rewrite (optional_hex_falsy _ Hs2). }
  change (signSignature (set_signSignature sg trs)) with (Some sg).
  rewrite (verifySecondSignature_truthy _ _ h) by assumption.
  rewrite Esame.
  unfold sg. now rewrite (verifyBytes_signed sc ed_Sign kp bytes s).
Qed.

(** X22.  What [multisign] returns for a transaction passes
    [verifySignature] for that transaction under the public key of the
    pair, whatever signatures the transaction carries, as soon as
    [ed.Verify] accepts what [ed.Sign] makes with this pair. *)
Theorem multisign_verifySignature (sc : Scope)
    (ed_Sign : list byte -> Keypair -> res (list byte))
    (kp : Keypair) (trs : Transaction) (k sg : string) :
  (forall h s, ed_Sign h kp = Ok s ->
               s <> [] /\ ed_Verify sc h s (kp_publicKey kp) = Ok true) ->
  hex k = Ok (kp_publicKey kp) ->
  multisign sc ed_Sign kp trs = Ok sg ->
  verifySignature sc trs (Some k) (Some sg) = Ok true.
Proof.
  intros Hed Hk Hsign. unfold multisign in Hsign.
  destruct (getBytes sc trs true true) as [bytes|] eqn:Eb; [|discriminate].
  destruct (ed_Sign (sha256 sc bytes) kp) as [s|] eqn:Es; [|discriminate].
  injection Hsign as <-.
  destruct (getBytes_registered _ _ _ _ _ Eb) as [h Hh].
  pose proof (toString_truthy s (proj1 (Hed _ _ Es))) as Hne.
  rewrite (verifySignature_truthy _ _ h) by assumption.
  rewrite Eb. now rewrite (verifyBytes_signed sc ed_Sign kp bytes s).
Qed.

(** X23.  [multisign] does not read the two signature fields: storing
    values in them changes nothing in what it returns, provided the type's
    asset bytes do not read them either.  On a transaction that carries
    no signature and whose type writes the same asset bytes for every
    choice of flags, [sign] and [multisign] return the same. *)
Theorem multisign_ignores_signatures (sc : Scope)
    (ed_Sign : list byte -> Keypair -> res (list byte))
    (kp : Keypair) (trs : Transaction) (s1 s2 : string) :
  (forall h a b, types sc !! type trs = Some h ->
     h_getBytes h (set_signSignature s2 (set_signature s1 trs)) a b = h_getBytes h trs a b) ->
  multisign sc ed_Sign kp (set_signSignature s2 (set_signature s1 trs))
  = multisign sc ed_Sign kp trs
  /\ (truthy_str (signature trs) = false -> truthy_str (signSignature trs) = false ->
      (forall h a b, types sc !! type trs = Some h ->
         h_getBytes h trs a b = h_getBytes h trs false false) ->
      sign sc ed_Sign kp trs = multisign sc ed_Sign kp trs).
Proof.
  intros Hasset. split.
  - unfold multisign. rewrite !getBytes_encode.
    cbn [set_signSignature set_signature type]. unfold unknown_type. cbn [type].
    destruct (types sc !! type trs) as [h|] eqn:Hh; [|reflexivity].
    unfold encode. rewrite (Hasset h true true eq_refl). reflexivity.
  - intros Hs1 Hs2 Hflags. unfold sign, multisign, getHash.
    rewrite !getBytes_encode.
    destruct (types sc !! type trs) as [h|] eqn:Hh; [|reflexivity].
    unfold encode. rewrite (Hflags h true true eq_refl).
    rewrite (optional_hex_falsy _ Hs1), (optional_hex_falsy _ Hs2).
    destruct (h_getBytes h trs false false); [|reflexivity].
    destruct (hex (senderPublicKey trs)); [|reflexivity].
    destruct (optional_hex (requesterPublicKey trs)); [|reflexivity].
    destruct (recipient_field (recipientId trs)); reflexivity.
Qed.

End SignVerify.

(** ** Processing *)

Section Process.

Import Bytes Transaction Codec Checks Processing.

Lemma touched_same_fields (i a : string) (trs : Transaction) :
  same_signed_fields (set_senderId a (set_id i trs)) trs.
Proof. repeat split. Qed.

Lemma id_check (o : option string) (i : string) :
  truthy_str o && opt_str_neq o i = false -> truthy_str o = true -> o = Some i.
Proof.
  intros H Ht. rewrite Ht in H. cbn [andb] in H.
  destruct o as [v|]; [|discriminate]. cbn [opt_str_neq] in H.
  destruct (String.eqb_spec v i); [congruence|discriminate].
Qed.

(** The caller's object once the identifier check has passed. *)
Lemma process_object (sc : Scope) (sv : Services) (trs : Transaction)
    (sender : option Account) (h : Handler) (i : string) :
  types sc !! type trs = Some h ->
  getId sc trs = Ok i ->
  truthy_str (id trs) && opt_str_neq (id trs) i = false ->
  snd (process sc sv trs sender)
  = match sender with
    | Some s => set_senderId (address s) (set_id i trs)
    | None => set_id i trs
    end.
Proof.
  intros Hh Hi Hid. unfold process. rewrite Hh, Hi, Hid.
  destruct sender as [s|]; [|reflexivity].
  destruct (requester_check _ s) as [[|]|]; try reflexivity.
  destruct (verifySignature sc _ _ _) as [[|]|]; reflexivity.
Qed.

(** The outcome of [process] once a sender is there and the identifier
    check has passed. *)
Lemma process_stages (sc : Scope) (sv : Services) (trs : Transaction)
    (s : Account) (h : Handler) (i : string) :
  types sc !! type trs = Some h ->
  getId sc trs = Ok i ->
  truthy_str (id trs) && opt_str_neq (id trs) i = false ->
  fst (process sc sv trs (Some s))
  = match requester_check trs s with
    | Throw e => Escaped e
    | Ok false => Reported "Invalid requester public key"
    | Ok true =>
        match verifySignature sc (set_senderId (address s) (set_id i trs))
                (signer trs) (signature trs) with
        | Throw e => Escaped e
        | Ok false => Reported "Failed to verify signature"
        | Ok true => process_type_onward sv (set_senderId (address s) (set_id i trs)) s
        end
    end.
Proof.
  intros Hh Hi Hid. unfold process. rewrite Hh, Hi, Hid.
  change (requester_check (set_senderId (address s) (set_id i trs)) s)
    with (requester_check trs s).
  destruct (requester_check trs s) as [[|]|]; try reflexivity.
  change (signer (set_senderId (address s) (set_id i trs))) with (signer trs).
  change (signature (set_senderId (address s) (set_id i trs))) with (signature trs).
  destruct (verifySignature sc _ _ _) as [[|]|]; reflexivity.
Qed.

(** Whatever [process] does beyond the first three reports, it has found
    the type, computed the identifier and compared it. *)
Lemma process_started (sc : Scope) (sv : Services) (trs : Transaction)
    (sender : option Account) :
  (forall e, fst (process sc sv trs sender) <> Reported e) ->
  exists h i s,
    types sc !! type trs = Some h /\ getId sc trs = Ok i
    /\ truthy_str (id trs) && opt_str_neq (id trs) i = false
    /\ sender = Some s.
Proof.
  intros H. unfold process in H.
  destruct (types sc !! type trs) as [h|] eqn:Hh; [|exfalso; eapply H; reflexivity].
  destruct (getId sc trs) as [i|] eqn:Hi; [|exfalso; eapply H; reflexivity].
  destruct (truthy_str (id trs) && opt_str_neq (id trs) i) eqn:Hid;
    [exfalso; eapply H; reflexivity|].
  destruct sender as [s|]; [|exfalso; eapply H; reflexivity].
  exists h, i, s. repeat split; assumption.
Qed.

Lemma requester_checked (trs : Transaction) (s : Account) :
  requester_check trs s = Ok true ->
  forall k, truthy_str (requesterPublicKey trs) = true ->
            requesterPublicKey trs = Some k ->
            exists ms, multisignatures s = Some ms /\ In k ms.
Proof.
  unfold requester_check. intros H k Ht Hk. rewrite Ht in H.
  destruct (multisignatures s) as [ms|]; [|discriminate].
  exists ms. split; [reflexivity|].
  injection H as H. apply negb_true_iff in H.
  rewrite Hk in H. cbn [array_indexOf] in H.
  now apply (array_index_from_In ms k 0).
Qed.

Lemma process_accepts_checks (sc : Scope) (sv : Services) (trs : Transaction)
    (s : Account) (t' : Transaction) :
  fst (process sc sv trs (Some s)) = Accepted t' ->
  exists h i,
    types sc !! type trs = Some h /\ getId sc trs = Ok i
    /\ snd (process sc sv trs (Some s)) = set_senderId (address s) (set_id i trs)
    /\ (forall k, truthy_str (requesterPublicKey trs) = true ->
                  requesterPublicKey trs = Some k ->
                  exists ms, multisignatures s = Some ms /\ In k ms)
    /\ verifySignature sc (set_senderId (address s) (set_id i trs))
         (signer trs) (signature trs) = Ok true.
Proof.
  intros H.
  destruct (process_started sc sv trs (Some s)) as (h & i & s0 & Hh & Hi & Hid & [= <-]).
  { intros e He. rewrite H in He. discriminate. }
  pose proof (process_object sc sv trs (Some s) h i Hh Hi Hid) as Hobj.
  rewrite (process_stages sc sv trs s h i Hh Hi Hid) in H.
  destruct (requester_check trs s) as [[|]|] eqn:Erq; try discriminate.
  destruct (verifySignature sc _ (signer trs) (signature trs)) as [[|]|] eqn:Ev;
    try discriminate.
  exists h, i. split; [exact Hh|]. split; [exact Hi|]. split; [exact Hobj|].
  split; [now apply requester_checked|exact Ev].
Qed.

(** X24.  When [process] hands the transaction to its callback, every
    check has passed: there is a sender; the identifier computed from the
    bytes is the one the transaction came with, if it came with one; the
    caller's object now carries that identifier and the sender's address;
    a requester key is one of the sender's multisignature keys; the
    signature verifies under the requester key, or the sender key when
    there is none; the type's own [process] gave no error; and the
    database counts no confirmed transaction with the identifier. *)
Theorem process_accepts (sc : Scope) (sv : Services) (trs : Transaction)
    (sender : option Account) (t' : Transaction) :
  fst (process sc sv trs sender) = Accepted t' ->
  exists s i err n,
    sender = Some s
    /\ getId sc trs = Ok i
    /\ (truthy_str (id trs) = true -> id trs = Some i)
    /\ snd (process sc sv trs sender) = set_senderId (address s) (set_id i trs)
    /\ (forall k, truthy_str (requesterPublicKey trs) = true ->
                  requesterPublicKey trs = Some k ->
                  exists ms, multisignatures s = Some ms /\ In k ms)
    /\ verifySignature sc (set_senderId (address s) (set_id i trs))
         (signer trs) (signature trs) = Ok true
    /\ type_process sv (type trs) (set_senderId (address s) (set_id i trs)) s
       = Called err t'
    /\ truthy_str err = false
    /\ countById sv (id t') = Resolved n /\ n <= 0.
Proof.
  intros H.
  destruct (process_started sc sv trs sender) as (h & i & s & Hh & Hi & Hid & ->).
  { intros e He. rewrite H in He. discriminate. }
  pose proof (process_object sc sv trs (Some s) h i Hh Hi Hid) as Hobj.
  rewrite (process_stages sc sv trs s h i Hh Hi Hid) in H.
  destruct (requester_check trs s) as [[|]|] eqn:Erq; try discriminate.
  destruct (verifySignature sc _ (signer trs) (signature trs)) as [[|]|] eqn:Ev;
    try discriminate.
  unfold process_type_onward in H.
  change (type (set_senderId (address s) (set_id i trs))) with (type trs) in H.
  destruct (type_process sv (type trs) _ s) as [err t2| |] eqn:Ep; try discriminate.
  assert (Herr : truthy_str err = false)
    by (destruct err as [[|c e]|]; [| discriminate |]; reflexivity).
  assert (Hc : exists n, countById sv (id t2) = Resolved n /\ n <= 0 /\ t2 = t').
  { destruct err as [[|c e]|]; try discriminate.
    all: destruct (countById sv (id t2)) as [n| |]; try discriminate.
    all: destruct (Z.gtb_spec n 0); try discriminate.
    all: injection H as ->; exists n; repeat split; lia. }
  destruct Hc as (n & Hn & Hle & ->).
  exists s, i, err, n.
  split; [reflexivity|]. split; [exact Hi|]. split; [now apply id_check|].
  split; [exact Hobj|]. split; [now apply requester_checked|].
  split; [exact Ev|]. split; [exact Ep|]. split; [exact Herr|]. split; [exact Hn|exact Hle].
Qed.

Lemma same_bytes_same_id (sc : Scope) (t1 t2 : Transaction) :
  same_signed_fields t1 t2 ->
  (forall h a b, types sc !! type t1 = Some h -> h_getBytes h t1 a b = h_getBytes h t2 a b) ->
  getId sc t1 = getId sc t2.
Proof.
  intros Hs Ha. unfold getId, getHash.
  now rewrite (same_fields_same_bytes sc t1 t2 false false Hs Ha).
Qed.

(** X25.  [process] assigns the identifier before it looks at the sender:
    for a registered type whose bytes can be built, and a transaction that
    comes without identifier or with the right one, the caller's object
    carries the computed identifier afterwards whatever the outcome, also
    when the outcome is 'Missing sender'. *)
Theorem process_assigns_id (sc : Scope) (sv : Services) (trs : Transaction)
    (sender : option Account) (h : Handler) (i : string) :
  types sc !! type trs = Some h ->
  getId sc trs = Ok i ->
  (truthy_str (id trs) = true -> id trs = Some i) ->
  id (snd (process sc sv trs sender)) = Some i
  /\ (sender = None -> process sc sv trs sender = (Reported "Missing sender", set_id i trs)).
Proof.
  intros Hh Hi Hid.
  assert (Eid : truthy_str (id trs) && opt_str_neq (id trs) i = false).
  { destruct (truthy_str (id trs)); [|reflexivity].
    rewrite (Hid eq_refl). cbn [andb opt_str_neq]. now rewrite String.eqb_refl. }
  split.
  - rewrite (process_object sc sv trs sender h i Hh Hi Eid).
    destruct sender; reflexivity.
  - intros ->. unfold process. now rewrite Hh, Hi, Eid.
Qed.

(** X26.  The identifier [process] assigns is the identifier of the object
    it leaves: when the type's asset bytes for this transaction do not
    change with [id] and [senderId], the object carries the identifier
    that [getId] computes for it, so that processing it again passes the
    identifier check. *)
Theorem process_id_stable (sc : Scope) (sv : Services) (trs : Transaction)
    (sender : option Account) (h : Handler) (i : string) :
  types sc !! type trs = Some h ->
  getId sc trs = Ok i ->
  (truthy_str (id trs) = true -> id trs = Some i) ->
  (forall j a b, h_getBytes h (set_id j trs) a b = h_getBytes h trs a b) ->
  (forall j x a b,
     h_getBytes h (set_senderId x (set_id j trs)) a b = h_getBytes h trs a b) ->
  let t1 := snd (process sc sv trs sender) in
  id t1 = Some i /\ getId sc t1 = Ok i
  /\ truthy_str (id t1) && opt_str_neq (id t1) i = false.
Proof.
  intros Hh Hi Hid Hasset1 Hasset2 t1.
  assert (Eid : truthy_str (id trs) && opt_str_neq (id trs) i = false).
  { destruct (truthy_str (id trs)); [|reflexivity].
    rewrite (Hid eq_refl). cbn [andb opt_str_neq]. now rewrite String.eqb_refl. }
  assert (Hobj : t1 = match sender with
                      | Some s => set_senderId (address s) (set_id i trs)
                      | None => set_id i trs
                      end)
    by apply (process_object sc sv trs sender h i Hh Hi Eid).
  assert (Ht1 : id t1 = Some i) by (rewrite Hobj; destruct sender; reflexivity).
  split; [exact Ht1|]. split.
  - rewrite <- Hi, Hobj. apply same_bytes_same_id.
    + destruct sender; repeat split.
    + intros h' a b Hh'.
      assert (h' = h) as ->.
      { destruct sender; cbn [type set_senderId set_id] in Hh'; congruence. }
      destruct sender; [apply Hasset2|apply Hasset1].
  - rewrite Ht1. cbn [opt_str_neq]. rewrite String.eqb_refl. apply andb_false_r.
Qed.

(** X27.  A transaction that [process] has accepted passes, in [verify]
    with the same sender, the checks the two have in common: the type,
    the sender, the sender address (which [process] has just set), the
    requester key and the signature.  The part of [verify] up to the
    signatures can then only stop at the sender public key, at the second
    signature, or at a repeated signature. *)
Theorem process_then_verify (sc : Scope) (sv : Services) (trs : Transaction)
    (s : Account) (requester : option Account) (t' : Transaction) :
  fst (process sc sv trs (Some s)) = Accepted t' ->
  let t1 := snd (process sc sv trs (Some s)) in
  let head := verify_upto_unique_signatures sc t1 (Some s) requester in
  (exists h, head = Next (h, s))
  \/ head = cb_err "Invalid sender public key"
  \/ head = cb_err "Failed to verify second signature"
  \/ (exists e, head = cb_err (Error_toString e))
  \/ head = cb_err "Encountered duplicate signature in transaction".
Proof.
  intros H t1 head.
  destruct (process_accepts_checks sc sv trs s t' H) as (h & i & Hh & Hi & Hobj & Hreq & Hsig).
  subst head. unfold t1. rewrite Hobj. clear t1 H Hobj.
  set (t1 := set_senderId (address s) (set_id i trs)) in *.
  unfold verify_upto_unique_signatures.
  change (type t1) with (type trs). rewrite Hh.
  destruct (opt_str_neq (publicKey s) (senderPublicKey t1)
            && negb (-1 <? array_indexOf (exceptions_senderPublicKey sc) (id t1)));
    [right; left; reflexivity|].
  change (senderId t1) with (Some (address s)). cbn [String_of].
  rewrite String.eqb_refl. cbn [negb].
  change (requesterPublicKey t1) with (requesterPublicKey trs).
  change (signature t1) with (signature trs).
  change (senderPublicKey t1) with (senderPublicKey trs).
  change (signSignature t1) with (signSignature trs).
  change (signatures t1) with (signatures trs).
  unfold signer in Hsig.
  destruct (truthy_str (requesterPublicKey trs)) eqn:Erq.
  - destruct (requesterPublicKey trs) as [k|] eqn:Ek; [|discriminate].
    destruct (Hreq k eq_refl eq_refl) as (ms & -> & Hin).
    cbn [array_indexOf]. rewrite (proj2 (array_index_from_In ms k 0 ltac:(lia)) Hin).
    rewrite Hsig. cbn [negb andb].
    destruct (requester_secondSignature requester).
    + destruct (verifySecondSignature sc t1 (requester_secondPublicKey requester)
                  (signSignature trs)) as [[|]|e]; cbn [negb].
      * destruct (signatures trs) as [[|x l]|]; eauto.
        destruct (negb (length (unique_signatures (x :: l)) =? length (x :: l))%nat); eauto 10.
      * right; right; left; reflexivity.
      * right; right; right; left. eauto.
    + destruct (signatures trs) as [[|x l]|]; eauto.
      destruct (negb (length (unique_signatures (x :: l)) =? length (x :: l))%nat); eauto 10.
  - rewrite Hsig. cbn [negb andb].
    destruct (secondSignature s).
    + destruct (verifySecondSignature sc t1 (secondPublicKey s) (signSignature trs))
        as [[|]|e]; cbn [negb].
      * destruct (signatures trs) as [[|x l]|]; eauto.
        destruct (negb (length (unique_signatures (x :: l)) =? length (x :: l))%nat); eauto 10.
      * right; right; left; reflexivity.
      * right; right; right; left. eauto.
    + destruct (signatures trs) as [[|x l]|]; eauto.
      destruct (negb (length (unique_signatures (x :: l)) =? length (x :: l))%nat); eauto 10.
Qed.

Lemma encode_parts (h : Handler) (trs : Transaction) (bytes : list byte) :
  encode h trs false false = Ok bytes ->
  (exists pk, hex (senderPublicKey trs) = Ok pk)
  /\ (exists rq, optional_hex (requesterPublicKey trs) = Ok rq)
  /\ (exists rc, recipient_field (recipientId trs) = Ok rc)
  /\ (exists sg, optional_hex (signature trs) = Ok sg).
Proof.
  unfold encode. intros H.
  destruct (h_getBytes h trs false false); [|discriminate].
  destruct (hex (senderPublicKey trs)); [|discriminate].
  destruct (optional_hex (requesterPublicKey trs)); [|discriminate].
  destruct (recipient_field (recipientId trs)); [|discriminate].
  destruct (optional_hex (signature trs)); [|discriminate].
  eauto 10.
Qed.

Lemma getId_encode (sc : Scope) (trs : Transaction) (h : Handler) (i : string) :
  types sc !! type trs = Some h ->
  getId sc trs = Ok i -> exists bytes, encode h trs false false = Ok bytes.
Proof.
  intros Hh. unfold getId, getHash. rewrite getBytes_encode, Hh.
  destruct (encode h trs false false); [eauto|discriminate].
Qed.

(** When the full bytes of a transaction can be built, the signature
    check raises only if the type's bytes do or [ed.Verify] does, on the
    digest, signature and key of this call. *)
Lemma verifySignature_raises (sc : Scope) (trs t1 : Transaction) (h : Handler)
    (bytes : list byte) (e : string) :
  types sc !! type trs = Some h ->
  encode h trs false false = Ok bytes ->
  same_signed_fields t1 trs ->
  verifySignature sc t1 (signer trs) (signature trs) = Throw e ->
  (exists x, h_getBytes h t1 true true = Throw x
             /\ e = Error_toString (Error_toString x))
  \/ (exists base sg k pk x,
        getBytes sc t1 true true = Ok base
        /\ optional_hex (signature trs) = Ok sg
        /\ signer trs = Some k /\ hex k = Ok pk
        /\ ed_Verify sc (sha256 sc base) sg pk = Throw x
        /\ e = Error_toString (Error_toString x)).
Proof.
  intros Hh Henc (Hty & Hts & Hpk & Hrq & Hrc & Ham & Hsg & Hsg2) H.
  destruct (encode_parts _ _ _ Henc) as ((pk & Epk) & (rq & Erq) & (rc & Erc) & (sg & Esg)).
  unfold verifySignature in H. rewrite Hty, Hh in H.
  destruct (signature trs) as [[|c r]|] eqn:Es; try discriminate.
  rewrite getBytes_encode, Hty, Hh in *. unfold encode in *.
  rewrite Hpk, Hrq, Hrc, Epk, Erq, Erc in *.
  destruct (h_getBytes h t1 true true) as [ab|x].
  2:{ left. exists x. split; [reflexivity|]. now injection H as <-. }
  right. unfold verifyBytes in H. cbn [optional_hex] in Esg. rewrite Esg in H.
  unfold signer in *.
  destruct (requesterPublicKey trs) as [[|c0 k]|] eqn:Ek; cbn [truthy_str optional_hex] in *.
  - rewrite Epk in H. destruct (ed_Verify sc _ sg pk) as [|x] eqn:Ev; [discriminate|].
    injection H as <-. eexists _, sg, _, pk, x. repeat split; try eassumption; reflexivity.
  - rewrite Erq in H. destruct (ed_Verify sc _ sg rq) as [|x] eqn:Ev; [discriminate|].
    injection H as <-. eexists _, sg, _, rq, x. repeat split; try eassumption; reflexivity.
  - rewrite Epk in H. destruct (ed_Verify sc _ sg pk) as [|x] eqn:Ev; [discriminate|].
    injection H as <-. eexists _, sg, _, pk, x. repeat split; try eassumption; reflexivity.
Qed.

(** X28.  An exception leaves [process] in four situations only: the
    transaction names a requester and the sender has no [multisignatures]
    array; the type's [getBytes] raises when both signatures are skipped,
    although it did not for the full bytes; [ed.Verify] raises on the
    digest, the signature and the key of this call; or the type's own
    [process], called outside any [try], raises.  An ill-formed key,
    signature or recipient never escapes, since [getId] meets it first
    and [process] reports that. *)
Theorem process_escapes (sc : Scope) (sv : Services) (trs : Transaction)
    (sender : option Account) (e : string) :
  fst (process sc sv trs sender) = Escaped e ->
  exists s i h,
    sender = Some s /\ getId sc trs = Ok i /\ types sc !! type trs = Some h
    /\ ((truthy_str (requesterPublicKey trs) = true /\ multisignatures s = None)
        \/ (exists x, h_getBytes h (set_senderId (address s) (set_id i trs)) true true
                      = Throw x
                      /\ e = Error_toString (Error_toString x))
        \/ (exists base sg k pk x,
              getBytes sc (set_senderId (address s) (set_id i trs)) true true = Ok base
              /\ optional_hex (signature trs) = Ok sg
              /\ signer trs = Some k /\ hex k = Ok pk
              /\ ed_Verify sc (sha256 sc base) sg pk = Throw x
              /\ e = Error_toString (Error_toString x))
        \/ (verifySignature sc (set_senderId (address s) (set_id i trs))
              (signer trs) (signature trs) = Ok true
            /\ type_process sv (type trs) (set_senderId (address s) (set_id i trs)) s
               = Raised e)).
Proof.
  intros H.
  destruct (process_started sc sv trs sender) as (h & i & s & Hh & Hi & Hid & ->).
  { intros x Hx. rewrite H in Hx. discriminate. }
  rewrite (process_stages sc sv trs s h i Hh Hi Hid) in H.
  exists s, i, h. split; [reflexivity|]. split; [exact Hi|]. split; [exact Hh|].
  destruct (getId_encode _ _ _ _ Hh Hi) as [bytes Henc].
  destruct (requester_check trs s) as [[|]|x] eqn:Erq; try discriminate.
  - destruct (verifySignature sc _ (signer trs) (signature trs)) as [[|]|x] eqn:Ev;
      try discriminate.
    + right; right; right. split; [reflexivity|].
      unfold process_type_onward in H.
      change (type (set_senderId (address s) (set_id i trs))) with (type trs) in H.
      destruct (type_process sv (type trs) _ s) as [[[|c r]|] t2|x|]; try discriminate.
      * destruct (countById sv (id t2)) as [n| |]; try discriminate.
        destruct (n >? 0); discriminate.
      * destruct (countById sv (id t2)) as [n| |]; try discriminate.
        destruct (n >? 0); discriminate.
      * now injection H as <-.
    + injection H as <-.
      destruct (verifySignature_raises sc trs _ h bytes x Hh Henc
                  (touched_same_fields i (address s) trs) Ev) as [Hb|Hv].
      * right; left. exact Hb.
      * right; right; left. exact Hv.
  - left. unfold requester_check in Erq.
    destruct (truthy_str (requesterPublicKey trs)); [|discriminate].
    destruct (multisignatures s); [discriminate|]. now split.
Qed.

(** X29.  [process] ends with its callback uncalled and no exception
    raised exactly when every check has passed and either the type's own
    [process] never calls back, or it calls back without error and the
    database query is rejected or never settles.  In particular a
    rejected query is never reported: the function given to [.catch] is
    not bound, so reading [this.scope] raises inside the promise chain
    before the callback is reached. *)
Theorem process_silent (sc : Scope) (sv : Services) (trs : Transaction)
    (sender : option Account) :
  fst (process sc sv trs sender) = NoCallback <->
  exists s i,
    sender = Some s /\ getId sc trs = Ok i
    /\ truthy_str (id trs) && opt_str_neq (id trs) i = false
    /\ requester_check trs s = Ok true
    /\ verifySignature sc (set_senderId (address s) (set_id i trs))
         (signer trs) (signature trs) = Ok true
    /\ (type_process sv (type trs) (set_senderId (address s) (set_id i trs)) s
        = Unanswered
        \/ exists err t',
             type_process sv (type trs) (set_senderId (address s) (set_id i trs)) s
             = Called err t'
             /\ truthy_str err = false
             /\ (countById sv (id t') = Pending
                 \/ exists x, countById sv (id t') = Rejected x)).
Proof.
  split.
  - intros H.
    destruct (process_started sc sv trs sender) as (h & i & s & Hh & Hi & Hid & ->).
    { intros x Hx. rewrite H in Hx. discriminate. }
    rewrite (process_stages sc sv trs s h i Hh Hi Hid) in H.
    exists s, i. split; [reflexivity|]. split; [exact Hi|]. split; [exact Hid|].
    destruct (requester_check trs s) as [[|]|] eqn:Erq; try discriminate.
    split; [reflexivity|].
    destruct (verifySignature sc _ (signer trs) (signature trs)) as [[|]|] eqn:Ev;
      try discriminate.
    split; [reflexivity|].
    unfold process_type_onward in H.
    change (type (set_senderId (address s) (set_id i trs))) with (type trs) in H.
    destruct (type_process sv (type trs) _ s) as [err t2|x|]; try discriminate.
    + right. exists err, t2. split; [reflexivity|].
      assert (Herr : truthy_str err = false)
        by (destruct err as [[|c e]|]; [| discriminate |]; reflexivity).
      split; [exact Herr|].
      destruct err as [[|c e]|]; try discriminate.
      all: destruct (countById sv (id t2)) as [n|x|]; eauto.
      all: destruct (n >? 0); discriminate.
    + now left.
  - intros (s & i & -> & Hi & Hid & Erq & Ev & Hend).
    assert (Hh : exists h, types sc !! type trs = Some h).
    { unfold getId, getHash in Hi.
      destruct (getBytes sc trs false false) as [b|] eqn:Eb; [|discriminate].
      unfold getBytes in Eb. destruct (types sc !! type trs) as [h|]; [eauto|discriminate]. }
    destruct Hh as [h Hh].
    rewrite (process_stages sc sv trs s h i Hh Hi Hid), Erq, Ev.
    unfold process_type_onward.
    change (type (set_senderId (address s) (set_id i trs))) with (type trs).
    destruct Hend as [->|(err & t' & -> & Herr & Hq)]; [reflexivity|].
    destruct err as [[|c e]|]; try discriminate.
    all: destruct Hq as [->|[x ->]]; reflexivity.
Qed.

End Process.

(** ** Storing *)

Section Store.

Import Bytes Transaction Codec Storage.

Context {P : Type}.

(** X30.  What [dbSave] stores is what [getBytes] hashes.  When [dbSave]
    returns, the transaction has a [signature] field, the first element
    returned is the insert into [trs], and if the full bytes of the
    transaction can be built they are: the stored type and timestamp, the
    stored sender key, the stored requester key if not null, the recipient
    field, the stored amount, the type's asset bytes, the stored signature
    and the stored second signature if not null. *)
Theorem dbSave_stores_signed_bytes (sc : Scope)
    (type_dbSave : Z -> option (Transaction -> option P))
    (trs : Transaction) (h : Handler) (rows : list (Insert + P)) :
  types sc !! type trs = Some h ->
  dbSave sc type_dbSave trs = Ok rows ->
  exists ins rest,
    rows = inl ins :: rest
    /\ table ins = "trs"%string
    /\ signature trs <> None
    /\ forall bytes, getBytes sc trs false false = Ok bytes ->
       exists ab rc,
         h_getBytes h trs false false = Ok ab
         /\ recipient_field (recipientId trs) = Ok rc
         /\ bytes = [byte_of_Z (col_type (values ins))]
                    ++ le_bytes 4 (col_timestamp (values ins))
                    ++ col_senderPublicKey (values ins)
                    ++ default [] (col_requesterPublicKey (values ins))
                    ++ rc
                    ++ le_bytes 8 (Long_fromNumber (col_amount (values ins)))
                    ++ asset_part ab
                    ++ col_signature (values ins)
                    ++ default [] (col_signSignature (values ins)).
Proof.
  intros Hh H. unfold dbSave in H. rewrite Hh in H.
  destruct (hex (senderPublicKey trs)) as [pk|] eqn:Epk; [|discriminate].
  destruct (signature trs) as [sg|] eqn:Esg; [|discriminate].
  cbn [Buffer_hex] in H.
  destruct (hex sg) as [sgb|] eqn:Esgb; [|discriminate].
  destruct (Buffer_hex_or_null (signSignature trs)) as [sg2|] eqn:Esg2; [|discriminate].
  destruct (Buffer_hex_or_null (requesterPublicKey trs)) as [rq|] eqn:Erq; [|discriminate].
  destruct (type_dbSave (type trs)) as [save|]; [|discriminate].
  assert (Hopt : forall o b, Buffer_hex_or_null o = Ok b -> optional_hex o = Ok (default [] b)).
  { intros [[|c r]|] b; cbn [Buffer_hex_or_null optional_hex].
    - now intros [= <-].
    - destruct (hex (String c r)); [now intros [= <-]|discriminate].
    - now intros [= <-]. }
  assert (Hsig : optional_hex (Some sg) = Ok sgb).
  { destruct sg as [|c r]; [|exact Esgb]. cbn in Esgb. injection Esgb as <-. reflexivity. }
  eexists _, (match save trs with Some promise => [inr promise] | None => [] end).
  split; [destruct (save trs); injection H as <-; reflexivity|].
  split; [reflexivity|]. split; [discriminate|].
  intros bytes Hb. rewrite getBytes_encode, Hh in Hb. unfold encode in Hb.
  rewrite Epk, (Hopt _ _ Erq), (Hopt _ _ Esg2), Esg, Hsig in Hb.
  destruct (h_getBytes h trs false false) as [ab|]; [|discriminate].
  destruct (recipient_field (recipientId trs)) as [rc|]; [|discriminate].
  injection Hb as <-. exists ab, rc. repeat split.
Qed.

End Store.

(** ** The further properties on the scenarios *)

Section OnTheScenarios.

Import Bytes Transaction Codec Checks Ledger Signing Processing Storage Fixture Scenario.

Lemma calc_ceiling_witness : 250 <= calc scope 250 * delegates scope < 250 + delegates scope.
Proof.
  apply (calc_ceiling scope 250).
  - reflexivity.
  - lia.
Defined.

Lemma getBytes_preimages_witness :
  exists base sg sg2,
    optional_hex (signature payment) = Ok sg
    /\ optional_hex (signSignature payment) = Ok sg2
    /\ getBytes scope payment true true = Ok base
    /\ getBytes scope payment false true = Ok (base ++ sg)
    /\ [byte_of_Z 0] ++ le_bytes 4 141738 ++ unhex key_a
       ++ be_bytes 8 58191285901858109 ++ le_bytes 8 1000 ++ unhex sig_a
       = base ++ sg ++ sg2.
Proof.
  apply (getBytes_preimages scope payment transfer).
  - vm_compute; reflexivity.
  - intros a b. reflexivity.
  - vm_compute; reflexivity.
Defined.

Lemma unsigned_fields_witness :
  (forall a b, getBytes scope (with_fee (int 5) payment) a b = getBytes scope payment a b)
  /\ getHash scope (with_fee (int 5) payment) = getHash scope payment
  /\ getId scope (with_fee (int 5) payment) = getId scope payment
  /\ (forall k sg, verifySignature scope (with_fee (int 5) payment) k sg
                   = verifySignature scope payment k sg)
  /\ (forall k sg, verifySecondSignature scope (with_fee (int 5) payment) k sg
                   = verifySecondSignature scope payment k sg).
Proof.
  apply (unsigned_fields scope (with_fee (int 5) payment) payment).
  - repeat split.
  - intros h a b Hh. vm_compute in Hh. injection Hh as <-. reflexivity.
Defined.

Lemma getBytes_determines_fields_witness :
  type payment = type (with_fee (int 5) payment)
  /\ timestamp payment = timestamp (with_fee (int 5) payment)
  /\ unhex key_a = unhex key_a
  /\ recipient_field (recipientId payment)
     = recipient_field (recipientId (with_fee (int 5) payment))
  /\ 1000 = 1000.
Proof.
  apply (getBytes_determines_fields scope payment (with_fee (int 5) payment) false false
           ([byte_of_Z 0] ++ le_bytes 4 141738 ++ unhex key_a
            ++ be_bytes 8 58191285901858109 ++ le_bytes 8 1000 ++ unhex sig_a)).
  - vm_compute; reflexivity.
  - vm_compute; reflexivity.
  - reflexivity.
  - reflexivity.
  - vm_compute; reflexivity.
  - vm_compute; reflexivity.
  - reflexivity.
  - cbn; lia.
  - cbn; lia.
  - cbn; lia.
  - cbn; lia.
  - reflexivity.
  - reflexivity.
  - lia.
  - lia.
Defined.

Lemma verify_sound_witness :
  exists h s,
    Some alice = Some s
    /\ Verified scope payment h s (snd (verify_multisignatures scope payment s)) None.
Proof.
  apply (verify_sound scope payment (Some alice) None).
  vm_compute; reflexivity.
Defined.

Lemma verify_keeps_sender_witness :
  snd (verify scope payment (Some alice) None) = Some alice
  /\ verify scope payment None None = (Ok (Some "Missing sender"%string), None).
Proof.
  split.
  - apply (proj1 (verify_keeps_sender scope payment (Some alice) None)). reflexivity.
  - apply (proj2 (verify_keeps_sender scope payment None None)). vm_compute; reflexivity.
Defined.

Lemma multisignature_loop_witness :
  (signatures_loop scope payment [key_b] [sig_a] = Next tt
   \/ signatures_loop scope payment [key_b] [sig_a] = cb_err "Failed to verify multisignature")
  /\ (signatures_loop scope payment [key_b] [sig_a] = Next tt <->
      forall sg, In sg [sig_a] ->
      exists k, In k [key_b] /\ is_requester payment k = false
                /\ verifySignature scope payment (Some k) (Some sg) = Ok true).
Proof.
  apply (multisignature_loop scope payment [key_b] [sig_a]).
  intros k sg [<-|[]] [<-|[]] _. exists true. vm_compute; reflexivity.
Defined.

Lemma multisignature_loop_raises_witness :
  exists e', signatures_loop scope payment [key_b] ([] ++ "zz"%string :: [sig_a])
             = Return (Throw e').
Proof.
  apply (multisignature_loop_raises scope payment [key_b] [] [sig_a] "zz" key_b
           "Error: Error: TypeError: Invalid hex string").
  - reflexivity.
  - left; reflexivity.
  - reflexivity.
  - vm_compute; reflexivity.
Defined.



Lemma insufficient_funds_witness :
  apply scope payment block (Some pauper) poor_world
  = (Ok (Some "Account has no LISK: 18160565574430594874L balance=500"%string), poor_world)
  /\ applyUnconfirmed scope payment pauper None poor_world
     = (Ok (Some "Account has no LISK: 18160565574430594874L balance=500"%string), poor_world).
Proof.
  destruct (insufficient_funds scope payment block transfer pauper None poor_world
              1000 10000000) as [Ha Hu].
  - vm_compute; reflexivity.
  - reflexivity.
  - reflexivity.
  - vm_compute; reflexivity.
  - split.
    + rewrite (Ha 500); [vm_compute; reflexivity|reflexivity|lia|reflexivity].
    + rewrite (Hu 500); [vm_compute; reflexivity|reflexivity|lia|reflexivity].
Defined.


Lemma store_refusal_witness :
  apply scope payment block (Some alice) refusing
  = (Ok (Some "store is down"%string), after_refusal refusing)
  /\ undo scope payment block alice refusing
     = (Ok (Some "store is down"%string), after_refusal refusing)
  /\ applyUnconfirmed scope payment alice None refusing
     = (Ok (Some "store is down"%string), after_refusal refusing)
  /\ undoUnconfirmed scope payment alice refusing
     = (Ok (Some "store is down"%string), after_refusal refusing).
Proof.
  destruct (store_refusal scope payment block transfer alice None refusing
              1000 10000000 "store is down" [])
    as (Ha & Hu & Hau & Huu).
  - vm_compute; reflexivity.
  - reflexivity.
  - reflexivity.
  - reflexivity.
  - split; [|split; [exact Hu|split; [|exact Huu]]].
    + apply (Ha 100000000000); [reflexivity|reflexivity|right; lia].
    + apply (Hau 100000000000); [reflexivity|reflexivity|right; lia].
Defined.


Lemma unknown_type_reported_witness :
  getBytes scope (with_type 9 payment) false false = Throw "Unknown transaction type 9"
  /\ verify scope (with_type 9 payment) (Some alice) None
     = (Ok (Some "Unknown transaction type 9"%string), Some alice)
  /\ apply scope (with_type 9 payment) block (Some alice) world
     = (Ok (Some "Unknown transaction type 9"%string), world).
Proof.
  destruct (unknown_type_reported scope (with_type 9 payment) block (Some alice) None
              alice world None None false false)
    as (Hb & _ & _ & _ & _ & _ & Hv & Ha & _).
  - vm_compute; reflexivity.
  - split; [|split].
    + rewrite Hb. vm_compute; reflexivity.
    + rewrite Hv. vm_compute; reflexivity.
    + rewrite Ha. vm_compute; reflexivity.
Defined.

Lemma recipient_roundtrip_witness :
  recipient_field (Some (digits 58191285901858109 +:+ "L")) = Ok (be_bytes 8 58191285901858109)
  /\ be_to_Z (be_bytes 8 58191285901858109) = 58191285901858109.
Proof.
  apply (recipient_roundtrip 58191285901858109 "L").
  lia.
Defined.

Lemma getId_numeral_witness :
  exists v, 0 <= v < 2 ^ 64 /\ "13987348420913138422"%string = digits v
            /\ Bignum.bignum "13987348420913138422" = Some v.
Proof.
  apply (getId_numeral scope payment).
  vm_compute; reflexivity.
Defined.

Lemma bytes_eqb_refl (a : list byte) : bytes_eqb a a = true.
Proof.
  induction a as [|x a IH]; [reflexivity|]. cbn [bytes_eqb].
  rewrite IH, andb_true_r. now apply Byte.byte_dec_lb.
Qed.

Lemma toy_scheme (kp : Keypair) (h s : list byte) :
  kp_publicKey kp <> [] ->
  toy_Sign h kp = Ok s ->
  s <> [] /\ ed_Verify signing_scope h s (kp_publicKey kp) = Ok true.
Proof.
  intros Hk [= <-]. split.
  - intros E. apply app_eq_nil in E. now destruct E.
  - cbn [ed_Verify signing_scope]. unfold toy_Verify. now rewrite bytes_eqb_refl.
Qed.

Lemma sign_verifySignature_witness :
  verifySignature signing_scope (set_signature draft_signature draft)
    (Some (senderPublicKey (set_signature draft_signature draft)))
    (signature (set_signature draft_signature draft)) = Ok true.
Proof.
  apply (sign_verifySignature signing_scope toy_Sign pair_a draft draft_signature).
  - intros h s. apply toy_scheme. vm_compute; discriminate.
  - reflexivity.
  - reflexivity.
  - vm_compute; reflexivity.
  - intros h Hh. vm_compute in Hh. injection Hh as <-. reflexivity.
  - vm_compute; reflexivity.
Defined.

Lemma sign_verifySecondSignature_witness :
  verifySecondSignature signing_scope (set_signSignature draft_second_signature signed_draft)
    (Some key_b)
    (signSignature (set_signSignature draft_second_signature signed_draft)) = Ok true.
Proof.
  apply (sign_verifySecondSignature signing_scope toy_Sign pair_b signed_draft key_b
           draft_second_signature).
  - intros h s. apply toy_scheme. vm_compute; discriminate.
  - reflexivity.
  - vm_compute; reflexivity.
  - intros h Hh. vm_compute in Hh. injection Hh as <-. reflexivity.
  - vm_compute; reflexivity.
Defined.

Lemma multisign_verifySignature_witness :
  verifySignature signing_scope payment (Some key_b) (Some cosignature) = Ok true.
Proof.
  apply (multisign_verifySignature signing_scope toy_Sign pair_b payment key_b cosignature).
  - intros h s. apply toy_scheme. vm_compute; discriminate.
  - vm_compute; reflexivity.
  - vm_compute; reflexivity.
Defined.

Lemma multisign_ignores_signatures_witness :
  multisign signing_scope toy_Sign pair_a (set_signSignature sig_a (set_signature sig_a draft))
  = multisign signing_scope toy_Sign pair_a draft
  /\ sign signing_scope toy_Sign pair_a draft = multisign signing_scope toy_Sign pair_a draft.
Proof.
  destruct (multisign_ignores_signatures signing_scope toy_Sign pair_a draft sig_a sig_a)
    as [Hm Hs].
  - intros h a b Hh. vm_compute in Hh. injection Hh as <-. reflexivity.
  - split; [exact Hm|]. apply Hs.
    + reflexivity.
    + reflexivity.
    + intros h a b Hh. vm_compute in Hh. injection Hh as <-. reflexivity.
Defined.

Lemma process_accepts_witness :
  exists s i err n,
    Some alice = Some s
    /\ getId scope payment = Ok i
    /\ (truthy_str (id payment) = true -> id payment = Some i)
    /\ snd (process scope services payment (Some alice))
       = set_senderId (address s) (set_id i payment)
    /\ (forall k, truthy_str (requesterPublicKey payment) = true ->
                  requesterPublicKey payment = Some k ->
                  exists ms, multisignatures s = Some ms /\ In k ms)
    /\ verifySignature scope (set_senderId (address s) (set_id i payment))
         (signer payment) (signature payment) = Ok true
    /\ type_process services (type payment) (set_senderId (address s) (set_id i payment)) s
       = Called err processed_payment
    /\ truthy_str err = false
    /\ countById services (id processed_payment) = Resolved n /\ n <= 0.
Proof.
  apply (process_accepts scope services payment (Some alice) processed_payment).
  vm_compute; reflexivity.
Defined.

Lemma process_assigns_id_witness :
  id (snd (process scope services payment None)) = Some "13987348420913138422"%string
  /\ (@None Account = None ->
      process scope services payment None
      = (Reported "Missing sender", set_id "13987348420913138422" payment)).
Proof.
  apply (process_assigns_id scope services payment None transfer "13987348420913138422").
  - vm_compute; reflexivity.
  - vm_compute; reflexivity.
  - intros H. discriminate H.
Defined.

Lemma process_id_stable_witness :
  id (snd (process memo_scope services noted_payment (Some alice))) = Some noted_id
  /\ getId memo_scope (snd (process memo_scope services noted_payment (Some alice)))
     = Ok noted_id
  /\ truthy_str (id (snd (process memo_scope services noted_payment (Some alice))))
     && opt_str_neq (id (snd (process memo_scope services noted_payment (Some alice))))
          noted_id = false.
Proof.
  apply (process_id_stable memo_scope services noted_payment (Some alice) memo noted_id).
  - vm_compute; reflexivity.
  - vm_compute; reflexivity.
  - intros H. discriminate H.
  - intros j a b. reflexivity.
  - intros j x a b. reflexivity.
Defined.

Lemma process_then_verify_witness :
  (exists h, verify_upto_unique_signatures scope
               (snd (process scope services payment (Some alice))) (Some alice) None
             = Next (h, alice))
  \/ verify_upto_unique_signatures scope
       (snd (process scope services payment (Some alice))) (Some alice) None
     = cb_err "Invalid sender public key"
  \/ verify_upto_unique_signatures scope
       (snd (process scope services payment (Some alice))) (Some alice) None
     = cb_err "Failed to verify second signature"
  \/ (exists e, verify_upto_unique_signatures scope
                  (snd (process scope services payment (Some alice))) (Some alice) None
                = cb_err (Error_toString e))
  \/ verify_upto_unique_signatures scope
       (snd (process scope services payment (Some alice))) (Some alice) None
     = cb_err "Encountered duplicate signature in transaction".
Proof.
  apply (process_then_verify scope services payment alice None processed_payment).
  vm_compute; reflexivity.
Defined.

Lemma process_escapes_witness :
  exists s i h,
    Some alice = Some s /\ getId scope payment = Ok i
    /\ types scope !! type payment = Some h
    /\ ((truthy_str (requesterPublicKey payment) = true /\ multisignatures s = None)
        \/ (exists x, h_getBytes h (set_senderId (address s) (set_id i payment)) true true
                      = Throw x
                      /\ "asset is malformed"%string = Error_toString (Error_toString x))
        \/ (exists base sg k pk x,
              getBytes scope (set_senderId (address s) (set_id i payment)) true true
              = Ok base
              /\ optional_hex (signature payment) = Ok sg
              /\ signer payment = Some k /\ hex k = Ok pk
              /\ ed_Verify scope (sha256 scope base) sg pk = Throw x
              /\ "asset is malformed"%string = Error_toString (Error_toString x))
        \/ (verifySignature scope (set_senderId (address s) (set_id i payment))
              (signer payment) (signature payment) = Ok true
            /\ type_process raising (type payment)
                 (set_senderId (address s) (set_id i payment)) s
               = Raised "asset is malformed")).
Proof.
  apply (process_escapes scope raising payment (Some alice) "asset is malformed").
  vm_compute; reflexivity.
Defined.

Lemma process_silent_witness :
  fst (process scope offline payment (Some alice)) = NoCallback.
Proof.
  apply (proj2 (process_silent scope offline payment (Some alice))).
  exists alice, "13987348420913138422"%string.
  split; [reflexivity|]. split; [vm_compute; reflexivity|].
  split; [reflexivity|]. split; [reflexivity|].
  split; [vm_compute; reflexivity|].
  right. exists None, processed_payment.
  split; [reflexivity|]. split; [reflexivity|].
  right. exists "connection lost"%string. reflexivity.
Defined.

Lemma dbSave_stores_signed_bytes_witness :
  exists ins rest,
    payment_rows = inl ins :: rest
    /\ table ins = "trs"%string
    /\ signature payment <> None
    /\ forall bytes, getBytes scope payment false false = Ok bytes ->
       exists ab rc,
         h_getBytes transfer payment false false = Ok ab
         /\ recipient_field (recipientId payment) = Ok rc
         /\ bytes = [byte_of_Z (col_type (values ins))]
                    ++ le_bytes 4 (col_timestamp (values ins))
                    ++ col_senderPublicKey (values ins)
                    ++ default [] (col_requesterPublicKey (values ins))
                    ++ rc
                    ++ le_bytes 8 (Long_fromNumber (col_amount (values ins)))
                    ++ asset_part ab
                    ++ col_signature (values ins)
                    ++ default [] (col_signSignature (values ins)).
Proof.
  apply (dbSave_stores_signed_bytes scope type_dbSave payment transfer payment_rows).
  - vm_compute; reflexivity.
  - vm_compute; reflexivity.
Defined.

End OnTheScenarios.
